(** * Mikrotik controller: the polling and reconciliation engine

    A shallow embedding of [custom_components/mikrotik_router/mikrotik_controller.py]
    (class [MikrotikControllerData]) and the properties of its table-refresh
    operations.

    Python values are a small tagged union, dictionaries are insertion-ordered
    association lists (the order a Python [dict] iterates in), and a method of
    the controller is a computation in a state-and-exception monad over the
    controller object: an exception leaves the mutations made so far in place,
    as it does in Python. *)

From Stdlib Require Import ZArith List String Bool Lia DecimalString.
From Stdlib Require Import Floats.SpecFloat.
Import ListNotations.
Local Open Scope string_scope.
Local Open Scope Z_scope.

(** ** Python values *)

(** The values the RouterOS API client hands over in a record: strings,
    integers and booleans; [None] is Python's null. *)
Inductive pyval : Type :=
| VNone
| VBool (b : bool)
| VInt (z : Z)
| VStr (s : string).

(** Exceptions the controller's own code can raise. *)
Inductive exn : Type :=
| KeyError (key : pyval)
| TypeError
| ZeroDivisionError
| OverflowError
| ValueError
| NameError (name : string).

Inductive result (A : Type) : Type :=
| Ok (a : A)
| Raise (e : exn).
Arguments Ok {A} a.
Arguments Raise {A} e.

(** [bool] is a subclass of [int]: [True] counts as 1 and [False] as 0. *)
Definition num_of (v : pyval) : option Z :=
  match v with
  | VBool b => Some (if b then 1 else 0)
  | VInt z => Some z
  | _ => None
  end.

(** Python's [==] on these values (also the equality of dictionary keys). *)
Definition py_eq (a b : pyval) : bool :=
  match a, b with
  | VNone, VNone => true
  | VStr s, VStr t => String.eqb s t
  | _, _ =>
      match num_of a, num_of b with
      | Some x, Some y => Z.eqb x y
      | _, _ => false
      end
  end.

(** Truth value of an object, as [if v:] and [not v] take it. *)
Definition truthy (v : pyval) : bool :=
  match v with
  | VNone => false
  | VBool b => b
  | VInt z => negb (Z.eqb z 0)
  | VStr s => negb (String.eqb s "")
  end.

(** ** Dictionaries

    A Python [dict] keeps its keys in insertion order; assigning to a key
    that is already there replaces the value and keeps the key's place. *)
Section Dict.
Context {K V : Type}.
Variable keq : K -> K -> bool.

Definition dict := list (K * V).

Fixpoint dict_get (d : dict) (k : K) : option V :=
  match d with
  | [] => None
  | (k0, v0) :: d' => if keq k0 k then Some v0 else dict_get d' k
  end.

Definition dict_mem (d : dict) (k : K) : bool :=
  match dict_get d k with Some _ => true | None => false end.

Fixpoint dict_set (d : dict) (k : K) (v : V) : dict :=
  match d with
  | [] => [(k, v)]
  | (k0, v0) :: d' =>
      if keq k0 k then (k0, v) :: d' else (k0, v0) :: dict_set d' k v
  end.

Definition dict_keys (d : dict) : list K := map fst d.
End Dict.
Arguments dict : clear implicits.

(** A record maps field names to values; a table maps a key (whatever value
    the key field holds) to a record. *)
Definition record := dict string pyval.
Definition table := dict pyval record.

Definition rec_get (r : record) (f : string) : option pyval := dict_get String.eqb r f.
Definition rec_mem (r : record) (f : string) : bool := dict_mem String.eqb r f.
Definition rec_set (r : record) (f : string) (v : pyval) : record := dict_set String.eqb r f v.

Definition tbl_get (t : table) (k : pyval) : option record := dict_get py_eq t k.
Definition tbl_mem (t : table) (k : pyval) : bool := dict_mem py_eq t k.
Definition tbl_set (t : table) (k : pyval) (r : record) : table := dict_set py_eq t k r.

(** [entry[f]]: a missing field raises [KeyError]. *)
Definition subscript (r : record) (f : string) : result pyval :=
  match rec_get r f with
  | Some v => Ok v
  | None => Raise (KeyError (VStr f))
  end.

(** ** Arithmetic of the usage percentages

    [a - b] on integers, [a / b] (true division: the correctly rounded
    binary64 quotient, [ZeroDivisionError] on a zero divisor), [x * 100] on a
    float and [round(x)] (to the nearest integer, ties to even). Floats are
    binary64 values of the Standard Library's [spec_float]. *)
Definition prec : Z := 53.
Definition emax : Z := 1024.

Definition float_of_int (z : Z) : spec_float := binary_normalize prec emax z 0 false.

Definition py_sub (a b : pyval) : result pyval :=
  match num_of a, num_of b with
  | Some x, Some y => Ok (VInt (x - y))
  | _, _ => Raise TypeError
  end.

Definition int_operand (z : Z) : spec_float :=
  match z with
  | Z0 => S754_zero false
  | Zpos p => S754_finite false p 0
  | Zneg p => S754_finite true p 0
  end.

Definition py_truediv (a b : pyval) : result spec_float :=
  match num_of a, num_of b with
  | Some x, Some y =>
      if y =? 0 then Raise ZeroDivisionError
      else match SFdiv prec emax (int_operand x) (int_operand y) with
           | S754_infinity _ => Raise OverflowError
           | q => Ok q
           end
  | _, _ => Raise TypeError
  end.

Definition py_float_mul_int (x : spec_float) (n : Z) : spec_float :=
  SFmul prec emax x (float_of_int n).

Definition round_half_even (m : positive) (e : Z) : Z :=
  match e with
  | Zneg p =>
      let d := Z.pow_pos 2 p in
      let q := Zpos m / d in
      match (2 * (Zpos m mod d)) ?= d with
      | Lt => q
      | Gt => q + 1
      | Eq => if Z.even q then q else q + 1
      end
  | _ => Zpos m * 2 ^ e
  end.

Definition py_round (x : spec_float) : result pyval :=
  match x with
  | S754_zero _ => Ok (VInt 0)
  | S754_infinity _ => Raise OverflowError
  | S754_nan => Raise ValueError
  | S754_finite s m e => Ok (VInt (cond_Zopp s (round_half_even m e)))
  end.

(** [round(((total - free) / total) * 100)] with its operands evaluated left
    to right. *)
Definition usage_percent (entry : record) (total free : string) : result pyval :=
  match subscript entry total with
  | Raise e => Raise e
  | Ok t =>
  match subscript entry free with
  | Raise e => Raise e
  | Ok f =>
  match py_sub t f with
  | Raise e => Raise e
  | Ok used =>
  match subscript entry total with
  | Raise e => Raise e
  | Ok t' =>
  match py_truediv used t' with
  | Raise e => Raise e
  | Ok q => py_round (py_float_mul_int q 100)
  end end end end end.

(** ** The helper module and the API client

    [helper.py] ([from_entry], [from_entry_bool], [from_list]) and
    [mikrotikapi.py] are imported by the controller. *)

(** One entry of a [vals] / [ensure_vals] list of [from_list]. *)
Record field_spec : Type := {
  fs_name : string;
  fs_source : option string;
  fs_type : option string;
  fs_reverse : bool;
  fs_default : option pyval;
  fs_default_val : option string
}.

Definition fs (name : string) : field_spec :=
  {| fs_name := name; fs_source := None; fs_type := None; fs_reverse := false;
     fs_default := None; fs_default_val := None |}.

(** What the controller needs of the field projector, as an interface: the
    value [from_entry] yields for an absent field when the caller names no
    default, and [from_entry_bool(entry, param, default, reverse)]. The
    projector is pure and raises nothing. *)
Class Helper : Type := {
  from_entry_default : pyval;
  from_entry_bool : record -> string -> option pyval -> bool -> pyval
}.

(** The table merger [from_list(data, source, key, key_search, vals,
    ensure_vals)], as an interface: it returns the merged table and raises
    nothing. *)
Class Merger : Type := {
  from_list : table -> list record -> option string -> option string ->
              list field_spec -> list field_spec -> table
}.

(** Modelled from the spec: [helper.from_entry], the projection of one field
    of a raw record: the field's value when the record has it, the default
    when the field is absent. *)
Definition from_entry `{Helper} (entry : record) (param : string)
    (default : option pyval) : pyval :=
  match rec_get entry param with
  | Some v => v
  | None => match default with Some d => d | None => from_entry_default end
  end.

(** What the router answers: [api.path(path)] and [api.get_traffic(names)],
    a list of raw records (empty when there is no data). *)
Record MikrotikAPI : Type := {
  path : string -> list record;
  get_traffic : string -> list record
}.

Inductive event : Type :=
| CallPath (p : string)
| CallTraffic (names : string)
| DispatcherSend.

Inductive log_line : Type :=
| LogDebug (path : string) (entry : record)
| LogError (msg : string).

(** ** The controller object *)

(** [self.data]: the seven tables and singleton records. *)
Record data : Type := {
  routerboard : record;
  resource : record;
  interface : table;
  arp : table;
  nat : table;
  fw_update : record;
  script : table
}.

(** [self]: the data, the value of the [option_track_arp] property, the API
    client, and what the controller did to the outside: the API calls and
    update signals it made and the lines it logged, oldest first. *)
Record controller : Type := {
  self_data : data;
  option_track_arp : pyval;
  api : MikrotikAPI;
  calls : list event;
  logged : list log_line
}.

(** [__init__]: all tables start empty. *)
Definition init_data : data :=
  {| routerboard := []; resource := []; interface := []; arp := []; nat := [];
     fw_update := []; script := [] |}.

Definition set_data (c : controller) (d : data) : controller :=
  {| self_data := d; option_track_arp := option_track_arp c; api := api c;
     calls := calls c; logged := logged c |}.

Definition set_routerboard (d : data) (r : record) : data :=
  {| routerboard := r; resource := resource d; interface := interface d;
     arp := arp d; nat := nat d; fw_update := fw_update d; script := script d |}.
Definition set_resource (d : data) (r : record) : data :=
  {| routerboard := routerboard d; resource := r; interface := interface d;
     arp := arp d; nat := nat d; fw_update := fw_update d; script := script d |}.
Definition set_interface (d : data) (t : table) : data :=
  {| routerboard := routerboard d; resource := resource d; interface := t;
     arp := arp d; nat := nat d; fw_update := fw_update d; script := script d |}.
Definition set_arp (d : data) (t : table) : data :=
  {| routerboard := routerboard d; resource := resource d; interface := interface d;
     arp := t; nat := nat d; fw_update := fw_update d; script := script d |}.
Definition set_nat (d : data) (t : table) : data :=
  {| routerboard := routerboard d; resource := resource d; interface := interface d;
     arp := arp d; nat := t; fw_update := fw_update d; script := script d |}.
Definition set_fw_update (d : data) (r : record) : data :=
  {| routerboard := routerboard d; resource := resource d; interface := interface d;
     arp := arp d; nat := nat d; fw_update := r; script := script d |}.
Definition set_script (d : data) (t : table) : data :=
  {| routerboard := routerboard d; resource := resource d; interface := interface d;
     arp := arp d; nat := nat d; fw_update := fw_update d; script := t |}.

(** ** Methods as computations

    A method takes the controller, returns a value or raises, and leaves
    the controller as mutated up to that point. *)
Definition M (A : Type) : Type := controller -> result A * controller.

Definition ret {A} (a : A) : M A := fun c => (Ok a, c).
Definition raise {A} (e : exn) : M A := fun c => (Raise e, c).
Definition bind {A B} (m : M A) (k : A -> M B) : M B :=
  fun c =>
    match m c with
    | (Ok a, c') => k a c'
    | (Raise e, c') => (Raise e, c')
    end.
Definition lift {A} (r : result A) : M A := fun c => (r, c).
Definition get_data : M data := fun c => (Ok (self_data c), c).
Definition get_option_track_arp : M pyval := fun c => (Ok (option_track_arp c), c).
Definition modify (f : data -> data) : M unit :=
  fun c => (Ok tt, set_data c (f (self_data c))).

Declare Scope py_scope.
Delimit Scope py_scope with py.
Notation "x <- m ;; k" := (bind m (fun x => k))
  (at level 61, m at next level, right associativity) : py_scope.
Notation "m ;; k" := (bind m (fun _ => k))
  (at level 61, right associativity) : py_scope.
Local Open Scope py_scope.

(** [for entry in data: body(entry)] where the body ends normally or by
    [continue] (both [Ok tt]) or raises. *)
Fixpoint for_each {A} (l : list A) (body : A -> M unit) : M unit :=
  match l with
  | [] => ret tt
  | x :: l' => body x ;; for_each l' body
  end.

(** The controller after one more call or signal, and after one more logged
    line. *)
Definition with_call (c : controller) (e : event) : controller :=
  {| self_data := self_data c; option_track_arp := option_track_arp c;
     api := api c; calls := calls c ++ [e]; logged := logged c |}.

Definition with_log (c : controller) (l : log_line) : controller :=
  {| self_data := self_data c; option_track_arp := option_track_arp c;
     api := api c; calls := calls c; logged := logged c ++ [l] |}.

(** [self.api.path(p)] and [self.api.get_traffic(names)]. *)
Definition api_path (p : string) : M (list record) :=
  fun c => (Ok (path (api c) p), with_call c (CallPath p)).

Definition api_get_traffic (names : string) : M (list record) :=
  fun c => (Ok (get_traffic (api c) names), with_call c (CallTraffic names)).

Definition log (l : log_line) : M unit :=
  fun c => (Ok tt, with_log c l).

(** [if not data:] on a list: true when the list is empty. *)
Definition no_data {A} (l : list A) : bool :=
  match l with [] => true | _ => false end.

(** [self.data[t][f] = v] for the singleton records. *)
Definition assign_resource (f : string) (v : pyval) : M unit :=
  modify (fun d => set_resource d (rec_set (resource d) f v)).
Definition assign_routerboard (f : string) (v : pyval) : M unit :=
  modify (fun d => set_routerboard d (rec_set (routerboard d) f v)).
Definition assign_fw_update (f : string) (v : pyval) : M unit :=
  modify (fun d => set_fw_update d (rec_set (fw_update d) f v)).

(** [self.data[t][uid][f] = v]: [self.data[t][uid]] raises [KeyError] when
    the table has no such key. *)
Definition tbl_assign (t : table) (uid : pyval) (f : string) (v : pyval) : result table :=
  match tbl_get t uid with
  | Some r => Ok (tbl_set t uid (rec_set r f v))
  | None => Raise (KeyError uid)
  end.

Definition assign_in (get : data -> table) (set : data -> table -> data)
    (uid : pyval) (f : string) (v : pyval) : M unit :=
  fun c =>
    match tbl_assign (get (self_data c)) uid f v with
    | Ok t => (Ok tt, set_data c (set (self_data c) t))
    | Raise e => (Raise e, c)
    end.

(** [if uid not in self.data[t]: self.data[t][uid] = {}]. *)
Definition ensure_key (get : data -> table) (set : data -> table -> data)
    (uid : pyval) : M unit :=
  modify (fun d => if tbl_mem (get d) uid then d else set d (tbl_set (get d) uid [])).

(** [self.data[t][uid][f]]. *)
Definition read_in (get : data -> table) (uid : pyval) (f : string) : M pyval :=
  fun c =>
    match tbl_get (get (self_data c)) uid with
    | Some r => (subscript r f, c)
    | None => (Raise (KeyError uid), c)
    end.

(** A loop whose body updates local variables [s]. *)
Fixpoint for_fold {A S} (l : list A) (s : S) (body : A -> S -> M S) : M S :=
  match l with
  | [] => ret s
  | x :: l' => s' <- body x s ;; for_fold l' s' body
  end.

(** [str(v)], as [format] renders a value. *)
Definition py_str (v : pyval) : string :=
  match v with
  | VNone => "None"
  | VBool true => "True"
  | VBool false => "False"
  | VInt z => NilZero.string_of_int (Z.to_int z)
  | VStr s => s
  end.

(** ** Name resolution

    A name that a function body reads and never assigns is looked up among
    the function's parameters, then the module's globals, then the
    builtins; a name bound in none of them raises [NameError]. *)
Inductive pyobj : Type :=
| ObjSelf
| ObjVal (v : pyval)
| ObjGlobal (name : string)
| ObjBuiltin (name : string).

(** The names bound at the top level of [mikrotik_controller.py]. *)
Definition module_globals : list string :=
  [ "__name__"; "__doc__"; "__package__"; "__loader__"; "__spec__"; "__file__";
    "__cached__"; "__builtins__";
    "timedelta"; "logging"; "async_dispatcher_send"; "async_track_time_interval";
    "DOMAIN"; "CONF_TRACK_ARP"; "DEFAULT_TRACK_ARP"; "CONF_SCAN_INTERVAL";
    "DEFAULT_SCAN_INTERVAL"; "MikrotikAPI"; "from_entry"; "from_entry_bool";
    "from_list"; "_LOGGER"; "MikrotikControllerData" ].

(** The names of Python's [builtins] module. *)
Definition builtin_names : list string :=
  [ "ArithmeticError"; "AssertionError"; "AttributeError"; "BaseException";
    "BlockingIOError"; "BrokenPipeError"; "BufferError"; "BytesWarning";
    "ChildProcessError"; "ConnectionAbortedError"; "ConnectionError";
    "ConnectionRefusedError"; "ConnectionResetError"; "DeprecationWarning";
    "EOFError"; "Ellipsis"; "EnvironmentError"; "Exception"; "False";
    "FileExistsError"; "FileNotFoundError"; "FloatingPointError"; "FutureWarning";
    "GeneratorExit"; "IOError"; "ImportError"; "ImportWarning"; "IndentationError";
    "IndexError"; "InterruptedError"; "IsADirectoryError"; "KeyError";
    "KeyboardInterrupt"; "LookupError"; "MemoryError"; "ModuleNotFoundError";
    "NameError"; "None"; "NotADirectoryError"; "NotImplemented";
    "NotImplementedError"; "OSError"; "OverflowError"; "PendingDeprecationWarning";
    "PermissionError"; "ProcessLookupError"; "RecursionError"; "ReferenceError";
    "ResourceWarning"; "RuntimeError"; "RuntimeWarning"; "StopAsyncIteration";
    "StopIteration"; "SyntaxError"; "SyntaxWarning"; "SystemError"; "SystemExit";
    "TabError"; "TimeoutError"; "True"; "TypeError"; "UnboundLocalError";
    "UnicodeDecodeError"; "UnicodeEncodeError"; "UnicodeError";
    "UnicodeTranslateError"; "UnicodeWarning"; "UserWarning"; "ValueError";
    "Warning"; "ZeroDivisionError"; "__build_class__"; "__debug__"; "__import__";
    "abs"; "all"; "any"; "ascii"; "bin"; "bool"; "breakpoint"; "bytearray";
    "bytes"; "callable"; "chr"; "classmethod"; "compile"; "complex"; "copyright";
    "credits"; "delattr"; "dict"; "dir"; "divmod"; "enumerate"; "eval"; "exec";
    "exit"; "filter"; "float"; "format"; "frozenset"; "getattr"; "globals";
    "hasattr"; "hash"; "help"; "hex"; "id"; "input"; "int"; "isinstance";
    "issubclass"; "iter"; "len"; "license"; "list"; "locals"; "map"; "max";
    "memoryview"; "min"; "next"; "object"; "oct"; "open"; "ord"; "pow"; "print";
    "property"; "quit"; "range"; "repr"; "reversed"; "round"; "set"; "setattr";
    "slice"; "sorted"; "staticmethod"; "str"; "sum"; "super"; "tuple"; "type";
    "vars"; "zip" ].

Definition name_in (l : list string) (name : string) : bool :=
  existsb (String.eqb name) l.

Definition load_name (locals : list (string * pyobj)) (name : string) : result pyobj :=
  match dict_get String.eqb locals name with
  | Some o => Ok o
  | None =>
      if name_in module_globals name then Ok (ObjGlobal name)
      else if name_in builtin_names name then Ok (ObjBuiltin name)
      else Raise (NameError name)
  end.

(** ** The methods of [MikrotikControllerData] *)
Section Methods.
Context `{Helper} `{Merger}.

Definition interface_vals : list field_spec :=
  [ fs "default-name";
    {| fs_name := "name"; fs_source := None; fs_type := None; fs_reverse := false;
       fs_default := None; fs_default_val := Some "default-name" |};
    {| fs_name := "type"; fs_source := None; fs_type := None; fs_reverse := false;
       fs_default := Some (VStr "unknown"); fs_default_val := None |};
    {| fs_name := "running"; fs_source := None; fs_type := Some "bool";
       fs_reverse := false; fs_default := None; fs_default_val := None |};
    {| fs_name := "enabled"; fs_source := Some "disabled"; fs_type := Some "bool";
       fs_reverse := true; fs_default := None; fs_default_val := None |};
    {| fs_name := "port-mac-address"; fs_source := Some "mac-address"; fs_type := None;
       fs_reverse := false; fs_default := None; fs_default_val := None |};
    fs "comment"; fs "last-link-down-time"; fs "last-link-up-time";
    fs "link-downs"; fs "tx-queue-drop"; fs "actual-mtu" ].

Definition traffic_vals : list field_spec :=
  [ {| fs_name := "rx-bits-per-second"; fs_source := None; fs_type := None;
       fs_reverse := false; fs_default := Some (VInt 0); fs_default_val := None |};
    {| fs_name := "tx-bits-per-second"; fs_source := None; fs_type := None;
       fs_reverse := false; fs_default := Some (VInt 0); fs_default_val := None |} ].

Definition interface_ensure_vals : list field_spec :=
  fs "client-ip-address" :: fs "client-mac-address" :: traffic_vals.

(** The loop of [get_interface_traffic] that joins the interface names with
    commas; [interface_list] is a string throughout, so appending a name that
    is not a string raises [TypeError]. *)
Fixpoint join_names (t : table) (uids : list pyval) (interface_list : string)
    : result string :=
  match uids with
  | [] => Ok interface_list
  | uid :: uids' =>
      let interface_list :=
        if negb (interface_list =? "")%string then interface_list ++ "," else interface_list in
      match tbl_get t uid with
      | None => Raise (KeyError uid)
      | Some r =>
          match subscript r "name" with
          | Raise e => Raise e
          | Ok (VStr n) => join_names t uids' (interface_list ++ n)
          | Ok _ => Raise TypeError
          end
      end
  end.

Definition get_interface_traffic (interface_list : pyobj) : M unit :=
  d <- get_data ;;
  interface_list <- lift (join_names (interface d) (dict_keys (interface d)) "") ;;
  d <- get_data ;;
  source <- api_get_traffic interface_list ;;
  modify (fun d' =>
    set_interface d' (from_list (interface d) source None (Some "name") traffic_vals [])).

Definition get_interface : M unit :=
  d <- get_data ;;
  source <- api_path "/interface" ;;
  modify (fun d' =>
    set_interface d'
      (from_list (interface d) source (Some "default-name") None
         interface_vals interface_ensure_vals)) ;;
  interface_list <- lift (load_name [("self", ObjSelf)] "interface_list") ;;
  get_interface_traffic interface_list.

(** The value a function returns where the caller tests it against [None]:
    Python's [None] is the absent case. *)
Definition optional (v : pyval) : option pyval :=
  match v with
  | VNone => None
  | _ => Some v
  end.

(** The loop of [get_iface_from_entry]: the first interface, in table order,
    whose ['name'] equals [entry['interface']] gives its ['default-name'];
    [uid] starts as [None] and is what the function returns, so a
    ['default-name'] that is [None] is returned as [None]. *)
Fixpoint find_iface (t : table) (ifacenames : list pyval) (entry : record)
    : result (option pyval) :=
  match ifacenames with
  | [] => Ok None
  | ifacename :: rest =>
      match tbl_get t ifacename with
      | None => Raise (KeyError ifacename)
      | Some r =>
          match subscript r "name" with
          | Raise e => Raise e
          | Ok name =>
              match subscript entry "interface" with
              | Raise e => Raise e
              | Ok wanted =>
                  if py_eq name wanted then
                    match subscript r "default-name" with
                    | Raise e => Raise e
                    | Ok uid => Ok (optional uid)
                    end
                  else find_iface t rest entry
              end
          end
      end
  end.

Definition get_iface_from_entry (entry : record) : M (option pyval) :=
  d <- get_data ;;
  lift (find_iface (interface d) (dict_keys (interface d)) entry).

(** [if not uid:] for a [uid] that is [None] or a value. *)
Definition usable_uid (uid : option pyval) : option pyval :=
  match uid with
  | Some u => if truthy u then Some u else None
  | None => None
  end.

Definition mac2ip_t := dict pyval pyval.

(** The body of the loop of [update_arp]; its locals are [mac2ip] and
    [bridge_used]. *)
Definition update_arp_entry (entry : record) (locals : mac2ip_t * bool)
    : M (mac2ip_t * bool) :=
  let '(mac2ip, bridge_used) := locals in
  invalid <- lift (subscript entry "invalid") ;;
  if truthy invalid then ret (mac2ip, bridge_used) else
  iface <- lift (subscript entry "interface") ;;
  if py_eq iface (VStr "bridge") then
    if rec_mem entry "mac-address" && rec_mem entry "address" then
      address <- lift (subscript entry "address") ;;
      mac <- lift (subscript entry "mac-address") ;;
      ret (dict_set py_eq mac2ip mac address, true)
    else ret (mac2ip, true)
  else
  uid <- get_iface_from_entry entry ;;
  match usable_uid uid with
  | None => ret (mac2ip, bridge_used)
  | Some uid =>
      log (LogDebug "/interface/bridge/host" entry) ;;
      ensure_key arp set_arp uid ;;
      assign_in arp set_arp uid "interface" uid ;;
      d <- get_data ;;
      match tbl_get (arp d) uid with
      | None => raise (KeyError uid)
      | Some r =>
          assign_in arp set_arp uid "mac-address"
            (if negb (rec_mem r "mac-address") then from_entry entry "mac-address" None
             else VStr "multiple")
      end ;;
      d <- get_data ;;
      match tbl_get (arp d) uid with
      | None => raise (KeyError uid)
      | Some r =>
          assign_in arp set_arp uid "address"
            (if negb (rec_mem r "address") then from_entry entry "address" None
             else VStr "multiple")
      end ;;
      ret (mac2ip, bridge_used)
  end.

Definition update_arp (mac2ip : mac2ip_t) (bridge_used : bool) : M (mac2ip_t * bool) :=
  data <- api_path "/ip/arp" ;;
  if no_data data then ret (mac2ip, bridge_used) else
  for_fold data (mac2ip, bridge_used) update_arp_entry.

(** The body of the loop of [update_bridge_hosts]. *)
Definition update_bridge_hosts_entry (mac2ip : mac2ip_t) (entry : record) : M unit :=
  local <- lift (subscript entry "local") ;;
  if truthy local then ret tt else
  uid <- get_iface_from_entry entry ;;
  match usable_uid uid with
  | None => ret tt
  | Some uid =>
      log (LogDebug "/interface/bridge/host" entry) ;;
      ensure_key arp set_arp uid ;;
      assign_in arp set_arp uid "interface" uid ;;
      d <- get_data ;;
      match tbl_get (arp d) uid with
      | None => raise (KeyError uid)
      | Some r =>
          if rec_mem r "mac-address" then
            assign_in arp set_arp uid "mac-address" (VStr "multiple") ;;
            assign_in arp set_arp uid "address" (VStr "multiple")
          else
            assign_in arp set_arp uid "mac-address" (from_entry entry "mac-address" None) ;;
            mac <- read_in arp uid "mac-address" ;;
            if dict_mem py_eq mac2ip mac then
              mac <- read_in arp uid "mac-address" ;;
              match dict_get py_eq mac2ip mac with
              | Some ip => assign_in arp set_arp uid "address" ip
              | None => raise (KeyError mac)
              end
            else assign_in arp set_arp uid "address" (VStr "")
      end
  end.

Definition update_bridge_hosts (mac2ip : mac2ip_t) : M unit :=
  data <- api_path "/interface/bridge/host" ;;
  if no_data data then ret tt else
  for_each data (update_bridge_hosts_entry mac2ip).

(** The body of the loop of [get_interface_client] that runs when tracking
    is off. *)
Definition disable_body (uid : pyval) : M unit :=
  assign_in interface set_interface uid "client-ip-address" (VStr "disabled") ;;
  assign_in interface set_interface uid "client-mac-address" (VStr "disabled").

Definition get_interface_client : M bool :=
  modify (fun d => set_arp d []) ;;
  track <- get_option_track_arp ;;
  if negb (truthy track) then
    d <- get_data ;;
    for_each (dict_keys (interface d)) disable_body ;;
    ret false
  else
  locals <- update_arp [] false ;;
  let '(mac2ip, bridge_used) := locals in
  (if bridge_used : bool then update_bridge_hosts mac2ip else ret tt) ;;
  d <- get_data ;;
  for_each (dict_keys (interface d)) (fun uid =>
    d <- get_data ;;
    if negb (tbl_mem (arp d) uid) then ret tt else
    match tbl_get (arp d) uid with
    | None => raise (KeyError uid)
    | Some r =>
        assign_in interface set_interface uid "client-ip-address"
          (from_entry r "address" None)
    end ;;
    d <- get_data ;;
    match tbl_get (arp d) uid with
    | None => raise (KeyError uid)
    | Some r =>
        assign_in interface set_interface uid "client-mac-address"
          (from_entry r "mac-address" None)
    end) ;;
  ret true.

Definition get_nat_entry (entry : record) : M unit :=
  action <- lift (subscript entry "action") ;;
  if negb (py_eq action (VStr "dst-nat")) then ret tt else
  uid <- lift (subscript entry ".id") ;;
  ensure_key nat set_nat uid ;;
  protocol <- lift (subscript entry "protocol") ;;
  dst_port <- lift (subscript entry "dst-port") ;;
  assign_in nat set_nat uid "name" (VStr (py_str protocol ++ ":" ++ py_str dst_port)) ;;
  assign_in nat set_nat uid ".id" (from_entry entry ".id" None) ;;
  assign_in nat set_nat uid "protocol" (from_entry entry "protocol" None) ;;
  assign_in nat set_nat uid "dst-port" (from_entry entry "dst-port" None) ;;
  assign_in nat set_nat uid "in-interface" (from_entry entry "in-interface" (Some (VStr "any"))) ;;
  assign_in nat set_nat uid "to-addresses" (from_entry entry "to-addresses" None) ;;
  assign_in nat set_nat uid "to-ports" (from_entry entry "to-ports" None) ;;
  assign_in nat set_nat uid "comment" (from_entry entry "comment" None) ;;
  assign_in nat set_nat uid "enabled"
    (from_entry_bool entry "disabled" (Some (VBool true)) true).

Definition get_nat : M unit :=
  data <- api_path "/ip/firewall/nat" ;;
  if no_data data then ret tt else
  for_each data get_nat_entry.

Definition get_system_routerboard_entry (entry : record) : M unit :=
  assign_routerboard "routerboard" (from_entry_bool entry "routerboard" None false) ;;
  assign_routerboard "model" (from_entry entry "model" (Some (VStr "unknown"))) ;;
  assign_routerboard "serial-number" (from_entry entry "serial-number" (Some (VStr "unknown"))) ;;
  assign_routerboard "firmware" (from_entry entry "current-firmware" (Some (VStr "unknown"))).

Definition get_system_routerboard : M unit :=
  data <- api_path "/system/routerboard" ;;
  if no_data data then ret tt else
  for_each data get_system_routerboard_entry.

Definition get_system_resource_entry (entry : record) : M unit :=
  assign_resource "platform" (from_entry entry "platform" (Some (VStr "unknown"))) ;;
  assign_resource "board-name" (from_entry entry "board-name" (Some (VStr "unknown"))) ;;
  assign_resource "version" (from_entry entry "version" (Some (VStr "unknown"))) ;;
  assign_resource "uptime" (from_entry entry "uptime" (Some (VStr "unknown"))) ;;
  assign_resource "cpu-load" (from_entry entry "cpu-load" (Some (VStr "unknown"))) ;;
  (if rec_mem entry "free-memory" && rec_mem entry "total-memory" then
     usage <- lift (usage_percent entry "total-memory" "free-memory") ;;
     assign_resource "memory-usage" usage
   else assign_resource "memory-usage" (VStr "unknown")) ;;
  (if rec_mem entry "free-hdd-space" && rec_mem entry "total-hdd-space" then
     usage <- lift (usage_percent entry "total-hdd-space" "free-hdd-space") ;;
     assign_resource "hdd-usage" usage
   else assign_resource "hdd-usage" (VStr "unknown")).

Definition get_system_resource : M unit :=
  data <- api_path "/system/resource" ;;
  if no_data data then ret tt else
  for_each data get_system_resource_entry.

Definition get_firmware_update_entry (entry : record) : M unit :=
  (if rec_mem entry "status" then
     status <- lift (subscript entry "status") ;;
     assign_fw_update "available"
       (if py_eq status (VStr "New version is available") then VBool true else VBool false)
   else
     d <- get_data ;;
     if negb (rec_mem (fw_update d) "available") then
       assign_fw_update "available" (VBool false)
     else ret tt) ;;
  assign_fw_update "channel" (from_entry entry "channel" (Some (VStr "unknown"))) ;;
  assign_fw_update "installed-version"
    (from_entry entry "installed-version" (Some (VStr "unknown"))) ;;
  assign_fw_update "latest-version"
    (from_entry entry "latest-version" (Some (VStr "unknown"))).

Definition get_firmware_update : M unit :=
  data <- api_path "/system/package/update" ;;
  if no_data data then ret tt else
  for_each data get_firmware_update_entry.

Definition script_without_name : string :=
  "Mikrotik %s found a script without a name. It will not be available in UI.".

Definition get_script_entry (entry : record) : M unit :=
  if negb (rec_mem entry "name") then ret tt else
  name <- lift (subscript entry "name") ;;
  if negb (truthy name) then log (LogError script_without_name) else
  uid <- lift (subscript entry "name") ;;
  ensure_key script set_script uid ;;
  assign_in script set_script uid "name" (from_entry entry "name" None) ;;
  assign_in script set_script uid "last-started"
    (from_entry entry "last-started" (Some (VStr "unknown"))) ;;
  assign_in script set_script uid "run-count"
    (from_entry entry "run-count" (Some (VStr "unknown"))).

Definition get_script : M unit :=
  data <- api_path "/system/script" ;;
  if no_data data then ret tt else
  for_each data get_script_entry.

Definition async_dispatcher_send : M unit :=
  fun c => (Ok tt, with_call c DispatcherSend).

Definition async_fwupdate_check : M unit :=
  get_firmware_update ;;
  async_dispatcher_send.

Definition async_update : M unit :=
  d <- get_data ;;
  (if negb (rec_mem (fw_update d) "available") then async_fwupdate_check else ret tt) ;;
  get_interface ;;
  get_interface_client ;;
  get_nat ;;
  get_system_resource ;;
  get_script ;;
  async_dispatcher_send.

End Methods.

(** A run that ends normally with value [a] and leaves [self.data] as it
    was. *)
Definition leaves_data {A} (m : M A) (a : A) (c : controller) : Prop :=
  fst (m c) = Ok a /\ self_data (snd (m c)) = self_data c.

(** ** The hardware refresh *)
Section Hardware.
Context `{Helper}.

Definition hwinfo_update : M unit :=
  get_system_routerboard ;;
  get_system_resource.

End Hardware.

(** ** Vocabulary of the properties *)

(** [self.data] after is [self.data] before with at most the table that
    [set] writes replaced. *)
Definition changes_only {T} (set : data -> T -> data) (c c' : controller) : Prop :=
  exists x, self_data c' = set (self_data c) x.

(** The controller made no call and sent no signal. *)
Definition same_calls (c c' : controller) : Prop := calls c' = calls c.

(** The controller logged nothing. *)
Definition same_log (c c' : controller) : Prop := logged c' = logged c.

(** The interface table is the same. *)
Definition same_interface (c c' : controller) : Prop :=
  interface (self_data c') = interface (self_data c).

(** A computation keeps a relation between the controller before and after
    it, however it ends. *)
Definition keeps {A} (R : controller -> controller -> Prop) (m : M A) : Prop :=
  forall c, R c (snd (m c)).

(** Every table and record of [self.data] other than ['arp'] and
    ['interface'] is the same in both controllers. *)
Definition same_outside_arp_interface (c c' : controller) : Prop :=
  routerboard (self_data c) = routerboard (self_data c') /\
  resource (self_data c) = resource (self_data c') /\
  nat (self_data c) = nat (self_data c') /\
  fw_update (self_data c) = fw_update (self_data c') /\
  script (self_data c) = script (self_data c').

(** Every script of the table sits under a key that is not empty and that
    equals the ['name'] the record holds. *)
Definition keyed_by_name (t : table) : Prop :=
  forall k r, In (k, r) t ->
    truthy k = true /\ exists n, rec_get r "name" = Some n /\ py_eq k n = true.

(** A raw script record whose ['name'] is there and empty. *)
Definition empty_name (entry : record) : bool :=
  match rec_get entry "name" with
  | Some n => negb (truthy n)
  | None => false
  end.

(** The record [get_script] leaves under a script's key, from the raw
    [entry] and the record [r0] the key held before. *)
Definition script_record `{Helper} (entry r0 : record) : record :=
  rec_set
    (rec_set (rec_set r0 "name" (from_entry entry "name" None))
       "last-started" (from_entry entry "last-started" (Some (VStr "unknown"))))
    "run-count" (from_entry entry "run-count" (Some (VStr "unknown"))).

(** [entry] names an interface of the table, whose uid is [uid] (and is not
    empty): what [get_iface_from_entry] finds and [if not uid] lets pass. *)
Definition resolves_to (c : controller) (entry : record) (uid : pyval) : Prop :=
  find_iface (interface (self_data c)) (dict_keys (interface (self_data c))) entry
    = Ok (Some uid) /\
  truthy uid = true.

(** A raw ARP record that is not invalid, was not seen on the bridge and
    resolves to [uid]. *)
Definition arp_candidate (c : controller) (entry : record) (uid : pyval) : Prop :=
  (exists invalid, rec_get entry "invalid" = Some invalid /\ truthy invalid = false) /\
  (exists iface, rec_get entry "interface" = Some iface /\
                 py_eq iface (VStr "bridge") = false) /\
  resolves_to c entry uid.

(** The record [update_arp] leaves under [uid], from the raw [entry] and the
    record [r0] the key held before ([[]] for a new key). *)
Definition arp_record `{Helper} (entry : record) (uid : pyval) (r0 : record) : record :=
  let r1 := rec_set r0 "interface" uid in
  let r2 := rec_set r1 "mac-address"
              (if negb (rec_mem r1 "mac-address") then from_entry entry "mac-address" None
               else VStr "multiple") in
  rec_set r2 "address"
    (if negb (rec_mem r2 "address") then from_entry entry "address" None
     else VStr "multiple").

(** The record [update_bridge_hosts] leaves under [uid], from the raw
    [entry], the MAC-to-IP table and the record [r0] the key held before. *)
Definition bridge_record `{Helper} (entry : record) (uid : pyval) (mac2ip : dict pyval pyval)
    (r0 : record) : record :=
  let r1 := rec_set r0 "interface" uid in
  if rec_mem r1 "mac-address" then
    rec_set (rec_set r1 "mac-address" (VStr "multiple")) "address" (VStr "multiple")
  else
    let mac := from_entry entry "mac-address" None in
    rec_set (rec_set r1 "mac-address" mac) "address"
      match dict_get py_eq mac2ip mac with
      | Some ip => ip
      | None => VStr ""
      end.

(** The ARP entry of [uid] has a MAC and an address recorded. *)
Definition arp_seen (uid : pyval) (c : controller) : Prop :=
  exists r, tbl_get (arp (self_data c)) uid = Some r /\
            rec_mem r "mac-address" = true /\ rec_mem r "address" = true.

(** The ARP entry of [uid] holds "multiple" as MAC and as address. *)
Definition arp_multiple (uid : pyval) (c : controller) : Prop :=
  exists r, tbl_get (arp (self_data c)) uid = Some r /\
            rec_get r "mac-address" = Some (VStr "multiple") /\
            rec_get r "address" = Some (VStr "multiple").

(** The record a table holds under a key, [[]] when the key is new. *)
Definition record_at (t : table) (uid : pyval) : record :=
  match tbl_get t uid with
  | Some r => r
  | None => []
  end.

(** The ARP table and the calls made are the same in both controllers. *)
Definition same_arp_and_calls (c c' : controller) : Prop :=
  arp (self_data c) = arp (self_data c') /\ calls c = calls c'.

(** No two keys of the list are equal: the keys of a Python [dict]. *)
Fixpoint distinct_keys (ks : list pyval) : Prop :=
  match ks with
  | [] => True
  | k :: ks' => (forall k', In k' ks' -> py_eq k k' = false) /\ distinct_keys ks'
  end.

(** Both client fields of an interface record hold the string "disabled". *)
Definition client_disabled (r : record) : Prop :=
  rec_get r "client-ip-address" = Some (VStr "disabled") /\
  rec_get r "client-mac-address" = Some (VStr "disabled").

(** The interface under key [k] has a name, the entry names an interface,
    and comparing the two gives [same]. *)
Definition name_matches (t : table) (entry : record) (same : bool) (k : pyval) : Prop :=
  exists r name wanted,
    tbl_get t k = Some r /\ rec_get r "name" = Some name /\
    rec_get entry "interface" = Some wanted /\ py_eq name wanted = same.

(** The raw NAT record is a destination-NAT rule. *)
Definition is_dst_nat (entry : record) : bool :=
  match rec_get entry "action" with
  | Some action => py_eq action (VStr "dst-nat")
  | None => false
  end.

(** The raw NAT record has every field [get_nat] subscripts: ['action'],
    and for a destination-NAT rule ['.id'], ['protocol'] and ['dst-port']. *)
Definition nat_ready (entry : record) : bool :=
  rec_mem entry "action" &&
  (negb (is_dst_nat entry) ||
   (rec_mem entry ".id" && rec_mem entry "protocol" && rec_mem entry "dst-port")).

(** The record [get_nat] leaves under a rule's id, from the raw [entry] and
    the record [r0] the id held before. *)
Definition nat_record `{Helper} (entry : record) (r0 : record) : record :=
  let name := VStr (py_str (from_entry entry "protocol" None) ++ ":" ++
                    py_str (from_entry entry "dst-port" None)) in
  rec_set (rec_set (rec_set (rec_set (rec_set (rec_set (rec_set (rec_set (rec_set r0
    "name" name)
    ".id" (from_entry entry ".id" None))
    "protocol" (from_entry entry "protocol" None))
    "dst-port" (from_entry entry "dst-port" None))
    "in-interface" (from_entry entry "in-interface" (Some (VStr "any"))))
    "to-addresses" (from_entry entry "to-addresses" None))
    "to-ports" (from_entry entry "to-ports" None))
    "comment" (from_entry entry "comment" None))
    "enabled" (from_entry_bool entry "disabled" (Some (VBool true)) true).

(** A destination-NAT rule of the batch has an id equal to [k]. *)
Definition dst_nat_id (batch : list record) (k : pyval) : Prop :=
  exists entry uid, In entry batch /\ is_dst_nat entry = true /\
                    rec_get entry ".id" = Some uid /\ py_eq uid k = true.

(** A record of the batch has a non-empty name equal to [k]. *)
Definition script_name (batch : list record) (k : pyval) : Prop :=
  exists entry n, In entry batch /\ rec_get entry "name" = Some n /\
                  truthy n = true /\ py_eq n k = true.

(** The ['status'] of the last record of the batch that has one. *)
Fixpoint last_status (batch : list record) : option pyval :=
  match batch with
  | [] => None
  | entry :: rest =>
      match last_status rest with
      | Some status => Some status
      | None => rec_get entry "status"
      end
  end.

(** A raw ARP record that is not invalid and was seen on the bridge. *)
Definition on_bridge (entry : record) : bool :=
  match rec_get entry "invalid", rec_get entry "interface" with
  | Some invalid, Some iface => negb (truthy invalid) && py_eq iface (VStr "bridge")
  | _, _ => false
  end.

(** A raw ARP record that [update_arp] attributes to no interface: it is
    flagged invalid, or it was seen on the bridge. *)
Definition off_interfaces (entry : record) : bool :=
  match rec_get entry "invalid" with
  | Some invalid => truthy invalid || on_bridge entry
  | None => false
  end.

(** The MAC-to-IP table after the bridge records of a batch: each record on
    the bridge that has both fields maps its MAC to its address. *)
Definition learn_mac (mac2ip : dict pyval pyval) (entry : record) : dict pyval pyval :=
  if on_bridge entry then
    match rec_get entry "mac-address", rec_get entry "address" with
    | Some mac, Some address => dict_set py_eq mac2ip mac address
    | _, _ => mac2ip
    end
  else mac2ip.

(** A computation that, when it ends normally, returns [x]. *)
Definition returns_only {A} (x : A) (m : M A) : Prop :=
  forall c r, fst (m c) = Ok r -> r = x.

(** The body of the last loop of [get_interface_client], which maps the ARP
    table onto the interfaces. *)
Definition copy_client `{Helper} (uid : pyval) : M unit :=
  (d <- get_data ;;
   if negb (tbl_mem (arp d) uid) then ret tt else
   match tbl_get (arp d) uid with
   | None => raise (KeyError uid)
   | Some r =>
       assign_in interface set_interface uid "client-ip-address"
         (from_entry r "address" None)
   end ;;
   d <- get_data ;;
   match tbl_get (arp d) uid with
   | None => raise (KeyError uid)
   | Some r =>
       assign_in interface set_interface uid "client-mac-address"
         (from_entry r "mac-address" None)
   end)%py.

(** The client fields of the interface record [r] are those of the ARP
    record [ra]. *)
Definition client_copied `{Helper} (ra r : record) : Prop :=
  rec_get r "client-ip-address" = Some (from_entry ra "address" None) /\
  rec_get r "client-mac-address" = Some (from_entry ra "mac-address" None).

(** The interface under key [k] has the non-empty string [n] as its name. *)
Definition named (t : table) (k : pyval) (n : string) : Prop :=
  exists r, tbl_get t k = Some r /\ rec_get r "name" = Some (VStr n) /\ n <> "".

(** The pair of counters [total], [free] of a resource record is incomplete,
    or both counters hold the same number and it is not zero. *)
Definition absent_or_all_free (entry : record) (total free : string) : Prop :=
  rec_mem entry free && rec_mem entry total = false \/
  exists tv fv t, rec_get entry total = Some tv /\ rec_get entry free = Some fv /\
                  num_of tv = Some t /\ num_of fv = Some t /\ t <> 0.

(** A bridge host record flagged as the bridge's own port. *)
Definition is_local (entry : record) : bool :=
  match rec_get entry "local" with
  | Some local => truthy local
  | None => false
  end.

(** The value of a field, or "unknown" when the record has no such field. *)
Definition or_unknown (entry : record) (f : string) : pyval :=
  match rec_get entry f with
  | Some v => v
  | None => VStr "unknown"
  end.

(** ** Sample inputs *)

(** A helper that yields the empty string for an absent field and takes the
    truth value of a present one. *)
Definition sample_helper : Helper :=
  {| from_entry_default := VStr "";
     from_entry_bool := fun entry param default reverse =>
       match rec_get entry param with
       | Some v => VBool (xorb reverse (truthy v))
       | None => match default with Some d => d | None => VBool false end
       end |}.

Definition router (answers : list (string * list record)) : MikrotikAPI :=
  {| path := fun p => match dict_get String.eqb answers p with
                      | Some l => l
                      | None => []
                      end;
     get_traffic := fun _ => [] |}.

Definition controller_of (d : data) (track : pyval)
    (answers : list (string * list record)) : controller :=
  {| self_data := d; option_track_arp := track; api := router answers;
     calls := []; logged := [] |}.

(** A router that reports no memory at all. *)
Definition resource_zero_memory : controller :=
  controller_of init_data (VBool true)
    [("/system/resource",
      [[("platform", VStr "MikroTik"); ("total-memory", VInt 0); ("free-memory", VInt 0)]])].

(** A router that reports a disk of size zero. *)
Definition resource_zero_hdd : controller :=
  controller_of init_data (VBool true)
    [("/system/resource",
      [[("total-memory", VInt 1000); ("free-memory", VInt 250);
        ("total-hdd-space", VInt 0); ("free-hdd-space", VInt 0)]])].

Definition resource_1000_250 : controller :=
  controller_of init_data (VBool true)
    [("/system/resource", [[("total-memory", VInt 1000); ("free-memory", VInt 250)]])].

(** A destination-NAT rule that matches on address only: no ['dst-port']. *)
Definition nat_without_dst_port : controller :=
  controller_of init_data (VBool true)
    [("/ip/firewall/nat",
      [[(".id", VStr "*1"); ("action", VStr "dst-nat"); ("protocol", VStr "tcp");
        ("to-addresses", VStr "192.168.88.10")]])].

Definition nat_without_action : controller :=
  controller_of init_data (VBool true)
    [("/ip/firewall/nat", [[(".id", VStr "*1"); ("chain", VStr "srcnat")]])].

Definition nat_without_protocol : controller :=
  controller_of init_data (VBool true)
    [("/ip/firewall/nat",
      [[(".id", VStr "*1"); ("action", VStr "dst-nat"); ("dst-port", VInt 80)]])].

Definition nat_without_id : controller :=
  controller_of init_data (VBool true)
    [("/ip/firewall/nat",
      [[("action", VStr "dst-nat"); ("protocol", VStr "tcp"); ("dst-port", VInt 80)]])].

Definition ether1 : record :=
  [("default-name", VStr "ether1"); ("name", VStr "ether1")].

Definition one_interface : data := set_interface init_data [(VStr "ether1", ether1)].

Definition arp_without_invalid : controller :=
  controller_of one_interface (VBool true)
    [("/ip/arp",
      [[("interface", VStr "ether1"); ("mac-address", VStr "AA:BB:CC:00:00:01")]])].

Definition arp_without_interface : controller :=
  controller_of one_interface (VBool true)
    [("/ip/arp",
      [[("invalid", VBool false); ("mac-address", VStr "AA:BB:CC:00:00:01")]])].

Definition ether2 : record :=
  [("default-name", VStr "ether2"); ("name", VStr "lan");
   ("client-ip-address", VStr "192.168.88.20");
   ("client-mac-address", VStr "AA:BB:CC:00:00:02")].

Definition two_interfaces : data :=
  set_arp
    (set_interface init_data [(VStr "ether1", ether1); (VStr "ether2", ether2)])
    [(VStr "ether2", [("interface", VStr "ether2");
                      ("mac-address", VStr "AA:BB:CC:00:00:02");
                      ("address", VStr "192.168.88.20")])].

(** Client tracking switched off; the router would have ARP data to give. *)
Definition tracking_disabled : controller :=
  controller_of two_interfaces (VBool false)
    [("/ip/arp",
      [[("invalid", VBool false); ("interface", VStr "lan");
        ("mac-address", VStr "AA:BB:CC:00:00:02"); ("address", VStr "192.168.88.20")]])].

(** A poll found an update; the next answer has no ['status']. *)
Definition update_seen_status_omitted : controller :=
  controller_of
    (set_fw_update init_data
       [("available", VBool true); ("channel", VStr "stable");
        ("installed-version", VStr "6.45.1"); ("latest-version", VStr "6.45.2")])
    (VBool true)
    [("/system/package/update",
      [[("channel", VStr "stable"); ("installed-version", VStr "6.45.1")]])].

Definition status_omitted_entry : record :=
  [("channel", VStr "stable"); ("installed-version", VStr "6.45.1")].

(** Scripts as the router lists them: one named, one with an empty name, one
    with no name at all. *)
Definition script_batch : list record :=
  [ [("name", VStr "backup"); ("run-count", VInt 3)];
    [("name", VStr ""); ("run-count", VInt 1)];
    [("run-count", VInt 7)] ].

Definition scripts_listed : controller :=
  controller_of init_data (VBool true) [("/system/script", script_batch)].

(** Two hosts seen on the same port. *)
Definition arp_first : record :=
  [("invalid", VBool false); ("interface", VStr "ether1");
   ("mac-address", VStr "AA:BB:CC:00:00:01"); ("address", VStr "192.168.88.11")].
Definition arp_second : record :=
  [("invalid", VBool false); ("interface", VStr "ether1");
   ("mac-address", VStr "AA:BB:CC:00:00:02"); ("address", VStr "192.168.88.12")].

Definition two_hosts_on_ether1 : controller :=
  controller_of one_interface (VBool true) [("/ip/arp", [arp_first; arp_second])].

(** A host behind the bridge port named "lan", whose address the ARP table
    of the bridge gave. *)
Definition bridge_host : record :=
  [("local", VBool false); ("interface", VStr "lan");
   ("mac-address", VStr "AA:BB:CC:00:00:02")].

Definition bridge_mac2ip : dict pyval pyval :=
  [(VStr "AA:BB:CC:00:00:02", VStr "192.168.88.20")].

Definition one_bridge_host : controller :=
  controller_of
    (set_interface init_data [(VStr "ether1", ether1); (VStr "ether2", ether2)])
    (VBool true)
    [("/interface/bridge/host", [bridge_host])].

(** The same two hosts among other ARP records: one invalid, one seen on the
    bridge, one on an interface the table does not know. *)
Definition arp_mixed_batch : list record :=
  [ [("invalid", VBool true); ("interface", VStr "ether1")];
    arp_first;
    [("invalid", VBool false); ("interface", VStr "bridge");
     ("mac-address", VStr "AA:BB:CC:00:00:09"); ("address", VStr "192.168.88.19")];
    arp_second;
    [("invalid", VBool false); ("interface", VStr "wlan7");
     ("mac-address", VStr "AA:BB:CC:00:00:03")] ].

Definition two_hosts_among_others : controller :=
  controller_of one_interface (VBool true) [("/ip/arp", arp_mixed_batch)].

(** A router with nothing configured: every endpoint answers with no data. *)
Definition silent_router : controller :=
  controller_of one_interface (VBool true) [].

(** NAT rules as the router lists them: a masquerade rule and a port
    forward without ['in-interface']. *)
Definition nat_forward : record :=
  [(".id", VStr "*2"); ("action", VStr "dst-nat"); ("protocol", VStr "tcp");
   ("dst-port", VInt 8080); ("to-addresses", VStr "192.168.88.10");
   ("to-ports", VInt 80); ("disabled", VBool false)].

Definition nat_batch : list record :=
  [ [(".id", VStr "*1"); ("action", VStr "masquerade"); ("chain", VStr "srcnat")];
    nat_forward ].

Definition nat_listed : controller :=
  controller_of (set_nat init_data [(VStr "*7", [("name", VStr "udp:53")])])
    (VBool true) [("/ip/firewall/nat", nat_batch)].

(** A destination-NAT rule the table does not know yet, without protocol,
    ahead of a complete one. *)
Definition nat_faulty_first : controller :=
  controller_of (set_nat init_data [(VStr "*7", [("name", VStr "udp:53")])])
    (VBool true)
    [("/ip/firewall/nat",
      [[(".id", VStr "*3"); ("action", VStr "dst-nat"); ("dst-port", VInt 22)];
       nat_forward])].

(** The script table knows "backup" from an earlier cycle, with a field of
    its own; the router now lists it with a new run count. *)
Definition script_relisted : controller :=
  controller_of
    (set_script init_data
       [(VStr "backup", [("name", VStr "backup"); ("run-count", VInt 2);
                         ("pinned", VBool true)]);
        (VStr "cleanup", [("name", VStr "cleanup"); ("run-count", VInt 0)])])
    (VBool true)
    [("/system/script",
      [[("name", VStr "reboot"); ("run-count", VInt 1)];
       [("name", VStr "backup"); ("run-count", VInt 3)]])].

(** An update answer in two records, only the first with a status. *)
Definition update_in_two_records : controller :=
  controller_of init_data (VBool true)
    [("/system/package/update",
      [[("status", VStr "New version is available"); ("channel", VStr "stable")];
       [("installed-version", VStr "6.45.1"); ("latest-version", VStr "6.45.2")]])].

(** ARP records none of which belongs to an interface: one invalid, two seen
    on the bridge, the second without an address. *)
Definition arp_bridge_only : controller :=
  controller_of two_interfaces (VBool true)
    [("/ip/arp",
      [[("invalid", VBool true); ("interface", VStr "lan")];
       [("invalid", VBool false); ("interface", VStr "bridge");
        ("mac-address", VStr "AA:BB:CC:00:00:09"); ("address", VStr "192.168.88.19")];
       [("invalid", VBool false); ("interface", VStr "bridge");
        ("mac-address", VStr "AA:BB:CC:00:00:0A")]])].

(** Two hosts behind the bridge port named "lan". *)
Definition bridge_host_second : record :=
  [("local", VBool false); ("interface", VStr "lan");
   ("mac-address", VStr "AA:BB:CC:00:00:0B")].

Definition two_bridge_hosts : controller :=
  controller_of
    (set_interface init_data [(VStr "ether1", ether1); (VStr "ether2", ether2)])
    (VBool true)
    [("/interface/bridge/host", [bridge_host; bridge_host_second])].

(** Tracking on, one host seen on the interface named "lan"; "ether1" has
    client fields left from an earlier cycle. *)
Definition one_host_on_lan : controller :=
  controller_of
    (set_interface init_data
       [(VStr "ether1", [("default-name", VStr "ether1"); ("name", VStr "ether1");
                         ("client-ip-address", VStr "192.168.88.11");
                         ("client-mac-address", VStr "AA:BB:CC:00:00:01")]);
        (VStr "ether2", ether2)])
    (VBool true)
    [("/ip/arp",
      [[("invalid", VBool false); ("interface", VStr "lan");
        ("mac-address", VStr "AA:BB:CC:00:00:0C"); ("address", VStr "192.168.88.30")]])].

(** Tracking on, and the router has no ARP entry at all. *)
Definition no_arp_data : controller :=
  controller_of two_interfaces (VBool true) [].

(** Tracking on; the router has a host on "lan" and one on the bridge, and
    the bridge host table places the latter behind "ether1". *)
Definition host_behind_bridge : controller :=
  controller_of
    (set_interface init_data [(VStr "ether1", ether1); (VStr "ether2", ether2)])
    (VBool true)
    [("/ip/arp",
      [[("invalid", VBool false); ("interface", VStr "lan");
        ("mac-address", VStr "AA:BB:CC:00:00:0C"); ("address", VStr "192.168.88.30")];
       [("invalid", VBool false); ("interface", VStr "bridge");
        ("mac-address", VStr "AA:BB:CC:00:00:0D"); ("address", VStr "192.168.88.40")]]);
     ("/interface/bridge/host",
      [[("local", VBool false); ("interface", VStr "ether1");
        ("mac-address", VStr "AA:BB:CC:00:00:0D")]])].

(** A merger that hands the table back as it is; it lets the methods that
    call the merger run on sample inputs. *)
Definition traffic_merger : Merger :=
  {| from_list := fun data source key key_search vals ensure_vals => data |}.

(** A router with all its memory free and no disk counters. *)
Definition resource_all_free : controller :=
  controller_of init_data (VBool true)
    [("/system/resource",
      [[("platform", VStr "MikroTik"); ("total-memory", VInt 134217728);
        ("free-memory", VInt 134217728); ("total-hdd-space", VInt 16777216)]])].

(** A routerboard answer without a serial number, for a controller whose
    routerboard record has a field of its own. *)
Definition routerboard_listed : controller :=
  controller_of (set_routerboard init_data [("site", VStr "attic")]) (VBool true)
    [("/system/routerboard",
      [[("routerboard", VBool true); ("model", VStr "RB750Gr3");
        ("current-firmware", VStr "6.45.1")]])].

(** Bridge host records that are all the bridge's own ports. *)
Definition local_hosts_only : controller :=
  controller_of two_interfaces (VBool true)
    [("/interface/bridge/host",
      [[("local", VBool true); ("interface", VStr "lan")];
       [("local", VBool true); ("mac-address", VStr "AA:BB:CC:00:00:FF")]])].

(** One host seen on the interface named "lan", into an empty ARP table. *)
Definition arp_lan_host : record :=
  [("invalid", VBool false); ("interface", VStr "lan");
   ("mac-address", VStr "AA:BB:CC:00:00:0C"); ("address", VStr "192.168.88.30")].

(** An interface table in which the interface named "lan" has [None] as its
    ['default-name']. *)
Definition unnamed_default : controller :=
  controller_of
    (set_interface init_data
       [(VStr "ether1", ether1);
        (VNone, [("default-name", VNone); ("name", VStr "lan")])])
    (VBool true) [].

(** An answer of three bridge host records: the bridge's own port, then the
    host of [bridge_host], then a second host behind the same port. *)
Definition bridge_port_record : record :=
  [("local", VBool true); ("interface", VStr "lan")].

Definition bridge_second_host : record :=
  [("local", VBool false); ("interface", VStr "lan");
   ("mac-address", VStr "AA:BB:CC:00:00:05")].

Definition three_bridge_hosts : controller :=
  controller_of
    (set_interface init_data [(VStr "ether1", ether1); (VStr "ether2", ether2)])
    (VBool true)
    [("/interface/bridge/host", [bridge_port_record; bridge_host; bridge_second_host])].

(** * Properties *)

(** ** Equality of keys *)

Lemma py_eq_refl a : py_eq a a = true.
Proof. destruct a as [| [] | z | s]; simpl; auto using Z.eqb_refl, String.eqb_refl. Qed.

Lemma py_eq_sym a b : py_eq a b = py_eq b a.
Proof.
  destruct a as [| [] | z | s], b as [| [] | z' | s']; simpl;
    auto using Z.eqb_sym, String.eqb_sym.
Qed.

Lemma py_eq_num a b :
  py_eq a b = true ->
  (a = VNone /\ b = VNone) \/ (exists s, a = VStr s /\ b = VStr s) \/
  (exists z, num_of a = Some z /\ num_of b = Some z).
Proof.
  destruct a as [| x | z | s], b as [| y | z' | s']; simpl; try discriminate; auto.
  - intros E%Z.eqb_eq. right; right. rewrite E. eauto.
  - intros E%Z.eqb_eq. right; right. rewrite E. eauto.
  - intros E%Z.eqb_eq. right; right. rewrite E. eauto.
  - intros E%Z.eqb_eq. right; right. rewrite E. eauto.
  - intros E%String.eqb_eq. right; left. subst. eauto.
Qed.

Lemma py_eq_trans a b c : py_eq a b = true -> py_eq b c = true -> py_eq a c = true.
Proof.
  intros [[-> ->] | [[s [-> ->]] | [z [Ha Hb]]]]%py_eq_num; auto.
  intros [[-> ->] | [[s [-> ->]] | [z' [Hb' Hc]]]]%py_eq_num; try discriminate.
  assert (E : num_of a = num_of c) by congruence. clear - E Ha.
  destruct a as [| [] | x | x], c as [| [] | y | y]; simpl in *; try discriminate;
    try (injection E as E; subst); try reflexivity; apply Z.eqb_refl.
Qed.

Lemma py_eq_truthy a b : py_eq a b = true -> truthy a = truthy b.
Proof.
  intros [[-> ->] | [[s [-> ->]] | [z [Ha Hb]]]]%py_eq_num; auto.
  assert (E : num_of a = num_of b) by congruence. clear - E Ha.
  destruct a as [| [] | x | x], b as [| [] | y | y]; simpl in *; try discriminate;
    try (injection E as E; subst); reflexivity.
Qed.

Lemma py_eq_str v s : py_eq v (VStr s) = true <-> v = VStr s.
Proof.
  split.
  - destruct v as [| [] | z | t]; simpl; try discriminate.
    now intros ->%String.eqb_eq.
  - intros ->. apply py_eq_refl.
Qed.

Lemma str_eqb_trans (a b c : string) :
  String.eqb a b = true -> String.eqb b c = true -> String.eqb a c = true.
Proof. intros ->%String.eqb_eq. auto. Qed.

(** ** Dictionary facts *)
Section DictFacts.
Context {K V : Type}.
Variable keq : K -> K -> bool.
Hypothesis keq_refl : forall a, keq a a = true.
Hypothesis keq_sym : forall a b, keq a b = keq b a.
Hypothesis keq_trans : forall a b c, keq a b = true -> keq b c = true -> keq a c = true.
Implicit Types (d : dict K V) (k : K) (v : V).

Lemma keq_congr a b c : keq a b = true -> keq a c = keq b c.
Proof.
  intros Hab. destruct (keq b c) eqn:Hbc.
  - eauto.
  - destruct (keq a c) eqn:Hac; [|reflexivity].
    rewrite keq_sym in Hab. rewrite <- Hbc. symmetry. eauto.
Qed.

Lemma dict_get_set_eq d k k' v :
  keq k k' = true -> dict_get keq (dict_set keq d k v) k' = Some v.
Proof.
  intros H. induction d as [|[k0 v0] d IH]; simpl.
  - now rewrite H.
  - destruct (keq k0 k) eqn:E; simpl.
    + now rewrite (keq_congr _ _ k' E), H.
    + assert (keq k0 k' = false) as ->; [|exact IH].
      destruct (keq k0 k') eqn:E'; [|reflexivity].
      rewrite <- E. symmetry. rewrite keq_sym in H.
      exact (keq_trans _ _ _ E' H).
Qed.

Lemma dict_get_set_same d k v : dict_get keq (dict_set keq d k v) k = Some v.
Proof. apply dict_get_set_eq, keq_refl. Qed.

Lemma dict_get_set_other d k k' v :
  keq k k' = false -> dict_get keq (dict_set keq d k v) k' = dict_get keq d k'.
Proof.
  intros H. induction d as [|[k0 v0] d IH]; simpl.
  - now rewrite H.
  - destruct (keq k0 k) eqn:E; simpl.
    + now rewrite !(keq_congr _ _ k' E), H.
    + now rewrite IH.
Qed.

Lemma dict_get_set d k k' v :
  dict_get keq (dict_set keq d k v) k' =
  if keq k k' then Some v else dict_get keq d k'.
Proof.
  destruct (keq k k') eqn:E;
    [now apply dict_get_set_eq | now apply dict_get_set_other].
Qed.

Lemma dict_get_congr d k k' :
  keq k k' = true -> dict_get keq d k = dict_get keq d k'.
Proof.
  intros H. induction d as [|[k0 v0] d IH]; simpl; [reflexivity|].
  rewrite IH. replace (keq k0 k') with (keq k0 k); [reflexivity|].
  rewrite (keq_sym k0 k), (keq_sym k0 k'). now apply keq_congr.
Qed.

(** Assigning to a key the dictionary has keeps its keys as they are. *)
Lemma dict_keys_set_present d k v :
  dict_mem keq d k = true -> dict_keys (dict_set keq d k v) = dict_keys d.
Proof.
  unfold dict_mem, dict_keys. induction d as [|[k0 v0] d IH]; simpl.
  - discriminate.
  - destruct (keq k0 k); simpl; [reflexivity|].
    intros Hm. now rewrite IH.
Qed.

(** Every key the dictionary iterates over can be looked up. *)
Lemma dict_get_key d k :
  In k (dict_keys d) -> exists v, dict_get keq d k = Some v.
Proof.
  unfold dict_keys. induction d as [|[k0 v0] d IH]; simpl; [tauto|].
  intros [-> | Hin].
  - rewrite keq_refl. eauto.
  - destruct (keq k0 k); eauto.
Qed.

(** A second assignment to a key overwrites the first. *)
Lemma dict_set_set d k v v' : dict_set keq (dict_set keq d k v) k v' = dict_set keq d k v'.
Proof.
  induction d as [|[k0 v0] d IH]; simpl.
  - now rewrite keq_refl.
  - destruct (keq k0 k) eqn:E; simpl; rewrite E; [reflexivity | now rewrite IH].
Qed.

(** An assignment changes at most the entry of a key equal to the one
    assigned. *)
Lemma dict_set_in d k v k1 v1 :
  In (k1, v1) (dict_set keq d k v) ->
  In (k1, v1) d \/ (v1 = v /\ keq k1 k = true).
Proof.
  induction d as [|[k0 v0] d IH]; simpl.
  - intros [[= <- <-] | []]. right. split; [reflexivity | apply keq_refl].
  - destruct (keq k0 k) eqn:E; simpl.
    + intros [[= <- <-] | Hin]; auto.
    + intros [Heq | Hin]; auto. destruct (IH Hin); auto.
Qed.

(** A successful lookup found one of the keys. *)
Lemma dict_get_some_key d k v :
  dict_get keq d k = Some v ->
  exists k0, In (k0, v) d /\ keq k0 k = true.
Proof.
  induction d as [|[k0 v0] d IH]; simpl; [discriminate|].
  destruct (keq k0 k) eqn:E.
  - intros [= <-]. eauto.
  - intros (k1 & Hin & Hk)%IH. eauto.
Qed.
End DictFacts.

(** ** The usage arithmetic on sample counters *)

Example usage_percent_1000_250 :
  usage_percent [("total-memory", VInt 1000); ("free-memory", VInt 250)]
    "total-memory" "free-memory" = Ok (VInt 75).
Proof. reflexivity. Qed.

Example usage_percent_1000_425 :
  usage_percent [("total-memory", VInt 1000); ("free-memory", VInt 425)]
    "total-memory" "free-memory" = Ok (VInt 57).
Proof. reflexivity. Qed.

Example usage_percent_3_1 :
  usage_percent [("total-memory", VInt 3); ("free-memory", VInt 1)]
    "total-memory" "free-memory" = Ok (VInt 67).
Proof. reflexivity. Qed.


(** ** Records and tables *)

Lemma rec_get_set r f g v :
  rec_get (rec_set r f v) g = if String.eqb f g then Some v else rec_get r g.
Proof.
  apply dict_get_set; eauto using String.eqb_refl, String.eqb_sym, str_eqb_trans.
Qed.

Lemma rec_mem_set r f g v :
  rec_mem (rec_set r f v) g = if String.eqb f g then true else rec_mem r g.
Proof.
  unfold rec_mem, dict_mem. fold (rec_get (rec_set r f v) g). fold (rec_get r g).
  rewrite rec_get_set. now destruct (String.eqb f g).
Qed.

Lemma tbl_get_set t k k' r :
  tbl_get (tbl_set t k r) k' = if py_eq k k' then Some r else tbl_get t k'.
Proof. apply dict_get_set; eauto using py_eq_refl, py_eq_sym, py_eq_trans. Qed.

Lemma tbl_get_congr t k k' : py_eq k k' = true -> tbl_get t k = tbl_get t k'.
Proof. apply dict_get_congr; eauto using py_eq_sym, py_eq_trans. Qed.

Lemma tbl_mem_get t k : tbl_mem t k = match tbl_get t k with Some _ => true | None => false end.
Proof. reflexivity. Qed.

(** ** C1: a zero total *)

(** Whatever the free counter, a total of zero makes the usage formula
    divide by zero. *)
Lemma usage_percent_zero_total entry total free t f x :
  rec_get entry total = Some t -> num_of t = Some 0 ->
  rec_get entry free = Some f -> num_of f = Some x ->
  usage_percent entry total free = Raise ZeroDivisionError.
Proof.
  intros Ht Hz Hf Hx. unfold usage_percent, subscript.
  rewrite Ht, Hf. unfold py_sub. rewrite Hz, Hx. unfold py_truediv.
  simpl. now rewrite Hz.
Qed.

(** C1: on a [/system/resource] record with [total-memory] present and equal
    to 0, [get_system_resource] raises [ZeroDivisionError] and stores no
    [memory-usage] at all (the claim expects the string "unknown" and no
    fault); a record with [total-hdd-space] equal to 0 raises the same way,
    after [memory-usage] was computed. *)
Theorem get_system_resource_zero_total_faults `{Helper} :
  fst (get_system_resource resource_zero_memory) = Raise ZeroDivisionError /\
  rec_get (resource (self_data (snd (get_system_resource resource_zero_memory))))
    "memory-usage" = None /\
  fst (get_system_resource resource_zero_hdd) = Raise ZeroDivisionError /\
  rec_get (resource (self_data (snd (get_system_resource resource_zero_hdd))))
    "memory-usage" = Some (VInt 75) /\
  rec_get (resource (self_data (snd (get_system_resource resource_zero_hdd))))
    "hdd-usage" = None.
Proof. repeat split; vm_compute; reflexivity. Qed.

(** With both counters present and a total that is not zero the formula is
    evaluated: 1000 and 250 give 75. *)
Lemma get_system_resource_1000_250 `{Helper} :
  fst (get_system_resource resource_1000_250) = Ok tt /\
  rec_get (resource (self_data (snd (get_system_resource resource_1000_250))))
    "memory-usage" = Some (VInt 75) /\
  rec_get (resource (self_data (snd (get_system_resource resource_1000_250))))
    "hdd-usage" = Some (VStr "unknown").
Proof. repeat split; vm_compute; reflexivity. Qed.

(** ** C3: records that lack a field the code subscripts *)

(** C3: [get_nat] raises [KeyError] on a destination-NAT record without
    ['dst-port'], without ['protocol'] or without ['.id'], and on any record
    without ['action']; [update_arp] raises [KeyError] on a record without
    ['invalid'] and on a valid one without ['interface']. None of them is
    skipped. *)
Theorem missing_field_raises_key_error `{Helper} :
  fst (get_nat nat_without_dst_port) = Raise (KeyError (VStr "dst-port")) /\
  fst (get_nat nat_without_protocol) = Raise (KeyError (VStr "protocol")) /\
  fst (get_nat nat_without_id) = Raise (KeyError (VStr ".id")) /\
  fst (get_nat nat_without_action) = Raise (KeyError (VStr "action")) /\
  fst (update_arp [] false arp_without_invalid) = Raise (KeyError (VStr "invalid")) /\
  fst (update_arp [] false arp_without_interface) = Raise (KeyError (VStr "interface")).
Proof. repeat split; vm_compute; reflexivity. Qed.

(** ** C2: the unbound name in [get_interface] *)

Lemma interface_list_unbound :
  load_name [("self", ObjSelf)] "interface_list" = Raise (NameError "interface_list").
Proof. vm_compute. reflexivity. Qed.

(** [get_interface] up to the point where it stops. *)
Lemma get_interface_run `{Merger} c :
  get_interface c =
    (Raise (NameError "interface_list"),
     set_data (with_call c (CallPath "/interface"))
       (set_interface (self_data c)
          (from_list (interface (self_data c)) (path (api c) "/interface")
             (Some "default-name") None interface_vals interface_ensure_vals))).
Proof.
  unfold get_interface, bind, get_data, api_path, modify, lift.
  cbv beta iota. now rewrite interface_list_unbound.
Qed.

(** C2: [interface_list] is bound neither as a parameter of [get_interface]
    nor as a global of the module nor as a builtin, so in every state
    [get_interface] merges the fetched interfaces and then raises [NameError]
    while evaluating the argument of [get_interface_traffic]: the only call
    it makes is the fetch of [/interface], and no traffic query is issued. *)
Theorem get_interface_raises_name_error `{Merger} (c : controller) :
  load_name [("self", ObjSelf)] "interface_list" = Raise (NameError "interface_list") /\
  fst (get_interface c) = Raise (NameError "interface_list") /\
  calls (snd (get_interface c)) = (calls c ++ [CallPath "/interface"])%list /\
  (forall names, In (CallTraffic names) (calls (snd (get_interface c))) ->
                 In (CallTraffic names) (calls c)) /\
  interface (self_data (snd (get_interface c))) =
    from_list (interface (self_data c)) (path (api c) "/interface")
      (Some "default-name") None interface_vals interface_ensure_vals.
Proof.
  rewrite get_interface_run. cbn [fst snd]. split; [apply interface_list_unbound|].
  split; [reflexivity|]. split; [reflexivity|]. split; [|reflexivity].
  cbn. intros names [Hin | [Hin | []]]%in_app_or; [assumption | discriminate].
Qed.

(** ** C9: an endpoint with no data *)

Ltac empty_fetch E :=
  unfold leaves_data, bind, api_path; cbv beta iota; rewrite E; split; reflexivity.

(** C9: when the endpoint a refresh operation fetches answers with no
    records, the operation ends normally and [self.data] is exactly what it
    was ([update_arp] also hands back [mac2ip] and [bridge_used] as it got
    them). *)
Theorem empty_fetch_leaves_data `{Helper} (c : controller)
    (mac2ip : mac2ip_t) (bridge_used : bool) :
  (path (api c) "/ip/firewall/nat" = [] -> leaves_data get_nat tt c) /\
  (path (api c) "/system/resource" = [] -> leaves_data get_system_resource tt c) /\
  (path (api c) "/system/routerboard" = [] -> leaves_data get_system_routerboard tt c) /\
  (path (api c) "/system/package/update" = [] -> leaves_data get_firmware_update tt c) /\
  (path (api c) "/system/script" = [] -> leaves_data get_script tt c) /\
  (path (api c) "/ip/arp" = [] ->
     leaves_data (update_arp mac2ip bridge_used) (mac2ip, bridge_used) c) /\
  (path (api c) "/interface/bridge/host" = [] ->
     leaves_data (update_bridge_hosts mac2ip) tt c).
Proof.
  repeat apply conj; intros E.
  - unfold get_nat. empty_fetch E.
  - unfold get_system_resource. empty_fetch E.
  - unfold get_system_routerboard. empty_fetch E.
  - unfold get_firmware_update. empty_fetch E.
  - unfold get_script. empty_fetch E.
  - unfold update_arp. empty_fetch E.
  - unfold update_bridge_hosts. empty_fetch E.
Qed.

Lemma empty_fetch_leaves_data_witness :
  leaves_data (@get_nat sample_helper) tt silent_router /\
  leaves_data (@get_system_resource sample_helper) tt silent_router /\
  leaves_data (@get_system_routerboard sample_helper) tt silent_router /\
  leaves_data (@get_firmware_update sample_helper) tt silent_router /\
  leaves_data (@get_script sample_helper) tt silent_router /\
  leaves_data (@update_arp sample_helper [] false) ([], false) silent_router /\
  leaves_data (@update_bridge_hosts sample_helper []) tt silent_router.
Proof.
  destruct (@empty_fetch_leaves_data sample_helper silent_router [] false)
    as (H1 & H2 & H3 & H4 & H5 & H6 & H7).
  exact (conj (H1 eq_refl) (conj (H2 eq_refl) (conj (H3 eq_refl) (conj (H4 eq_refl)
           (conj (H5 eq_refl) (conj (H6 eq_refl) (H7 eq_refl))))))).
Defined.

(** ** Relations kept by a computation *)
Section Keeps.
Variable R : controller -> controller -> Prop.
Hypothesis R_refl : forall c, R c c.
Hypothesis R_trans : forall a b c, R a b -> R b c -> R a c.

Lemma keeps_ret {A} (a : A) : keeps R (ret a).
Proof. intros c. apply R_refl. Qed.

Lemma keeps_raise {A} (e : exn) : keeps R (@raise A e).
Proof. intros c. apply R_refl. Qed.

Lemma keeps_lift {A} (r : result A) : keeps R (lift r).
Proof. intros c. apply R_refl. Qed.

Lemma keeps_get_data : keeps R get_data.
Proof. intros c. apply R_refl. Qed.

Lemma keeps_get_option_track_arp : keeps R get_option_track_arp.
Proof. intros c. apply R_refl. Qed.

Lemma keeps_bind {A B} (m : M A) (k : A -> M B) :
  keeps R m -> (forall a, keeps R (k a)) -> keeps R (bind m k).
Proof.
  intros Hm Hk c. unfold bind. specialize (Hm c).
  destruct (m c) as [[a | e] c1]; simpl in *; [|assumption].
  eapply R_trans; [eassumption | apply Hk].
Qed.

Lemma keeps_for_each {A} (l : list A) (body : A -> M unit) :
  (forall x, keeps R (body x)) -> keeps R (for_each l body).
Proof.
  intros Hb. induction l as [|x l IH]; simpl.
  - apply keeps_ret.
  - apply keeps_bind; auto.
Qed.

Lemma keeps_for_fold {A S} (l : list A) (s : S) (body : A -> S -> M S) :
  (forall x s, keeps R (body x s)) -> keeps R (for_fold l s body).
Proof.
  intros Hb. revert s. induction l as [|x l IH]; intros s; simpl.
  - apply keeps_ret.
  - apply keeps_bind; auto.
Qed.
End Keeps.

Ltac keeps_step :=
  match goal with
  | |- keeps _ (bind _ _) => apply keeps_bind; [assumption | | intro]
  | |- keeps _ (ret _) => apply keeps_ret; assumption
  | |- keeps _ (raise _) => apply keeps_raise; assumption
  | |- keeps _ (lift _) => apply keeps_lift; assumption
  | |- keeps _ get_data => apply keeps_get_data; assumption
  | |- keeps _ get_option_track_arp => apply keeps_get_option_track_arp; assumption
  | |- keeps _ (for_each _ _) => apply keeps_for_each; [assumption | assumption | intro]
  | |- keeps _ (for_fold _ _ _) => apply keeps_for_fold; [assumption | assumption | intros]
  | |- keeps _ (if ?b then _ else _) => destruct b
  | |- keeps _ (match ?x with _ => _ end) => destruct x
  | |- keeps _ (let '(_, _) := ?x in _) => destruct x
  end.

(** ** C10: what [get_interface_client] may touch *)

Lemma same_outside_refl c : same_outside_arp_interface c c.
Proof. repeat split. Qed.

Lemma same_outside_trans a b c :
  same_outside_arp_interface a b -> same_outside_arp_interface b c ->
  same_outside_arp_interface a c.
Proof. unfold same_outside_arp_interface. intuition congruence. Qed.

Lemma keeps_outside_api_path p : keeps same_outside_arp_interface (api_path p).
Proof. intros c. repeat split. Qed.

Lemma keeps_outside_log l : keeps same_outside_arp_interface (log l).
Proof. intros c. repeat split. Qed.

Lemma keeps_outside_modify_arp f :
  keeps same_outside_arp_interface (modify (fun d => set_arp d (f d))).
Proof. intros c. repeat split. Qed.

Lemma keeps_outside_ensure_arp uid :
  keeps same_outside_arp_interface (ensure_key arp set_arp uid).
Proof.
  intros c. unfold ensure_key, modify; simpl.
  destruct (tbl_mem (arp (self_data c)) uid); repeat split.
Qed.

Lemma keeps_outside_assign_arp uid f v :
  keeps same_outside_arp_interface (assign_in arp set_arp uid f v).
Proof.
  intros c. unfold assign_in.
  destruct (tbl_assign (arp (self_data c)) uid f v); repeat split.
Qed.

Lemma keeps_outside_assign_interface uid f v :
  keeps same_outside_arp_interface (assign_in interface set_interface uid f v).
Proof.
  intros c. unfold assign_in.
  destruct (tbl_assign (interface (self_data c)) uid f v); repeat split.
Qed.

Lemma keeps_outside_read_in get uid f :
  keeps same_outside_arp_interface (read_in get uid f).
Proof.
  intros c. unfold read_in. destruct (tbl_get (get (self_data c)) uid); repeat split.
Qed.

Ltac outside_step :=
  first
    [ apply keeps_outside_api_path
    | apply keeps_outside_log
    | apply keeps_outside_ensure_arp
    | apply keeps_outside_assign_arp
    | apply keeps_outside_assign_interface
    | apply keeps_outside_read_in
    | apply (keeps_outside_modify_arp (fun _ => []))
    | keeps_step ].

Section Frame.
Context `{Helper}.
Let Rr := same_outside_refl.
Let Rt := same_outside_trans.

Lemma keeps_outside_get_iface_from_entry entry :
  keeps same_outside_arp_interface (get_iface_from_entry entry).
Proof. unfold get_iface_from_entry. repeat outside_step. Qed.

Lemma keeps_outside_update_arp mac2ip bridge_used :
  keeps same_outside_arp_interface (update_arp mac2ip bridge_used).
Proof.
  unfold update_arp. repeat outside_step.
  unfold update_arp_entry.
  repeat first [apply keeps_outside_get_iface_from_entry | outside_step].
Qed.

Lemma keeps_outside_update_bridge_hosts mac2ip :
  keeps same_outside_arp_interface (update_bridge_hosts mac2ip).
Proof.
  unfold update_bridge_hosts. repeat outside_step.
  unfold update_bridge_hosts_entry.
  repeat first [apply keeps_outside_get_iface_from_entry | outside_step].
Qed.

Lemma keeps_outside_get_interface_client :
  keeps same_outside_arp_interface get_interface_client.
Proof.
  unfold get_interface_client, disable_body.
  repeat first [apply keeps_outside_update_arp
               | apply keeps_outside_update_bridge_hosts | outside_step].
Qed.
End Frame.

(** ** Client tracking switched off *)

Lemma assign_in_some get set c uid f v r :
  tbl_get (get (self_data c)) uid = Some r ->
  assign_in get set uid f v c =
    (Ok tt, set_data c (set (self_data c)
                          (tbl_set (get (self_data c)) uid (rec_set r f v)))).
Proof. intros E. unfold assign_in, tbl_assign. now rewrite E. Qed.

Lemma tbl_keys_set_present t k r :
  tbl_mem t k = true -> dict_keys (tbl_set t k r) = dict_keys t.
Proof. apply dict_keys_set_present. Qed.

Lemma tbl_get_key t k : In k (dict_keys t) -> exists r, tbl_get t k = Some r.
Proof. apply dict_get_key, py_eq_refl. Qed.

Lemma tbl_get_some_key t k r :
  tbl_get t k = Some r -> exists k0, In k0 (dict_keys t) /\ py_eq k0 k = true.
Proof.
  intros (k0 & Hin & Hk)%dict_get_some_key. exists k0. split; [|assumption].
  unfold dict_keys. change k0 with (fst (k0, r)). now apply in_map.
Qed.

Lemma disable_body_some c uid r :
  tbl_get (interface (self_data c)) uid = Some r ->
  exists t',
    disable_body uid c = (Ok tt, set_data c (set_interface (self_data c) t')) /\
    dict_keys t' = dict_keys (interface (self_data c)) /\
    (forall k, tbl_get t' k =
       if py_eq uid k
       then Some (rec_set (rec_set r "client-ip-address" (VStr "disabled"))
                    "client-mac-address" (VStr "disabled"))
       else tbl_get (interface (self_data c)) k).
Proof.
  intros E. unfold disable_body, bind.
  rewrite (assign_in_some _ _ _ _ _ _ _ E).
  set (r1 := rec_set r "client-ip-address" (VStr "disabled")).
  set (t1 := tbl_set (interface (self_data c)) uid r1).
  assert (E1 : tbl_get t1 uid = Some r1).
  { unfold t1. now rewrite tbl_get_set, py_eq_refl. }
  rewrite (assign_in_some interface set_interface _ uid _ _ r1) by exact E1.
  eexists. split; [reflexivity|]. cbn [interface self_data set_data set_interface].
  split.
  - rewrite tbl_keys_set_present by (rewrite tbl_mem_get, E1; reflexivity).
    unfold t1. apply tbl_keys_set_present. now rewrite tbl_mem_get, E.
  - intros k. rewrite tbl_get_set. unfold t1. rewrite tbl_get_set.
    now destruct (py_eq uid k).
Qed.

Lemma client_disabled_set r :
  client_disabled (rec_set (rec_set r "client-ip-address" (VStr "disabled"))
                     "client-mac-address" (VStr "disabled")).
Proof. split; now rewrite !rec_get_set. Qed.

(** The loop over a list of keys of the interface table: it ends normally,
    touches neither the ARP table nor the API, keeps the keys, and every
    record whose key it visited has both client fields disabled. *)
Lemma disable_loop uids : forall c,
  (forall u, In u uids -> tbl_mem (interface (self_data c)) u = true) ->
  fst (for_each uids disable_body c) = Ok tt /\
  same_arp_and_calls c (snd (for_each uids disable_body c)) /\
  dict_keys (interface (self_data (snd (for_each uids disable_body c)))) =
    dict_keys (interface (self_data c)) /\
  (forall k r, tbl_get (interface (self_data c)) k = Some r ->
     exists r', tbl_get (interface (self_data (snd (for_each uids disable_body c)))) k
                = Some r' /\
       (existsb (fun u => py_eq u k) uids = true \/ client_disabled r ->
        client_disabled r')).
Proof.
  induction uids as [|uid uids IH]; intros c Hmem.
  - simpl. repeat split. intros k r E. exists r. split; [assumption|].
    intros [[=] | Hr]; assumption.
  - assert (Hu : tbl_mem (interface (self_data c)) uid = true) by (apply Hmem; now left).
    rewrite tbl_mem_get in Hu.
    destruct (tbl_get (interface (self_data c)) uid) as [r0|] eqn:E0; [|discriminate].
    destruct (disable_body_some c uid r0 E0) as (t' & Hrun & Hkeys & Hget).
    cbn [for_each]. unfold bind at 1 2 3 4. rewrite Hrun.
    set (c1 := set_data c (set_interface (self_data c) t')).
    destruct (IH c1) as (Hok & [Harp Hcalls] & Hk & Hrec).
    { intros u Hin. cbn. rewrite tbl_mem_get, Hget.
      destruct (py_eq uid u); [reflexivity|].
      rewrite <- tbl_mem_get. apply Hmem. now right. }
    split; [exact Hok|]. split; [split; [exact Harp | exact Hcalls]|].
    split; [now rewrite Hk|].
    intros k r E.
    assert (E1 : exists r1, tbl_get (interface (self_data c1)) k = Some r1 /\
                   (py_eq uid k = true \/ client_disabled r -> client_disabled r1)).
    { cbn. rewrite Hget. destruct (py_eq uid k) eqn:Ek.
      - eexists. split; [reflexivity|]. intros _. apply client_disabled_set.
      - exists r. split; [assumption|]. now intros [[=] | Hr]. }
    destruct E1 as (r1 & E1 & Hr1).
    destruct (Hrec k r1 E1) as (r' & E' & Hr').
    exists r'. split; [exact E'|].
    intros [Hex | Hr]; apply Hr'.
    + cbn [existsb] in Hex. apply orb_true_iff in Hex as [Hex | Hex]; auto.
    + auto.
Qed.

Section Disabled.
Context `{Helper}.

(** The call when tracking is off: the reset, then the loop. *)
Lemma get_interface_client_off_eq c :
  truthy (option_track_arp c) = false ->
  get_interface_client c =
    match for_each (dict_keys (interface (self_data c))) disable_body
            (set_data c (set_arp (self_data c) [])) with
    | (Ok _, c1) => (Ok false, c1)
    | (Raise e, c1) => (Raise e, c1)
    end.
Proof.
  intros Hoff. unfold get_interface_client.
  unfold bind at 1 2, modify, get_option_track_arp. cbv beta iota.
  cbn [option_track_arp set_data]. rewrite Hoff. cbn [negb].
  unfold bind, get_data, ret. reflexivity.
Qed.

Lemma get_interface_client_off c :
  truthy (option_track_arp c) = false ->
  fst (get_interface_client c) = Ok false /\
  arp (self_data (snd (get_interface_client c))) = [] /\
  calls (snd (get_interface_client c)) = calls c /\
  dict_keys (interface (self_data (snd (get_interface_client c)))) =
    dict_keys (interface (self_data c)) /\
  (forall k r, tbl_get (interface (self_data (snd (get_interface_client c)))) k = Some r ->
               client_disabled r).
Proof.
  intros Hoff. rewrite (get_interface_client_off_eq c Hoff).
  set (c0 := set_data c (set_arp (self_data c) [])).
  destruct (disable_loop (dict_keys (interface (self_data c))) c0)
    as (Hok & [Harp Hcalls] & Hkeys & Hrec).
  { intros u Hin. destruct (tbl_get_key _ _ Hin) as [r E].
    rewrite tbl_mem_get. unfold c0. cbn [interface self_data set_data set_arp].
    now rewrite E. }
  destruct (for_each (dict_keys (interface (self_data c))) disable_body c0)
    as [[[] | e] c1]; [|discriminate].
  cbn [fst snd] in *. split; [reflexivity|].
  split; [now rewrite <- Harp|]. split; [now rewrite <- Hcalls|].
  split; [exact Hkeys|].
  intros k r E.
  destruct (tbl_get_some_key _ _ _ E) as (k0 & Hin & Hk0).
  rewrite Hkeys in Hin. cbn in Hin.
  destruct (tbl_get_key _ _ Hin) as [r0 E0].
  rewrite (tbl_get_congr _ _ _ Hk0) in E0.
  destruct (Hrec k r0 E0) as (r' & E' & Hr').
  rewrite E in E'. injection E' as <-. apply Hr'. left.
  apply existsb_exists. exists k0. split; assumption.
Qed.
End Disabled.

(** In a table whose keys are distinct every entry is the one a lookup of
    its key finds. *)
Lemma distinct_keys_lookup (t : table) k r :
  distinct_keys (dict_keys t) -> In (k, r) t -> tbl_get t k = Some r.
Proof.
  induction t as [|[k0 r0] t IH]; simpl; [tauto|].
  intros [Hfresh Hrest] [[= -> ->] | Hin].
  - now rewrite py_eq_refl.
  - rewrite (Hfresh k).
    + now apply IH.
    + unfold dict_keys. change k with (fst (k, r)). now apply in_map.
Qed.

(** C6: with client tracking switched off, [get_interface_client] returns
    [False] without any call to the API, keeps the keys of the interface
    table, and every record a lookup in the table then finds has both
    [client-ip-address] and [client-mac-address] equal to "disabled"; when
    the keys of the table are distinct, as the keys of a [dict] are, these
    are all the records of the table. *)
Theorem disabled_tracking_marks_clients `{Helper} (c : controller) :
  truthy (option_track_arp c) = false ->
  fst (get_interface_client c) = Ok false /\
  calls (snd (get_interface_client c)) = calls c /\
  dict_keys (interface (self_data (snd (get_interface_client c)))) =
    dict_keys (interface (self_data c)) /\
  (forall uid r,
     tbl_get (interface (self_data (snd (get_interface_client c)))) uid = Some r ->
     rec_get r "client-ip-address" = Some (VStr "disabled") /\
     rec_get r "client-mac-address" = Some (VStr "disabled")) /\
  (distinct_keys (dict_keys (interface (self_data c))) ->
   forall uid r,
     In (uid, r) (interface (self_data (snd (get_interface_client c)))) ->
     rec_get r "client-ip-address" = Some (VStr "disabled") /\
     rec_get r "client-mac-address" = Some (VStr "disabled")).
Proof.
  intros Hoff.
  destruct (get_interface_client_off c Hoff) as (Hret & _ & Hcalls & Hkeys & Hrec).
  split; [exact Hret|]. split; [exact Hcalls|]. split; [exact Hkeys|].
  split.
  - intros uid r E. exact (Hrec uid r E).
  - intros Hdistinct uid r Hin. apply (Hrec uid r).
    apply distinct_keys_lookup; [now rewrite Hkeys | exact Hin].
Qed.

Lemma disabled_tracking_marks_clients_witness :
  truthy (option_track_arp tracking_disabled) = false /\
  fst (@get_interface_client sample_helper tracking_disabled) = Ok false /\
  calls (snd (@get_interface_client sample_helper tracking_disabled)) = [] /\
  tbl_get (interface (self_data (snd (@get_interface_client sample_helper tracking_disabled))))
    (VStr "ether2") =
  Some [("default-name", VStr "ether2"); ("name", VStr "lan");
        ("client-ip-address", VStr "disabled");
        ("client-mac-address", VStr "disabled")].
Proof.
  split; [reflexivity|].
  destruct (@disabled_tracking_marks_clients sample_helper tracking_disabled eq_refl)
    as (Hret & Hcalls & _).
  split; [exact Hret|]. split; [exact Hcalls|]. reflexivity.
Defined.

(** C10: [get_interface_client] starts by emptying the ARP table, so its
    outcome does not depend on the ARP entries of the cycle before; however
    it ends, every table other than ['arp'] and ['interface'] is as it was;
    and with tracking switched off the ARP table is left empty and no call
    to the API was made. *)
Theorem get_interface_client_resets_arp `{Helper} (c : controller) :
  (forall previous : table,
     get_interface_client (set_data c (set_arp (self_data c) previous)) =
     get_interface_client (set_data c (set_arp (self_data c) []))) /\
  same_outside_arp_interface c (snd (get_interface_client c)) /\
  (truthy (option_track_arp c) = false ->
   arp (self_data (snd (get_interface_client c))) = [] /\
   calls (snd (get_interface_client c)) = calls c).
Proof.
  split; [|split].
  - intros previous. reflexivity.
  - apply keeps_outside_get_interface_client.
  - intros Hoff.
    destruct (get_interface_client_off c Hoff) as (_ & Harp & Hcalls & _).
    split; assumption.
Qed.

Lemma get_interface_client_resets_arp_witness :
  arp (self_data tracking_disabled) <> [] /\
  arp (self_data (snd (@get_interface_client sample_helper tracking_disabled))) = [] /\
  calls (snd (@get_interface_client sample_helper tracking_disabled)) =
    calls tracking_disabled.
Proof.
  split; [discriminate|].
  destruct (@get_interface_client_resets_arp sample_helper tracking_disabled)
    as (_ & _ & Hoff).
  exact (Hoff eq_refl).
Defined.

(** ** C4: firmware availability *)

Lemma rec_mem_get r f : rec_mem r f = match rec_get r f with Some _ => true | None => false end.
Proof. reflexivity. Qed.

(** What one fetched record does to ['available']. *)
Lemma get_firmware_update_entry_available `{Helper} entry c :
  fst (get_firmware_update_entry entry c) = Ok tt /\
  rec_get (fw_update (self_data (snd (get_firmware_update_entry entry c)))) "available" =
    match rec_get entry "status" with
    | Some status => Some (VBool (py_eq status (VStr "New version is available")))
    | None =>
        match rec_get (fw_update (self_data c)) "available" with
        | Some v => Some v
        | None => Some (VBool false)
        end
    end /\
  calls (snd (get_firmware_update_entry entry c)) = calls c.
Proof.
  unfold get_firmware_update_entry, bind, lift, subscript, get_data.
  rewrite (rec_mem_get entry).
  destruct (rec_get entry "status") as [status|].
  - cbn. rewrite !rec_get_set. cbn.
    destruct (py_eq status (VStr "New version is available")); auto.
  - cbv beta iota. rewrite (rec_mem_get (fw_update (self_data c))).
    destruct (rec_get (fw_update (self_data c)) "available") as [v|] eqn:E.
    + cbn. rewrite !rec_get_set. cbn. auto.
    + cbn. rewrite !rec_get_set. cbn. auto.
Qed.

Lemma get_firmware_update_single `{Helper} c entry :
  path (api c) "/system/package/update" = [entry] ->
  get_firmware_update c =
    get_firmware_update_entry entry (with_call c (CallPath "/system/package/update")).
Proof.
  intros E. unfold get_firmware_update. unfold bind at 1, api_path. rewrite E.
  cbn [no_data for_each]. unfold bind at 1.
  destruct (get_firmware_update_entry entry _) as [[[]|e] c1]; reflexivity.
Qed.

(** C4: for a fetched record without ['status'], an ['available'] that is
    already there (true in particular) stays as it is, and a missing one
    becomes false; for a record with ['status'], ['available'] becomes true
    exactly when the status is the string "New version is available", and
    false otherwise. The call never raises. *)
Theorem firmware_availability_sticky `{Helper} (c : controller) (entry : record) :
  path (api c) "/system/package/update" = [entry] ->
  fst (get_firmware_update c) = Ok tt /\
  (rec_get entry "status" = None ->
   rec_get (fw_update (self_data c)) "available" = Some (VBool true) ->
   rec_get (fw_update (self_data (snd (get_firmware_update c)))) "available"
     = Some (VBool true)) /\
  (rec_get entry "status" = None ->
   rec_get (fw_update (self_data c)) "available" = None ->
   rec_get (fw_update (self_data (snd (get_firmware_update c)))) "available"
     = Some (VBool false)) /\
  (forall status, rec_get entry "status" = Some status ->
   exists b,
     rec_get (fw_update (self_data (snd (get_firmware_update c)))) "available"
       = Some (VBool b) /\
     (b = true <-> status = VStr "New version is available")).
Proof.
  intros E. rewrite (get_firmware_update_single c entry E).
  destruct (get_firmware_update_entry_available entry
              (with_call c (CallPath "/system/package/update"))) as (Hok & Hav & _).
  cbn [self_data with_call] in Hav.
  split; [exact Hok|]. split; [|split].
  - intros Hs Hprev. now rewrite Hav, Hs, Hprev.
  - intros Hs Hprev. now rewrite Hav, Hs, Hprev.
  - intros status Hs. rewrite Hav, Hs. eexists. split; [reflexivity|].
    apply py_eq_str.
Qed.

Lemma firmware_availability_sticky_witness :
  rec_get (fw_update (self_data update_seen_status_omitted)) "available" = Some (VBool true) /\
  rec_get status_omitted_entry "status" = None /\
  rec_get (fw_update (self_data
      (snd (@get_firmware_update sample_helper update_seen_status_omitted)))) "available"
    = Some (VBool true).
Proof.
  split; [reflexivity|]. split; [reflexivity|].
  destruct (@firmware_availability_sticky sample_helper update_seen_status_omitted
              status_omitted_entry eq_refl) as (_ & Hsticky & _).
  exact (Hsticky eq_refl eq_refl).
Defined.

(** ** Loops *)

Lemma for_each_app {A} (l1 l2 : list A) (body : A -> M unit) c :
  for_each (l1 ++ l2) body c =
    match for_each l1 body c with
    | (Ok _, c') => for_each l2 body c'
    | (Raise e, c') => (Raise e, c')
    end.
Proof.
  revert c. induction l1 as [|x l1 IH]; intros c; [reflexivity|].
  cbn [app for_each]. unfold bind.
  destruct (body x c) as [[[]|e] c1]; [apply IH | reflexivity].
Qed.

Lemma for_each_cons_ok {A} (x : A) (l : list A) (body : A -> M unit) c c1 :
  body x c = (Ok tt, c1) -> for_each (x :: l) body c = for_each l body c1.
Proof. intros E. cbn [for_each]. unfold bind. now rewrite E. Qed.

Lemma for_each_cons_raise {A} (x : A) (l : list A) (body : A -> M unit) c c1 e :
  body x c = (Raise e, c1) -> for_each (x :: l) body c = (Raise e, c1).
Proof. intros E. cbn [for_each]. unfold bind. now rewrite E. Qed.

(** ** C8: scripts without a name *)

Lemma tbl_set_set t k r r' : tbl_set (tbl_set t k r) k r' = tbl_set t k r'.
Proof. apply dict_set_set, py_eq_refl. Qed.

Lemma tbl_set_in t k r k1 r1 :
  In (k1, r1) (tbl_set t k r) -> In (k1, r1) t \/ (r1 = r /\ py_eq k1 k = true).
Proof. apply dict_set_in, py_eq_refl. Qed.

Section Scripts.
Context `{Helper}.

(** What one raw script record does. *)
Lemma get_script_entry_run entry c :
  get_script_entry entry c =
    match rec_get entry "name" with
    | None => (Ok tt, c)
    | Some n =>
        if truthy n then
          (Ok tt,
           set_data c
             (set_script (self_data c)
                (tbl_set (script (self_data c)) n
                   (script_record entry
                      match tbl_get (script (self_data c)) n with
                      | Some r0 => r0
                      | None => []
                      end))))
        else (Ok tt, with_log c (LogError script_without_name))
    end.
Proof.
  unfold get_script_entry. rewrite rec_mem_get.
  unfold bind, lift, subscript.
  destruct (rec_get entry "name") as [n|]; [|reflexivity].
  cbn [negb]. destruct (truthy n); [|reflexivity].
  cbn [negb]. unfold ensure_key, modify, assign_in, tbl_assign, script_record.
  cbn [self_data set_data script set_script].
  rewrite tbl_mem_get.
  destruct (tbl_get (script (self_data c)) n) as [r0|] eqn:E.
  - rewrite E. cbn [self_data set_data script set_script].
    rewrite !tbl_get_set, !py_eq_refl. cbn [self_data set_data script set_script].
    rewrite !tbl_get_set, !py_eq_refl. cbn [self_data set_data script set_script].
    rewrite !tbl_set_set. reflexivity.
  - cbn [self_data set_data script set_script].
    rewrite !tbl_get_set, !py_eq_refl. cbn [self_data set_data script set_script].
    rewrite !tbl_get_set, !py_eq_refl. cbn [self_data set_data script set_script].
    rewrite !tbl_get_set, !py_eq_refl. cbn [self_data set_data script set_script].
    rewrite !tbl_set_set. reflexivity.
Qed.

Lemma script_record_name entry r0 n :
  rec_get entry "name" = Some n ->
  rec_get (script_record entry r0) "name" = Some n.
Proof.
  intros E. unfold script_record, from_entry. rewrite !rec_get_set, E. reflexivity.
Qed.

Lemma keyed_by_name_set t entry n r0 :
  keyed_by_name t -> rec_get entry "name" = Some n -> truthy n = true ->
  keyed_by_name (tbl_set t n (script_record entry r0)).
Proof.
  intros Ht En Hn k r [Hin | [-> Hk]]%tbl_set_in; [now apply Ht|].
  split.
  - now rewrite (py_eq_truthy _ _ Hk).
  - exists n. split; [now apply script_record_name | assumption].
Qed.

(** The loop of [get_script] over any batch. *)
Lemma get_script_loop data : forall c,
  fst (for_each data get_script_entry c) = Ok tt /\
  logged (snd (for_each data get_script_entry c)) =
    (logged c ++ map (fun _ => LogError script_without_name) (filter empty_name data))%list /\
  calls (snd (for_each data get_script_entry c)) = calls c /\
  (keyed_by_name (script (self_data c)) ->
   keyed_by_name (script (self_data (snd (for_each data get_script_entry c))))) /\
  (forall k, tbl_mem (script (self_data (snd (for_each data get_script_entry c)))) k = true ->
     tbl_mem (script (self_data c)) k = true \/
     exists entry n, In entry data /\ rec_get entry "name" = Some n /\
                     truthy n = true /\ py_eq n k = true).
Proof.
  induction data as [|entry data IH]; intros c.
  - cbn. rewrite app_nil_r. split; [reflexivity|]. split; [reflexivity|].
    split; [reflexivity|]. split; [auto|]. intros k Hk. now left.
  - pose proof (get_script_entry_run entry c) as Hrun.
    unfold empty_name at 1. cbn [filter]. fold (empty_name entry).
    unfold empty_name at 1.
    destruct (rec_get entry "name") as [n|] eqn:En.
    + destruct (truthy n) eqn:Hn; cbn [negb map];
        rewrite (for_each_cons_ok _ _ _ _ _ Hrun);
        match goal with |- context [for_each data get_script_entry ?c1] =>
          destruct (IH c1) as (Hok & Hlog & Hcalls & Hinv & Hkeys) end.
      * split; [exact Hok|]. split; [exact Hlog|]. split; [exact Hcalls|].
        split.
        -- intros Ht. apply Hinv. cbn [self_data set_data script set_script].
           now apply keyed_by_name_set.
        -- intros k Hk. destruct (Hkeys k Hk) as [Hm | (e & m & Hin & He & Hm & Hmk)].
           ++ cbn [self_data set_data script set_script] in Hm.
              rewrite tbl_mem_get, tbl_get_set in Hm.
              destruct (py_eq n k) eqn:Enk.
              ** right. exists entry, n. repeat split; auto. now left.
              ** left. now rewrite tbl_mem_get.
           ++ right. exists e, m. repeat split; auto. now right.
      * split; [exact Hok|]. split.
        { rewrite Hlog. cbn [logged with_log]. now rewrite <- app_assoc. }
        split; [exact Hcalls|]. split; [exact Hinv|].
        intros k Hk. destruct (Hkeys k Hk) as [Hm | (e & m & Hin & He & Hm & Hmk)].
        -- now left.
        -- right. exists e, m. repeat split; auto. now right.
    + rewrite (for_each_cons_ok _ _ _ _ _ Hrun).
      destruct (IH c) as (Hok & Hlog & Hcalls & Hinv & Hkeys).
      split; [exact Hok|]. split; [exact Hlog|]. split; [exact Hcalls|].
      split; [exact Hinv|].
      intros k Hk. destruct (Hkeys k Hk) as [Hm | (e & m & Hin & He & Hm & Hmk)].
      * now left.
      * right. exists e, m. repeat split; auto. now right.
Qed.

Lemma get_script_eq c :
  get_script c =
    for_each (path (api c) "/system/script") get_script_entry
      (with_call c (CallPath "/system/script")).
Proof.
  unfold get_script. unfold bind at 1, api_path.
  destruct (path (api c) "/system/script"); reflexivity.
Qed.

(** No key of a table keyed by name is empty. *)
Lemma keyed_by_name_no_empty t k :
  keyed_by_name t -> truthy k = false -> tbl_mem t k = false.
Proof.
  intros Ht Hk. rewrite tbl_mem_get.
  destruct (tbl_get t k) as [r|] eqn:E; [|reflexivity].
  apply dict_get_some_key in E as (k0 & Hin & Hk0).
  destruct (Ht _ _ Hin) as [Htrue _].
  rewrite (py_eq_truthy _ _ Hk0) in Htrue. congruence.
Qed.
End Scripts.

(** C8: [get_script] raises on no batch, and it logs one error for each raw
    record whose name is there and empty. When every script of the table
    sits under its own non-empty name before the call (as in the empty table
    of a new controller), the same holds after it: no key is empty, in
    particular the empty string is not a key, and every key the call added
    is the non-empty name of a record of the batch. *)
Theorem get_script_rejects_unnamed `{Helper} (c : controller) :
  keyed_by_name (script (self_data c)) ->
  fst (get_script c) = Ok tt /\
  logged (snd (get_script c)) =
    (logged c ++ map (fun _ => LogError script_without_name)
                   (filter empty_name (path (api c) "/system/script")))%list /\
  keyed_by_name (script (self_data (snd (get_script c)))) /\
  (forall k, truthy k = false ->
     tbl_mem (script (self_data (snd (get_script c)))) k = false) /\
  tbl_mem (script (self_data (snd (get_script c)))) (VStr "") = false /\
  (forall k, tbl_mem (script (self_data (snd (get_script c)))) k = true ->
     tbl_mem (script (self_data c)) k = true \/
     exists entry n, In entry (path (api c) "/system/script") /\
                     rec_get entry "name" = Some n /\
                     truthy n = true /\ py_eq n k = true).
Proof.
  intros Hinv0. rewrite get_script_eq.
  destruct (get_script_loop (path (api c) "/system/script")
              (with_call c (CallPath "/system/script")))
    as (Hok & Hlog & _ & Hinv & Hkeys).
  specialize (Hinv Hinv0).
  split; [exact Hok|]. split; [exact Hlog|]. split; [exact Hinv|].
  split; [|split].
  - intros k Hk. now apply keyed_by_name_no_empty.
  - now apply keyed_by_name_no_empty.
  - exact Hkeys.
Qed.

Lemma keyed_by_name_empty : keyed_by_name [].
Proof. intros k r []. Qed.

Lemma get_script_rejects_unnamed_witness :
  keyed_by_name (script (self_data scripts_listed)) /\
  fst (@get_script sample_helper scripts_listed) = Ok tt /\
  tbl_mem (script (self_data (snd (@get_script sample_helper scripts_listed))))
    (VStr "") = false /\
  dict_keys (script (self_data (snd (@get_script sample_helper scripts_listed))))
    = [VStr "backup"] /\
  logged (snd (@get_script sample_helper scripts_listed))
    = [LogError script_without_name].
Proof.
  split; [exact keyed_by_name_empty|].
  destruct (@get_script_rejects_unnamed sample_helper scripts_listed keyed_by_name_empty)
    as (Hok & Hlog & _ & _ & Hempty & _).
  split; [exact Hok|]. split; [exact Hempty|]. split; [reflexivity | exact Hlog].
Defined.

(** ** C5: two ARP records for one interface *)
Ltac run_arp_writes :=
  unfold bind, ensure_key, modify, assign_in, tbl_assign, read_in, subscript,
    get_data, ret, raise;
  repeat (progress (cbn [self_data set_data arp set_arp with_log fst snd];
                    rewrite ?tbl_get_set, ?py_eq_refl)).

Section Arp.
Context `{Helper}.

(** What [update_arp] does with a record that resolves to an interface. *)
Lemma update_arp_entry_resolved c entry uid locals :
  arp_candidate c entry uid ->
  update_arp_entry entry locals c =
    (Ok locals,
     set_data (with_log c (LogDebug "/interface/bridge/host" entry))
       (set_arp (self_data c)
          (tbl_set (arp (self_data c)) uid
             (arp_record entry uid (record_at (arp (self_data c)) uid))))).
Proof.
  intros ((inv & Einv & Hinv) & (iface & Eif & Hif) & Hfind & Huid).
  destruct locals as [mac2ip bridge_used].
  unfold update_arp_entry. unfold bind at 1, lift, subscript. rewrite Einv, Hinv.
  unfold bind at 1. rewrite Eif, Hif.
  unfold bind at 1, get_iface_from_entry. unfold bind at 1, get_data, lift.
  rewrite Hfind. cbn [usable_uid]. rewrite Huid.
  unfold bind at 1, log. unfold arp_record, record_at.
  run_arp_writes. rewrite tbl_mem_get.
  destruct (tbl_get (arp (self_data c)) uid) as [r0|] eqn:E.
  - run_arp_writes. rewrite E. run_arp_writes.
    rewrite !tbl_set_set. reflexivity.
  - run_arp_writes. rewrite !tbl_set_set. reflexivity.
Qed.
End Arp.

Section ArpConflict.
Context `{Helper}.

Lemma arp_record_fields entry uid r0 :
  rec_mem (arp_record entry uid r0) "mac-address" = true /\
  rec_mem (arp_record entry uid r0) "address" = true.
Proof. unfold arp_record. rewrite !rec_mem_set. cbn. auto. Qed.

(** A record written over one that already had both fields holds
    "multiple" in both. *)
Lemma arp_record_multiple entry uid r0 :
  rec_mem r0 "mac-address" = true -> rec_mem r0 "address" = true ->
  rec_get (arp_record entry uid r0) "mac-address" = Some (VStr "multiple") /\
  rec_get (arp_record entry uid r0) "address" = Some (VStr "multiple").
Proof.
  intros Hm Ha. unfold arp_record.
  rewrite !rec_get_set, !rec_mem_set. cbn. rewrite Hm, Ha. auto.
Qed.

Lemma update_arp_pair c e1 e2 uid1 uid2 locals :
  path (api c) "/ip/arp" = [e1; e2] ->
  arp_candidate c e1 uid1 -> arp_candidate c e2 uid2 -> py_eq uid1 uid2 = true ->
  exists c',
    update_arp (fst locals) (snd locals) c = (Ok locals, c') /\
    tbl_get (arp (self_data c')) uid1 =
      Some (arp_record e2 uid2
              (arp_record e1 uid1 (record_at (arp (self_data c)) uid1))).
Proof.
  intros E H1 H2 Huid. destruct locals as [mac2ip bridge_used]. cbn [fst snd].
  unfold update_arp. unfold bind at 1, api_path. rewrite E. cbn [no_data for_fold].
  unfold bind at 1.
  rewrite (update_arp_entry_resolved _ e1 uid1 (mac2ip, bridge_used)) by exact H1.
  unfold bind at 1.
  rewrite (update_arp_entry_resolved _ e2 uid2 (mac2ip, bridge_used)) by exact H2.
  eexists. split; [reflexivity|].
  cbn [self_data set_data arp set_arp with_log with_call].
  rewrite tbl_get_set. rewrite (py_eq_sym uid2 uid1), Huid.
  unfold record_at at 1. rewrite tbl_get_set, Huid. reflexivity.
Qed.
End ArpConflict.

Section ArpBatch.
Context `{Helper}.

Lemma for_fold_app {A S} (l1 l2 : list A) (s : S) (body : A -> S -> M S) c :
  for_fold (l1 ++ l2) s body c =
    match for_fold l1 s body c with
    | (Ok s', c') => for_fold l2 s' body c'
    | (Raise e, c') => (Raise e, c')
    end.
Proof.
  revert s c. induction l1 as [|x l1 IH]; intros s c; [reflexivity|].
  cbn [app for_fold]. unfold bind.
  destruct (body x s c) as [[s1|e] c1]; [apply IH | reflexivity].
Qed.

Lemma for_fold_invariant {A S} (P : controller -> Prop) (body : A -> S -> M S) :
  (forall x s c, P c -> P (snd (body x s c))) ->
  forall l s c, P c -> P (snd (for_fold l s body c)).
Proof.
  intros Hb l. induction l as [|x l IH]; intros s c Hc; [exact Hc|].
  cbn [for_fold]. unfold bind. specialize (Hb x s c Hc).
  destruct (body x s c) as [[s1|e] c1]; [now apply IH | exact Hb].
Qed.

(** Whatever the record, [update_arp]'s loop body leaves the interface table
    alone, and either leaves the ARP table alone too or writes the entry of
    the uid the record resolves to. *)
Lemma update_arp_entry_effect entry locals c :
  interface (self_data (snd (update_arp_entry entry locals c))) = interface (self_data c) /\
  (arp (self_data (snd (update_arp_entry entry locals c))) = arp (self_data c) \/
   exists uid,
     arp_candidate c entry uid /\
     arp (self_data (snd (update_arp_entry entry locals c))) =
       tbl_set (arp (self_data c)) uid
         (arp_record entry uid (record_at (arp (self_data c)) uid))).
Proof.
  destruct (rec_get entry "invalid") as [inv|] eqn:Einv.
  2:{ destruct locals. unfold update_arp_entry, bind, lift, subscript.
      rewrite Einv. auto. }
  destruct (truthy inv) eqn:Hinv.
  1:{ destruct locals. unfold update_arp_entry, bind, lift, subscript.
      rewrite Einv, Hinv. auto. }
  destruct (rec_get entry "interface") as [iface|] eqn:Eif.
  2:{ destruct locals. unfold update_arp_entry, bind, lift, subscript.
      rewrite Einv, Hinv, Eif. auto. }
  destruct (py_eq iface (VStr "bridge")) eqn:Hif.
  1:{ destruct locals. unfold update_arp_entry, bind, lift, subscript.
      rewrite Einv, Hinv, Eif, Hif.
      destruct (rec_mem entry "mac-address" && rec_mem entry "address").
      - destruct (rec_get entry "address"); [|auto].
        destruct (rec_get entry "mac-address"); auto.
      - auto. }
  destruct (find_iface (interface (self_data c)) (dict_keys (interface (self_data c))) entry)
    as [[uid|]|e] eqn:Hfind.
  - destruct (truthy uid) eqn:Huid.
    + assert (Hc : arp_candidate c entry uid).
      { split; [eauto|]. split; [eauto|]. split; assumption. }
      rewrite (update_arp_entry_resolved c entry uid locals Hc).
      split; [reflexivity|]. right. exists uid. split; [exact Hc | reflexivity].
    + destruct locals. unfold update_arp_entry, bind, lift, subscript, get_iface_from_entry.
      rewrite Einv, Hinv, Eif, Hif. unfold bind, get_data, lift.
      rewrite Hfind. cbn [usable_uid]. rewrite Huid. auto.
  - destruct locals. unfold update_arp_entry, bind, lift, subscript, get_iface_from_entry.
    rewrite Einv, Hinv, Eif, Hif. unfold bind, get_data, lift.
    rewrite Hfind. auto.
  - destruct locals. unfold update_arp_entry, bind, lift, subscript, get_iface_from_entry.
    rewrite Einv, Hinv, Eif, Hif. unfold bind, get_data, lift.
    rewrite Hfind. auto.
Qed.

Lemma arp_candidate_same_interface c c' entry uid :
  interface (self_data c') = interface (self_data c) ->
  arp_candidate c entry uid -> arp_candidate c' entry uid.
Proof.
  unfold arp_candidate, resolves_to. intros ->. auto.
Qed.

Lemma rec_get_mem r f v : rec_get r f = Some v -> rec_mem r f = true.
Proof. intros E. now rewrite rec_mem_get, E. Qed.

Lemma arp_multiple_seen uid c : arp_multiple uid c -> arp_seen uid c.
Proof.
  intros (r & E & Hm & Ha). exists r. eauto using rec_get_mem.
Qed.

(** An entry that was seen stays seen, and one that holds "multiple" keeps
    it, whatever record comes next. *)
Lemma update_arp_entry_keeps_seen uid entry locals c :
  arp_seen uid c -> arp_seen uid (snd (update_arp_entry entry locals c)).
Proof.
  intros (r & E & Hm & Ha). unfold arp_seen.
  destruct (update_arp_entry_effect entry locals c) as [_ [-> | (u & _ & ->)]].
  - eauto.
  - rewrite tbl_get_set. destruct (py_eq u uid); [|eauto].
    eexists. split; [reflexivity|]. apply arp_record_fields.
Qed.

Lemma update_arp_entry_keeps_multiple uid entry locals c :
  arp_multiple uid c -> arp_multiple uid (snd (update_arp_entry entry locals c)).
Proof.
  intros (r & E & Hm & Ha). unfold arp_multiple.
  destruct (update_arp_entry_effect entry locals c) as [_ [-> | (u & _ & ->)]].
  - eauto.
  - rewrite tbl_get_set. destruct (py_eq u uid) eqn:Hu; [|eauto].
    eexists. split; [reflexivity|].
    apply arp_record_multiple; unfold record_at;
      rewrite (tbl_get_congr _ _ _ Hu), E; eauto using rec_get_mem.
Qed.

(** A second candidate for a uid that was seen makes its entry "multiple". *)
Lemma update_arp_entry_second uid uid' entry locals c :
  arp_seen uid c -> arp_candidate c entry uid' -> py_eq uid uid' = true ->
  arp_multiple uid (snd (update_arp_entry entry locals c)).
Proof.
  intros (r & E & Hm & Ha) Hc Hu.
  rewrite (update_arp_entry_resolved c entry uid' locals Hc).
  unfold arp_multiple. cbn [snd self_data set_data arp set_arp].
  rewrite tbl_get_set, (py_eq_sym uid' uid), Hu.
  eexists. split; [reflexivity|].
  apply arp_record_multiple; unfold record_at;
    rewrite <- (tbl_get_congr _ _ _ Hu), E; assumption.
Qed.

Lemma update_arp_entry_first uid entry locals c :
  arp_candidate c entry uid ->
  arp_seen uid (snd (update_arp_entry entry locals c)).
Proof.
  intros Hc. rewrite (update_arp_entry_resolved c entry uid locals Hc).
  unfold arp_seen. cbn [snd self_data set_data arp set_arp].
  rewrite tbl_get_set, py_eq_refl. eexists. split; [reflexivity|].
  apply arp_record_fields.
Qed.

Lemma for_fold_cons_state {A S} (x : A) (l : list A) (s : S) (body : A -> S -> M S) c r :
  fst (for_fold (x :: l) s body c) = Ok r ->
  exists s1, body x s c = (Ok s1, snd (body x s c)) /\
             for_fold (x :: l) s body c = for_fold l s1 body (snd (body x s c)).
Proof.
  cbn [for_fold]. unfold bind.
  destruct (body x s c) as [[s1|e] c1]; [|discriminate].
  intros _. exists s1. split; reflexivity.
Qed.

(** Two candidates for one uid anywhere in a batch that is processed to the
    end leave "multiple" in the entry of that uid. *)
Lemma update_arp_batch c pre mid post e1 e2 uid1 uid2 locals r :
  path (api c) "/ip/arp" = (pre ++ e1 :: mid ++ e2 :: post)%list ->
  arp_candidate c e1 uid1 -> arp_candidate c e2 uid2 -> py_eq uid1 uid2 = true ->
  fst (update_arp (fst locals) (snd locals) c) = Ok r ->
  arp_multiple uid1 (snd (update_arp (fst locals) (snd locals) c)).
Proof.
  intros E H1 H2 Hu. destruct locals as [mac2ip bridge_used]. cbn [fst snd].
  unfold update_arp. unfold bind at 1 2, api_path. rewrite E.
  assert (Hnd : no_data (pre ++ e1 :: mid ++ e2 :: post)%list = false)
    by (destruct pre; reflexivity).
  rewrite Hnd.
  set (c0 := with_call c (CallPath "/ip/arp")).
  assert (Hif : forall l s c1,
    interface (self_data c1) = interface (self_data c) ->
    interface (self_data (snd (for_fold l s update_arp_entry c1))) = interface (self_data c)).
  { intros l s c1. apply (for_fold_invariant
      (fun c2 => interface (self_data c2) = interface (self_data c))).
    intros x s1 c2 Hc2. now rewrite (proj1 (update_arp_entry_effect x s1 c2)). }
  rewrite for_fold_app.
  pose proof (Hif pre (mac2ip, bridge_used) c0 eq_refl) as Hpre.
  destruct (for_fold pre (mac2ip, bridge_used) update_arp_entry c0) as [[s1|e] c1];
    [|discriminate].
  cbn [snd] in Hpre. intros Hok.
  destruct (for_fold_cons_state _ _ _ _ _ _ Hok) as (s2 & _ & Hrun).
  rewrite Hrun in Hok |- *.
  assert (Hseen : arp_seen uid1 (snd (update_arp_entry e1 s1 c1))).
  { apply update_arp_entry_first. now apply (arp_candidate_same_interface c). }
  assert (Hif1 : interface (self_data (snd (update_arp_entry e1 s1 c1))) =
                 interface (self_data c)).
  { now rewrite (proj1 (update_arp_entry_effect e1 s1 c1)). }
  set (c2 := snd (update_arp_entry e1 s1 c1)) in *.
  rewrite for_fold_app in Hok |- *.
  pose proof (Hif mid s2 c2 Hif1) as Hmid.
  pose proof (for_fold_invariant (arp_seen uid1) update_arp_entry
                (update_arp_entry_keeps_seen uid1) mid s2 c2 Hseen) as Hseen'.
  destruct (for_fold mid s2 update_arp_entry c2) as [[s3|e] c3]; [|discriminate].
  cbn [snd] in Hmid, Hseen'.
  destruct (for_fold_cons_state _ _ _ _ _ _ Hok) as (s4 & _ & Hrun').
  rewrite Hrun'.
  apply for_fold_invariant; [apply update_arp_entry_keeps_multiple|].
  apply (update_arp_entry_second uid1 uid2); [exact Hseen' | | exact Hu].
  now apply (arp_candidate_same_interface c).
Qed.
End ArpBatch.

(** C5: take two ARP records that are not invalid, were not seen on the
    bridge and resolve to the same interface uid. When they are the whole
    batch, [update_arp] ends normally and the ARP entry of that uid holds
    "multiple" as its [mac-address] and as its [address]; when they occur in
    that order anywhere in a batch that [update_arp] processes to the end,
    the entry holds "multiple" in both fields as well. Neither depends on
    what the two MAC addresses are or on what the ARP table held before. *)
Theorem arp_conflict_collapses `{Helper} (c : controller) (e1 e2 : record)
    (uid1 uid2 : pyval) (mac2ip : mac2ip_t) (bridge_used : bool) :
  arp_candidate c e1 uid1 -> arp_candidate c e2 uid2 -> py_eq uid1 uid2 = true ->
  (path (api c) "/ip/arp" = [e1; e2] ->
   fst (update_arp mac2ip bridge_used c) = Ok (mac2ip, bridge_used) /\
   arp_multiple uid1 (snd (update_arp mac2ip bridge_used c))) /\
  (forall pre mid post r,
     path (api c) "/ip/arp" = (pre ++ e1 :: mid ++ e2 :: post)%list ->
     fst (update_arp mac2ip bridge_used c) = Ok r ->
     arp_multiple uid1 (snd (update_arp mac2ip bridge_used c))).
Proof.
  intros H1 H2 Huid. split.
  - intros E.
    destruct (update_arp_pair c e1 e2 uid1 uid2 (mac2ip, bridge_used) E H1 H2 Huid)
      as (c' & Hrun & Hget).
    cbn [fst snd] in Hrun. rewrite Hrun. cbn [fst snd].
    split; [reflexivity|]. eexists. split; [exact Hget|].
    destruct (arp_record_fields e1 uid1 (record_at (arp (self_data c)) uid1)).
    now apply arp_record_multiple.
  - intros pre mid post r E Hok.
    exact (update_arp_batch c pre mid post e1 e2 uid1 uid2 (mac2ip, bridge_used) r
             E H1 H2 Huid Hok).
Qed.

Lemma arp_first_candidate : arp_candidate two_hosts_on_ether1 arp_first (VStr "ether1").
Proof.
  split; [exists (VBool false); split; reflexivity|].
  split; [exists (VStr "ether1"); split; reflexivity|].
  split; reflexivity.
Defined.

Lemma arp_second_candidate : arp_candidate two_hosts_on_ether1 arp_second (VStr "ether1").
Proof.
  split; [exists (VBool false); split; reflexivity|].
  split; [exists (VStr "ether1"); split; reflexivity|].
  split; reflexivity.
Defined.

Lemma arp_conflict_collapses_witness :
  rec_get arp_first "mac-address" <> rec_get arp_second "mac-address" /\
  (fst (@update_arp sample_helper [] false two_hosts_on_ether1) = Ok ([], false) /\
   arp_multiple (VStr "ether1")
     (snd (@update_arp sample_helper [] false two_hosts_on_ether1))) /\
  arp_multiple (VStr "ether1")
    (snd (@update_arp sample_helper [] false two_hosts_among_others)).
Proof.
  split; [discriminate|]. split.
  - exact (proj1 (@arp_conflict_collapses sample_helper two_hosts_on_ether1
                    arp_first arp_second (VStr "ether1") (VStr "ether1") [] false
                    arp_first_candidate arp_second_candidate eq_refl) eq_refl).
  - exact (proj2 (@arp_conflict_collapses sample_helper two_hosts_among_others
                    arp_first arp_second (VStr "ether1") (VStr "ether1") [] false
                    arp_first_candidate arp_second_candidate eq_refl)
             [[("invalid", VBool true); ("interface", VStr "ether1")]]
             [[("invalid", VBool false); ("interface", VStr "bridge");
               ("mac-address", VStr "AA:BB:CC:00:00:09");
               ("address", VStr "192.168.88.19")]]
             [[("invalid", VBool false); ("interface", VStr "wlan7");
               ("mac-address", VStr "AA:BB:CC:00:00:03")]]
             ([(VStr "AA:BB:CC:00:00:09", VStr "192.168.88.19")], true)
             eq_refl eq_refl).
Defined.

(** ** C7: bridge hosts *)
Section BridgeHosts.
Context `{Helper}.

Lemma for_each_single {A} (x : A) (body : A -> M unit) c :
  for_each [x] body c = body x c.
Proof.
  cbn [for_each]. unfold bind, ret.
  destruct (body x c) as [[[]|e] c1]; reflexivity.
Qed.

Lemma update_bridge_hosts_single c mac2ip entry :
  path (api c) "/interface/bridge/host" = [entry] ->
  update_bridge_hosts mac2ip c =
    update_bridge_hosts_entry mac2ip entry (with_call c (CallPath "/interface/bridge/host")).
Proof.
  intros E. unfold update_bridge_hosts. unfold bind at 1, api_path. rewrite E.
  cbn [no_data]. apply for_each_single.
Qed.

Lemma update_bridge_hosts_entry_local c mac2ip entry local :
  rec_get entry "local" = Some local -> truthy local = true ->
  update_bridge_hosts_entry mac2ip entry c = (Ok tt, c).
Proof.
  intros E Hl. unfold update_bridge_hosts_entry. unfold bind at 1, lift, subscript.
  now rewrite E, Hl.
Qed.

Lemma update_bridge_hosts_entry_unresolved c mac2ip entry local u :
  rec_get entry "local" = Some local -> truthy local = false ->
  find_iface (interface (self_data c)) (dict_keys (interface (self_data c))) entry = Ok u ->
  usable_uid u = None ->
  update_bridge_hosts_entry mac2ip entry c = (Ok tt, c).
Proof.
  intros E Hl Hfind Hu. unfold update_bridge_hosts_entry.
  unfold bind at 1, lift, subscript. rewrite E, Hl.
  unfold bind at 1, get_iface_from_entry. unfold bind at 1, get_data, lift.
  now rewrite Hfind, Hu.
Qed.

Lemma update_bridge_hosts_entry_resolved c mac2ip entry local uid :
  rec_get entry "local" = Some local -> truthy local = false ->
  resolves_to c entry uid ->
  update_bridge_hosts_entry mac2ip entry c =
    (Ok tt,
     set_data (with_log c (LogDebug "/interface/bridge/host" entry))
       (set_arp (self_data c)
          (tbl_set (arp (self_data c)) uid
             (bridge_record entry uid mac2ip (record_at (arp (self_data c)) uid))))).
Proof.
  intros E Hl [Hfind Huid]. unfold update_bridge_hosts_entry.
  unfold bind at 1, lift, subscript. rewrite E, Hl.
  unfold bind at 1, get_iface_from_entry. unfold bind at 1, get_data, lift.
  rewrite Hfind. cbn [usable_uid]. rewrite Huid.
  unfold bind at 1, log. unfold bridge_record, record_at.
  run_arp_writes. rewrite tbl_mem_get.
  destruct (tbl_get (arp (self_data c)) uid) as [r0|] eqn:E0.
  - run_arp_writes. rewrite E0. run_arp_writes.
    rewrite rec_mem_set. cbn [String.eqb Ascii.eqb Bool.eqb].
    destruct (rec_mem r0 "mac-address") eqn:Em.
    + run_arp_writes. rewrite !tbl_set_set. reflexivity.
    + run_arp_writes. rewrite !rec_get_set. cbn [String.eqb Ascii.eqb Bool.eqb].
      unfold dict_mem.
      destruct (dict_get py_eq mac2ip (from_entry entry "mac-address" None)) as [ip|] eqn:Eip.
      * run_arp_writes. rewrite !rec_get_set. cbn [String.eqb Ascii.eqb Bool.eqb].
        rewrite Eip. run_arp_writes. rewrite !tbl_set_set. reflexivity.
      * run_arp_writes. rewrite !tbl_set_set. reflexivity.
  - run_arp_writes. rewrite rec_mem_set. cbn [String.eqb Ascii.eqb Bool.eqb rec_mem dict_mem dict_get].
    run_arp_writes. rewrite !rec_get_set. cbn [String.eqb Ascii.eqb Bool.eqb].
    unfold dict_mem.
    destruct (dict_get py_eq mac2ip (from_entry entry "mac-address" None)) as [ip|] eqn:Eip.
    + run_arp_writes. rewrite !rec_get_set. cbn [String.eqb Ascii.eqb Bool.eqb].
      rewrite Eip. run_arp_writes. rewrite !tbl_set_set. reflexivity.
    + run_arp_writes. rewrite !tbl_set_set. reflexivity.
Qed.
End BridgeHosts.

Lemma bridge_record_fields `{Helper} entry uid mac2ip r0 :
  rec_get (bridge_record entry uid mac2ip r0) "interface" = Some uid /\
  (rec_mem r0 "mac-address" = true ->
   rec_get (bridge_record entry uid mac2ip r0) "mac-address" = Some (VStr "multiple") /\
   rec_get (bridge_record entry uid mac2ip r0) "address" = Some (VStr "multiple")) /\
  (rec_mem r0 "mac-address" = false ->
   rec_get (bridge_record entry uid mac2ip r0) "mac-address"
     = Some (from_entry entry "mac-address" None) /\
   rec_get (bridge_record entry uid mac2ip r0) "address"
     = Some match dict_get py_eq mac2ip (from_entry entry "mac-address" None) with
            | Some ip => ip
            | None => VStr ""
            end).
Proof.
  unfold bridge_record. rewrite rec_mem_set. cbn [String.eqb Ascii.eqb Bool.eqb].
  destruct (rec_mem r0 "mac-address"); rewrite !rec_get_set; cbn;
    repeat split; intros; try discriminate; reflexivity.
Qed.

Lemma update_bridge_hosts_at `{Helper} c c1 mac2ip pre entry post :
  path (api c) "/interface/bridge/host" = (pre ++ entry :: post)%list ->
  for_each pre (update_bridge_hosts_entry mac2ip)
    (with_call c (CallPath "/interface/bridge/host")) = (Ok tt, c1) ->
  update_bridge_hosts mac2ip c =
    match update_bridge_hosts_entry mac2ip entry c1 with
    | (Ok _, c2) => for_each post (update_bridge_hosts_entry mac2ip) c2
    | (Raise e, c2) => (Raise e, c2)
    end.
Proof.
  intros E Hpre. unfold update_bridge_hosts. unfold bind at 1, api_path. rewrite E.
  replace (no_data (pre ++ entry :: post)%list) with false by (now destruct pre).
  rewrite for_each_app, Hpre. cbn [for_each]. unfold bind.
  destruct (update_bridge_hosts_entry mac2ip entry c1) as [[[]|e] c2]; reflexivity.
Qed.

(** C7: [update_bridge_hosts] treats each record [entry] of the fetched
    batch as follows, whatever records come before it ([pre], which ran
    normally and left the controller [c1]) and after it ([post]). A record
    flagged ['local'] is discarded and a record whose interface name
    resolves to no interface is skipped: the loop goes on with [post] from
    [c1] unchanged. Otherwise the loop goes on with [post] from [c1] with
    one debug line logged and the ARP entry of the resolved uid replaced by
    a record that holds the uid in [interface], and "multiple" in
    [mac-address] and in [address] when that entry had a [mac-address]
    before, and else the host's MAC in [mac-address] and, in [address], what
    the MAC-to-IP table holds for that MAC, or the empty string when it
    holds nothing. *)
Theorem bridge_host_processing `{Helper} (c c1 : controller) (mac2ip : mac2ip_t)
    (pre post : list record) (entry : record) (local : pyval) :
  path (api c) "/interface/bridge/host" = (pre ++ entry :: post)%list ->
  for_each pre (update_bridge_hosts_entry mac2ip)
    (with_call c (CallPath "/interface/bridge/host")) = (Ok tt, c1) ->
  rec_get entry "local" = Some local ->
  (truthy local = true ->
   update_bridge_hosts mac2ip c = for_each post (update_bridge_hosts_entry mac2ip) c1) /\
  (truthy local = false ->
   forall u,
     find_iface (interface (self_data c1)) (dict_keys (interface (self_data c1))) entry = Ok u ->
     usable_uid u = None ->
     update_bridge_hosts mac2ip c = for_each post (update_bridge_hosts_entry mac2ip) c1) /\
  (truthy local = false ->
   forall uid, resolves_to c1 entry uid ->
     exists r,
       update_bridge_hosts mac2ip c =
         for_each post (update_bridge_hosts_entry mac2ip)
           (set_data (with_log c1 (LogDebug "/interface/bridge/host" entry))
              (set_arp (self_data c1) (tbl_set (arp (self_data c1)) uid r))) /\
       r = bridge_record entry uid mac2ip (record_at (arp (self_data c1)) uid) /\
       rec_get r "interface" = Some uid /\
       (rec_mem (record_at (arp (self_data c1)) uid) "mac-address" = true ->
        rec_get r "mac-address" = Some (VStr "multiple") /\
        rec_get r "address" = Some (VStr "multiple")) /\
       (rec_mem (record_at (arp (self_data c1)) uid) "mac-address" = false ->
        rec_get r "mac-address" = Some (from_entry entry "mac-address" None) /\
        rec_get r "address" =
          Some match dict_get py_eq mac2ip (from_entry entry "mac-address" None) with
               | Some ip => ip
               | None => VStr ""
               end)).
Proof.
  intros E Hpre El.
  pose proof (update_bridge_hosts_at c c1 mac2ip pre entry post E Hpre) as Hat.
  split; [|split].
  - intros Hl.
    now rewrite (update_bridge_hosts_entry_local c1 mac2ip entry local El Hl) in Hat.
  - intros Hl u Hfind Hu.
    now rewrite (update_bridge_hosts_entry_unresolved c1 mac2ip entry local u
                   El Hl Hfind Hu) in Hat.
  - intros Hl uid Hres.
    rewrite (update_bridge_hosts_entry_resolved c1 mac2ip entry local uid El Hl Hres)
      in Hat.
    eexists. split; [exact Hat|]. split; [reflexivity|].
    apply bridge_record_fields.
Qed.

Lemma bridge_host_resolves : resolves_to one_bridge_host bridge_host (VStr "ether2").
Proof. split; reflexivity. Defined.

Lemma bridge_host_processing_witness :
  exists c1 r,
    for_each [bridge_port_record] (@update_bridge_hosts_entry sample_helper bridge_mac2ip)
      (with_call three_bridge_hosts (CallPath "/interface/bridge/host")) = (Ok tt, c1) /\
    @update_bridge_hosts sample_helper bridge_mac2ip three_bridge_hosts =
      for_each [bridge_second_host] (@update_bridge_hosts_entry sample_helper bridge_mac2ip)
        (set_data (with_log c1 (LogDebug "/interface/bridge/host" bridge_host))
           (set_arp (self_data c1) (tbl_set (arp (self_data c1)) (VStr "ether2") r))) /\
    rec_get r "mac-address" = Some (VStr "AA:BB:CC:00:00:02") /\
    rec_get r "address" = Some (VStr "192.168.88.20").
Proof.
  destruct (@bridge_host_processing sample_helper three_bridge_hosts
              (with_call three_bridge_hosts (CallPath "/interface/bridge/host"))
              bridge_mac2ip [bridge_port_record] [bridge_second_host] bridge_host
              (VBool false) eq_refl eq_refl eq_refl) as (_ & _ & Hres).
  destruct (Hres eq_refl (VStr "ether2") (conj eq_refl eq_refl))
    as (r & Hrun & _ & _ & _ & Hnew).
  eexists; exists r. split; [reflexivity|]. split; [exact Hrun|]. exact (Hnew eq_refl).
Defined.

(** ** The fast cycle as shipped *)

Lemma for_each_all_ok {A} (body : A -> M unit) (l : list A) :
  (forall x c, fst (body x c) = Ok tt) -> forall c, fst (for_each l body c) = Ok tt.
Proof.
  intros Hb. induction l as [|x l IH]; intros c; [reflexivity|].
  cbn [for_each]. unfold bind. specialize (Hb x c).
  destruct (body x c) as [[[]|e] c1]; [apply IH | discriminate].
Qed.

Lemma get_firmware_update_ok `{Helper} c : fst (get_firmware_update c) = Ok tt.
Proof.
  unfold get_firmware_update. unfold bind at 1, api_path.
  destruct (path (api c) "/system/package/update") as [|entry data] eqn:E;
    [reflexivity|].
  cbn [no_data]. apply for_each_all_ok.
  intros x c1. apply get_firmware_update_entry_available.
Qed.

(** Every fast cycle ends in the [NameError] of [get_interface]: the steps
    after it (clients, NAT, resources, scripts, the update signal) are not
    reached through [async_update]. *)
Lemma async_update_stops_at_get_interface `{Helper} `{Merger} c :
  fst (async_update c) = Raise (NameError "interface_list").
Proof.
  unfold async_update. unfold bind at 1, get_data. unfold bind at 1.
  assert (Hfirst : forall c0, exists c1,
    (if negb (rec_mem (fw_update (self_data c)) "available")
     then async_fwupdate_check else ret tt) c0 = (Ok tt, c1)).
  { intros c0. destruct (negb (rec_mem (fw_update (self_data c)) "available")).
    - unfold async_fwupdate_check, bind. pose proof (get_firmware_update_ok c0) as Hok.
      destruct (get_firmware_update c0) as [[[]|e] c1]; [|discriminate].
      eexists. reflexivity.
    - eexists. reflexivity. }
  destruct (Hfirst c) as [c1 ->]. unfold bind at 1.
  rewrite get_interface_run. reflexivity.
Qed.

(** * Further properties of the controller *)

(** ** What each refresh may touch *)

Lemma data_eta (d : data) :
  {| routerboard := routerboard d; resource := resource d; interface := interface d;
     arp := arp d; nat := nat d; fw_update := fw_update d; script := script d |} = d.
Proof. now destruct d. Qed.

(** Closes [keeps R m] for a primitive [m] of the monad, once [R] is
    unfolded to a statement about the two controllers. *)
Ltac keeps_prim :=
  let c := fresh "c" in
  intro c;
  cbv [changes_only same_calls same_log same_interface
       assign_in tbl_assign ensure_key modify read_in log api_path api_get_traffic
       async_dispatcher_send assign_resource assign_routerboard assign_fw_update
       get_data get_option_track_arp ret raise lift];
  cbn [fst snd];
  repeat match goal with
         | |- context [match ?x with _ => _ end] => destruct x
         | |- context [if ?x then _ else _] => destruct x
         end;
  cbn [fst snd self_data set_data with_call with_log calls logged
       routerboard resource interface arp nat fw_update script
       set_routerboard set_resource set_interface set_arp set_nat set_fw_update set_script];
  first [ reflexivity
        | eexists; reflexivity
        | eexists; symmetry; apply data_eta ].

Section ChangesOnly.
Context {T : Type}.
Variable set : data -> T -> data.
Variable get : data -> T.
Hypothesis set_get : forall d, set d (get d) = d.
Hypothesis set_set : forall d x y, set (set d x) y = set d y.

Lemma changes_only_refl c : changes_only set c c.
Proof. exists (get (self_data c)). now rewrite set_get. Qed.

Lemma changes_only_trans a b c :
  changes_only set a b -> changes_only set b c -> changes_only set a c.
Proof. intros [x Hx] [y Hy]. exists y. now rewrite Hy, Hx, set_set. Qed.
End ChangesOnly.

Lemma only_nat_refl c : changes_only set_nat c c.
Proof. apply (changes_only_refl set_nat nat). intros d. now destruct d. Qed.
Lemma only_nat_trans a b c :
  changes_only set_nat a b -> changes_only set_nat b c -> changes_only set_nat a c.
Proof. apply changes_only_trans. reflexivity. Qed.

Lemma only_script_refl c : changes_only set_script c c.
Proof. apply (changes_only_refl set_script script). intros d. now destruct d. Qed.
Lemma only_script_trans a b c :
  changes_only set_script a b -> changes_only set_script b c -> changes_only set_script a c.
Proof. apply changes_only_trans. reflexivity. Qed.

Lemma only_resource_refl c : changes_only set_resource c c.
Proof. apply (changes_only_refl set_resource resource). intros d. now destruct d. Qed.
Lemma only_resource_trans a b c :
  changes_only set_resource a b -> changes_only set_resource b c ->
  changes_only set_resource a c.
Proof. apply changes_only_trans. reflexivity. Qed.

Lemma only_routerboard_refl c : changes_only set_routerboard c c.
Proof. apply (changes_only_refl set_routerboard routerboard). intros d. now destruct d. Qed.
Lemma only_routerboard_trans a b c :
  changes_only set_routerboard a b -> changes_only set_routerboard b c ->
  changes_only set_routerboard a c.
Proof. apply changes_only_trans. reflexivity. Qed.

Lemma only_fw_update_refl c : changes_only set_fw_update c c.
Proof. apply (changes_only_refl set_fw_update fw_update). intros d. now destruct d. Qed.
Lemma only_fw_update_trans a b c :
  changes_only set_fw_update a b -> changes_only set_fw_update b c ->
  changes_only set_fw_update a c.
Proof. apply changes_only_trans. reflexivity. Qed.

Lemma only_arp_refl c : changes_only set_arp c c.
Proof. apply (changes_only_refl set_arp arp). intros d. now destruct d. Qed.
Lemma only_arp_trans a b c :
  changes_only set_arp a b -> changes_only set_arp b c -> changes_only set_arp a c.
Proof. apply changes_only_trans. reflexivity. Qed.

Lemma same_calls_refl c : same_calls c c.
Proof. reflexivity. Qed.
Lemma same_calls_trans a b c : same_calls a b -> same_calls b c -> same_calls a c.
Proof. unfold same_calls. congruence. Qed.

Lemma same_log_refl c : same_log c c.
Proof. reflexivity. Qed.
Lemma same_log_trans a b c : same_log a b -> same_log b c -> same_log a c.
Proof. unfold same_log. congruence. Qed.

Lemma same_interface_refl c : same_interface c c.
Proof. reflexivity. Qed.
Lemma same_interface_trans a b c :
  same_interface a b -> same_interface b c -> same_interface a c.
Proof. unfold same_interface. congruence. Qed.

(** Walks a method down to its primitives. *)
Ltac keeps_walk :=
  repeat first [ keeps_step | solve [keeps_prim] ].

Section Footprints.
Context `{Helper}.

Lemma get_nat_only_nat : keeps (changes_only set_nat) get_nat.
Proof.
  pose proof only_nat_refl. pose proof only_nat_trans.
  unfold get_nat, get_nat_entry. keeps_walk.
Qed.

Lemma get_script_only_script : keeps (changes_only set_script) get_script.
Proof.
  pose proof only_script_refl. pose proof only_script_trans.
  unfold get_script, get_script_entry. keeps_walk.
Qed.

Lemma get_system_resource_only_resource :
  keeps (changes_only set_resource) get_system_resource.
Proof.
  pose proof only_resource_refl. pose proof only_resource_trans.
  unfold get_system_resource, get_system_resource_entry. keeps_walk.
Qed.

Lemma get_system_routerboard_only_routerboard :
  keeps (changes_only set_routerboard) get_system_routerboard.
Proof.
  pose proof only_routerboard_refl. pose proof only_routerboard_trans.
  unfold get_system_routerboard, get_system_routerboard_entry. keeps_walk.
Qed.

Lemma get_firmware_update_only_fw_update :
  keeps (changes_only set_fw_update) get_firmware_update.
Proof.
  pose proof only_fw_update_refl. pose proof only_fw_update_trans.
  unfold get_firmware_update, get_firmware_update_entry. keeps_walk.
Qed.
End Footprints.

(** X1: however it ends, each refresh leaves every table and record of
    [self.data] other than its own exactly as it was. *)
Theorem refresh_footprints `{Helper} (c : controller) :
  (exists t, self_data (snd (get_nat c)) = set_nat (self_data c) t) /\
  (exists t, self_data (snd (get_script c)) = set_script (self_data c) t) /\
  (exists r, self_data (snd (get_system_resource c)) = set_resource (self_data c) r) /\
  (exists r, self_data (snd (get_system_routerboard c)) = set_routerboard (self_data c) r) /\
  (exists r, self_data (snd (get_firmware_update c)) = set_fw_update (self_data c) r).
Proof.
  split; [apply get_nat_only_nat|].
  split; [apply get_script_only_script|].
  split; [apply get_system_resource_only_resource|].
  split; [apply get_system_routerboard_only_routerboard|].
  apply get_firmware_update_only_fw_update.
Qed.

(** ** The calls a refresh makes *)

(** A method that fetches [p] and then works on the answer without the API
    has made exactly that one call, however it ends. *)
Lemma fetch_then_quiet {A} p (k : list record -> M A) c :
  (forall answer, keeps same_calls (k answer)) ->
  calls (snd ((answer <- api_path p ;; k answer) c)) = (calls c ++ [CallPath p])%list.
Proof.
  intros Hk. unfold bind at 1, api_path.
  exact (Hk (path (api c) p) (with_call c (CallPath p))).
Qed.

Section Calls.
Context `{Helper}.
Let Cr := same_calls_refl.
Let Ct := same_calls_trans.

Lemma get_nat_calls c :
  calls (snd (get_nat c)) = (calls c ++ [CallPath "/ip/firewall/nat"])%list.
Proof.
  apply fetch_then_quiet. intros answer. unfold get_nat_entry. keeps_walk.
Qed.

Lemma get_script_calls c :
  calls (snd (get_script c)) = (calls c ++ [CallPath "/system/script"])%list.
Proof.
  apply fetch_then_quiet. intros answer. unfold get_script_entry. keeps_walk.
Qed.

Lemma get_system_resource_calls c :
  calls (snd (get_system_resource c)) = (calls c ++ [CallPath "/system/resource"])%list.
Proof.
  apply fetch_then_quiet. intros answer. unfold get_system_resource_entry. keeps_walk.
Qed.

Lemma get_system_routerboard_calls c :
  calls (snd (get_system_routerboard c)) =
    (calls c ++ [CallPath "/system/routerboard"])%list.
Proof.
  apply fetch_then_quiet. intros answer. unfold get_system_routerboard_entry. keeps_walk.
Qed.

Lemma get_firmware_update_calls c :
  calls (snd (get_firmware_update c)) =
    (calls c ++ [CallPath "/system/package/update"])%list.
Proof.
  apply fetch_then_quiet. intros answer. unfold get_firmware_update_entry. keeps_walk.
Qed.

Lemma get_iface_from_entry_quiet entry : keeps same_calls (get_iface_from_entry entry).
Proof. unfold get_iface_from_entry. keeps_walk. Qed.

Lemma update_arp_calls mac2ip bridge_used c :
  calls (snd (update_arp mac2ip bridge_used c)) = (calls c ++ [CallPath "/ip/arp"])%list.
Proof.
  apply fetch_then_quiet. intros answer. unfold update_arp_entry.
  repeat first [apply get_iface_from_entry_quiet | keeps_step | solve [keeps_prim]].
Qed.

Lemma update_bridge_hosts_calls mac2ip c :
  calls (snd (update_bridge_hosts mac2ip c)) =
    (calls c ++ [CallPath "/interface/bridge/host"])%list.
Proof.
  apply fetch_then_quiet. intros answer. unfold update_bridge_hosts_entry.
  repeat first [apply get_iface_from_entry_quiet | keeps_step | solve [keeps_prim]].
Qed.
End Calls.

(** X2: however it ends, and whatever the answer, each refresh makes exactly
    one call to the API: the fetch of its own endpoint. *)
Theorem refresh_single_fetch `{Helper} (c : controller)
    (mac2ip : mac2ip_t) (bridge_used : bool) :
  calls (snd (get_nat c)) = (calls c ++ [CallPath "/ip/firewall/nat"])%list /\
  calls (snd (get_script c)) = (calls c ++ [CallPath "/system/script"])%list /\
  calls (snd (get_system_resource c)) = (calls c ++ [CallPath "/system/resource"])%list /\
  calls (snd (get_system_routerboard c)) =
    (calls c ++ [CallPath "/system/routerboard"])%list /\
  calls (snd (get_firmware_update c)) =
    (calls c ++ [CallPath "/system/package/update"])%list /\
  calls (snd (update_arp mac2ip bridge_used c)) = (calls c ++ [CallPath "/ip/arp"])%list /\
  calls (snd (update_bridge_hosts mac2ip c)) =
    (calls c ++ [CallPath "/interface/bridge/host"])%list.
Proof.
  split; [apply get_nat_calls|]. split; [apply get_script_calls|].
  split; [apply get_system_resource_calls|].
  split; [apply get_system_routerboard_calls|].
  split; [apply get_firmware_update_calls|].
  split; [apply update_arp_calls | apply update_bridge_hosts_calls].
Qed.

(** ** Refreshes that cannot fail *)
Section NeverRaise.
Context `{Helper}.

Lemma get_system_routerboard_ok c : fst (get_system_routerboard c) = Ok tt.
Proof.
  unfold get_system_routerboard. unfold bind at 1, api_path.
  destruct (path (api c) "/system/routerboard") as [|entry answer]; [reflexivity|].
  cbn [no_data]. apply for_each_all_ok. intros x c1. reflexivity.
Qed.

Lemma get_script_ok c : fst (get_script c) = Ok tt.
Proof. rewrite get_script_eq. apply get_script_loop. Qed.

Lemma async_fwupdate_check_run c :
  async_fwupdate_check c = (Ok tt, with_call (snd (get_firmware_update c)) DispatcherSend).
Proof.
  unfold async_fwupdate_check, bind. pose proof (get_firmware_update_ok c) as Hok.
  destruct (get_firmware_update c) as [[[]|e] c1]; [reflexivity | discriminate].
Qed.
End NeverRaise.

(** X3: whatever the router answers, the routerboard refresh, the firmware
    check and the script refresh end normally: no record makes them raise. *)
Theorem refreshes_that_never_raise `{Helper} (c : controller) :
  fst (get_system_routerboard c) = Ok tt /\
  fst (get_firmware_update c) = Ok tt /\
  fst (get_script c) = Ok tt /\
  fst (async_fwupdate_check c) = Ok tt.
Proof.
  split; [apply get_system_routerboard_ok|].
  split; [apply get_firmware_update_ok|].
  split; [apply get_script_ok|].
  now rewrite async_fwupdate_check_run.
Qed.

(** X4: the firmware check always ends normally, having fetched the update
    endpoint once and then sent the update signal once, and having changed
    nothing of [self.data] but the firmware record. *)
Theorem async_fwupdate_check_signals `{Helper} (c : controller) :
  fst (async_fwupdate_check c) = Ok tt /\
  calls (snd (async_fwupdate_check c)) =
    (calls c ++ [CallPath "/system/package/update"; DispatcherSend])%list /\
  (exists r, self_data (snd (async_fwupdate_check c)) = set_fw_update (self_data c) r).
Proof.
  rewrite async_fwupdate_check_run. cbn [fst snd calls self_data with_call].
  split; [reflexivity|]. split.
  - rewrite get_firmware_update_calls, <- app_assoc. reflexivity.
  - apply get_firmware_update_only_fw_update.
Qed.

(** ** The fast cycle and the hardware refresh *)

(** The fast cycle is its optional firmware check followed by
    [get_interface], where it stops. *)
Lemma async_update_run `{Helper} `{Merger} c :
  async_update c =
    get_interface
      (if rec_mem (fw_update (self_data c)) "available" then c
       else with_call (snd (get_firmware_update c)) DispatcherSend).
Proof.
  unfold async_update. unfold bind at 1, get_data. unfold bind at 1.
  destruct (rec_mem (fw_update (self_data c)) "available"); cbn [negb].
  - unfold ret. unfold bind at 1. now rewrite !get_interface_run.
  - rewrite async_fwupdate_check_run. unfold bind at 1. now rewrite !get_interface_run.
Qed.

(** X5: every fast cycle raises [NameError] in [get_interface]. Up to there
    it has made the firmware check (fetch and signal) when the firmware
    record had no ['available'] yet, and then fetched [/interface]; the ARP,
    NAT and script tables and the routerboard and resource records are
    exactly as before the cycle, and the closing update signal is not sent. *)
Theorem async_update_trace `{Helper} `{Merger} (c : controller) :
  fst (async_update c) = Raise (NameError "interface_list") /\
  calls (snd (async_update c)) =
    (calls c ++
     (if rec_mem (fw_update (self_data c)) "available" then []
      else [CallPath "/system/package/update"; DispatcherSend]) ++
     [CallPath "/interface"])%list /\
  arp (self_data (snd (async_update c))) = arp (self_data c) /\
  nat (self_data (snd (async_update c))) = nat (self_data c) /\
  script (self_data (snd (async_update c))) = script (self_data c) /\
  routerboard (self_data (snd (async_update c))) = routerboard (self_data c) /\
  resource (self_data (snd (async_update c))) = resource (self_data c).
Proof.
  rewrite async_update_run, get_interface_run.
  cbn [fst snd calls self_data set_data with_call arp nat script routerboard resource
       set_interface].
  split; [reflexivity|].
  destruct (rec_mem (fw_update (self_data c)) "available").
  - repeat split; reflexivity.
  - cbn [calls self_data with_call]. rewrite get_firmware_update_calls.
    destruct (get_firmware_update_only_fw_update c) as [r ->].
    cbn [arp nat script routerboard resource set_fw_update].
    rewrite <- !app_assoc. repeat split; reflexivity.
Qed.

(** X6: the hardware refresh fetches the routerboard record and then the
    resource record, both in every run; it raises exactly what the resource
    refresh raises after the routerboard refresh; and it leaves the
    interface, ARP, NAT and script tables and the firmware record as they
    were. *)
Theorem hwinfo_update_composes `{Helper} (c : controller) :
  hwinfo_update c = get_system_resource (snd (get_system_routerboard c)) /\
  calls (snd (hwinfo_update c)) =
    (calls c ++ [CallPath "/system/routerboard"; CallPath "/system/resource"])%list /\
  interface (self_data (snd (hwinfo_update c))) = interface (self_data c) /\
  arp (self_data (snd (hwinfo_update c))) = arp (self_data c) /\
  nat (self_data (snd (hwinfo_update c))) = nat (self_data c) /\
  script (self_data (snd (hwinfo_update c))) = script (self_data c) /\
  fw_update (self_data (snd (hwinfo_update c))) = fw_update (self_data c).
Proof.
  assert (E : hwinfo_update c = get_system_resource (snd (get_system_routerboard c))).
  { unfold hwinfo_update, bind. pose proof (get_system_routerboard_ok c) as Hok.
    destruct (get_system_routerboard c) as [[[]|e] c1]; [reflexivity | discriminate]. }
  rewrite E. split; [reflexivity|].
  rewrite get_system_resource_calls, get_system_routerboard_calls, <- app_assoc.
  split; [reflexivity|].
  destruct (get_system_resource_only_resource (snd (get_system_routerboard c))) as [r ->].
  destruct (get_system_routerboard_only_routerboard c) as [r' ->].
  repeat split; reflexivity.
Qed.

(** ** Resolving an interface name *)

Lemma optional_some v uid : optional v = Some uid -> v = uid.
Proof. destruct v; cbn; congruence. Qed.

Lemma optional_none v : optional v = None -> v = VNone.
Proof. destruct v; cbn; congruence. Qed.

(** What the loop returns: nothing matched, or the ['default-name'] of the
    first match. *)
Lemma find_iface_result t entry u : forall ks,
  find_iface t ks entry = Ok u ->
  ((forall k, In k ks -> name_matches t entry false k) /\ u = None) \/
  exists pre k post r v,
    ks = (pre ++ k :: post)%list /\
    (forall k', In k' pre -> name_matches t entry false k') /\
    name_matches t entry true k /\
    tbl_get t k = Some r /\ rec_get r "default-name" = Some v /\ u = optional v.
Proof.
  induction ks as [|k ks IH]; cbn [find_iface].
  - intros [= <-]. left. split; [intros k []|reflexivity].
  - unfold subscript.
    destruct (tbl_get t k) as [r|] eqn:Er; [|discriminate].
    destruct (rec_get r "name") as [name|] eqn:En; [|discriminate].
    destruct (rec_get entry "interface") as [wanted|] eqn:Ew; [|discriminate].
    destruct (py_eq name wanted) eqn:Hm.
    + destruct (rec_get r "default-name") as [v|] eqn:Ev; [|discriminate].
      intros [= <-]. right. exists [], k, ks, r, v. split; [reflexivity|].
      split; [intros k' []|]. split; [|auto].
      exists r, name, wanted. auto.
    + intros [[Hall ->] | (pre & k1 & post & r1 & v & -> & Hpre & Hk1 & Hr1)]%IH.
      * left. split; [|reflexivity]. intros k' [<- | Hin]; [|auto].
        exists r, name, wanted. auto.
      * right. exists (k :: pre), k1, post, r1, v. split; [reflexivity|].
        split; [|auto]. intros k' [<- | Hin]; [|auto].
        exists r, name, wanted. auto.
Qed.

(** X7: [get_iface_from_entry] changes nothing. When it returns a uid, that
    uid is the ['default-name'] of the first interface, in table order,
    whose ['name'] equals the ['interface'] of the entry, and every
    interface before it has another name; when it returns [None], either
    every interface of the table has a name and none equals the entry's, or
    the first interface whose name equals the entry's has [None] as its
    ['default-name']; on an empty interface table it returns [None] even
    for an entry that has no ['interface'] field. *)
Theorem get_iface_from_entry_first_match (c : controller) (entry : record) :
  snd (get_iface_from_entry entry c) = c /\
  (forall uid, fst (get_iface_from_entry entry c) = Ok (Some uid) ->
     exists pre k post r,
       dict_keys (interface (self_data c)) = (pre ++ k :: post)%list /\
       (forall k', In k' pre -> name_matches (interface (self_data c)) entry false k') /\
       name_matches (interface (self_data c)) entry true k /\
       tbl_get (interface (self_data c)) k = Some r /\
       rec_get r "default-name" = Some uid) /\
  (fst (get_iface_from_entry entry c) = Ok None ->
     (forall k, In k (dict_keys (interface (self_data c))) ->
        name_matches (interface (self_data c)) entry false k) \/
     exists pre k post r,
       dict_keys (interface (self_data c)) = (pre ++ k :: post)%list /\
       (forall k', In k' pre -> name_matches (interface (self_data c)) entry false k') /\
       name_matches (interface (self_data c)) entry true k /\
       tbl_get (interface (self_data c)) k = Some r /\
       rec_get r "default-name" = Some VNone) /\
  (interface (self_data c) = [] -> fst (get_iface_from_entry entry c) = Ok None).
Proof.
  unfold get_iface_from_entry, bind, get_data, lift. cbn [fst snd].
  split; [reflexivity|]. split; [|split].
  - intros uid
      [[_ [=]] | (pre & k & post & r & v & E & Hpre & Hk & Hr & Hv & Hu)]%find_iface_result.
    symmetry in Hu. apply optional_some in Hu as ->.
    exists pre, k, post, r. auto.
  - intros [[Hall _] | (pre & k & post & r & v & E & Hpre & Hk & Hr & Hv & Hu)]%find_iface_result.
    + now left.
    + right. symmetry in Hu. apply optional_none in Hu as ->.
      exists pre, k, post, r. auto.
  - intros ->. reflexivity.
Qed.

Lemma get_iface_from_entry_first_match_witness :
  (fst (get_iface_from_entry bridge_host one_bridge_host) = Ok (Some (VStr "ether2")) /\
   exists pre k post r,
     dict_keys (interface (self_data one_bridge_host)) = (pre ++ k :: post)%list /\
     (forall k', In k' pre ->
        name_matches (interface (self_data one_bridge_host)) bridge_host false k') /\
     name_matches (interface (self_data one_bridge_host)) bridge_host true k /\
     tbl_get (interface (self_data one_bridge_host)) k = Some r /\
     rec_get r "default-name" = Some (VStr "ether2")) /\
  (fst (get_iface_from_entry bridge_host unnamed_default) = Ok None /\
   ((forall k, In k (dict_keys (interface (self_data unnamed_default))) ->
       name_matches (interface (self_data unnamed_default)) bridge_host false k) \/
    exists pre k post r,
      dict_keys (interface (self_data unnamed_default)) = (pre ++ k :: post)%list /\
      (forall k', In k' pre ->
         name_matches (interface (self_data unnamed_default)) bridge_host false k') /\
      name_matches (interface (self_data unnamed_default)) bridge_host true k /\
      tbl_get (interface (self_data unnamed_default)) k = Some r /\
      rec_get r "default-name" = Some VNone)).
Proof.
  split; (split; [reflexivity|]).
  - exact (proj1 (proj2 (get_iface_from_entry_first_match one_bridge_host bridge_host))
             (VStr "ether2") eq_refl).
  - exact (proj1 (proj2 (proj2 (get_iface_from_entry_first_match unnamed_default
                                  bridge_host))) eq_refl).
Defined.

(** ** NAT rules *)

(** Runs a sequence of writes to one key of a table symbolically. *)
Ltac run_writes :=
  unfold bind, ensure_key, modify, assign_in, tbl_assign, read_in, subscript,
    get_data, ret, raise, lift;
  repeat (progress (cbn [self_data set_data with_log with_call fst snd
                         routerboard resource interface arp nat fw_update script
                         set_routerboard set_resource set_interface set_arp set_nat
                         set_fw_update set_script];
                    rewrite ?tbl_get_set, ?py_eq_refl)).

Section Nat.
Context `{Helper}.

Lemma from_entry_present entry f v d :
  rec_get entry f = Some v -> from_entry entry f d = v.
Proof. intros E. unfold from_entry. now rewrite E. Qed.

(** A record with another action is passed over. *)
Lemma get_nat_entry_other entry c :
  rec_mem entry "action" = true -> is_dst_nat entry = false ->
  get_nat_entry entry c = (Ok tt, c).
Proof.
  unfold is_dst_nat. rewrite rec_mem_get.
  destruct (rec_get entry "action") as [a|] eqn:Ea; [|discriminate].
  intros _ Ha. unfold get_nat_entry. unfold bind at 1, lift, subscript.
  now rewrite Ea, Ha.
Qed.

(** A destination-NAT rule with its three fields is merged under its id. *)
Lemma get_nat_entry_dst_nat entry c uid :
  is_dst_nat entry = true -> rec_get entry ".id" = Some uid ->
  rec_mem entry "protocol" = true -> rec_mem entry "dst-port" = true ->
  get_nat_entry entry c =
    (Ok tt,
     set_data c (set_nat (self_data c)
       (tbl_set (nat (self_data c)) uid
          (nat_record entry (record_at (nat (self_data c)) uid))))).
Proof.
  unfold is_dst_nat. rewrite !rec_mem_get.
  destruct (rec_get entry "action") as [a|] eqn:Ea; [|discriminate].
  destruct (rec_get entry "protocol") as [p|] eqn:Ep; [|discriminate].
  destruct (rec_get entry "dst-port") as [q|] eqn:Eq; [|discriminate].
  intros Ha Eid _ _. unfold get_nat_entry.
  unfold bind at 1, lift, subscript. rewrite Ea, Ha. cbn [negb].
  unfold bind at 1. rewrite Eid.
  unfold nat_record, record_at.
  rewrite (from_entry_present entry "protocol" p None Ep).
  rewrite (from_entry_present entry "dst-port" q None Eq).
  run_writes. rewrite tbl_mem_get.
  destruct (tbl_get (nat (self_data c)) uid) as [r0|] eqn:E0.
  - run_writes. rewrite Ep, Eq. run_writes. rewrite E0. run_writes.
    rewrite !tbl_set_set. reflexivity.
  - run_writes. rewrite Ep, Eq. run_writes.
    rewrite !tbl_set_set. reflexivity.
Qed.
End Nat.

Section NatBatch.
Context `{Helper}.

Lemma dst_nat_id_cons entry batch k :
  dst_nat_id (entry :: batch) k <->
  (is_dst_nat entry = true /\ exists uid, rec_get entry ".id" = Some uid /\ py_eq uid k = true)
  \/ dst_nat_id batch k.
Proof.
  unfold dst_nat_id. split.
  - intros (e & uid & [<- | Hin] & Hd & Hid & Hk); [left | right]; eauto 6.
  - intros [(Hd & uid & Hid & Hk) | (e & uid & Hin & Hd & Hid & Hk)].
    + exists entry, uid. repeat split; auto. now left.
    + exists e, uid. repeat split; auto. now right.
Qed.

(** The loop of [get_nat] over a batch of records that have the fields it
    subscripts. *)
Lemma get_nat_loop batch : forall c,
  forallb nat_ready batch = true ->
  fst (for_each batch get_nat_entry c) = Ok tt /\
  (forall k, tbl_mem (nat (self_data (snd (for_each batch get_nat_entry c)))) k = true <->
             tbl_mem (nat (self_data c)) k = true \/ dst_nat_id batch k) /\
  (forall k, ~ dst_nat_id batch k ->
             tbl_get (nat (self_data (snd (for_each batch get_nat_entry c)))) k =
             tbl_get (nat (self_data c)) k).
Proof.
  induction batch as [|entry batch IH]; intros c Hready.
  - cbn. split; [reflexivity|]. split; [|reflexivity].
    intros k. split; [auto|]. intros [Hm | (e & uid & [] & _)]. exact Hm.
  - cbn [forallb] in Hready. apply andb_true_iff in Hready as [He Hrest].
    unfold nat_ready in He. apply andb_true_iff in He as [Hact Hfields].
    destruct (is_dst_nat entry) eqn:Hd.
    + cbn [negb orb] in Hfields.
      apply andb_true_iff in Hfields as [Hfields Hport].
      apply andb_true_iff in Hfields as [Hid Hproto].
      rewrite rec_mem_get in Hid.
      destruct (rec_get entry ".id") as [uid|] eqn:Eid; [|discriminate].
      rewrite (for_each_cons_ok _ _ _ _ _
                 (get_nat_entry_dst_nat entry c uid Hd Eid Hproto Hport)).
      match goal with |- context [for_each batch get_nat_entry ?c1] =>
        destruct (IH c1 Hrest) as (Hok & Hkeys & Hother) end.
      cbn [self_data set_data nat set_nat] in Hkeys, Hother.
      split; [exact Hok|]. split.
      * intros k. rewrite Hkeys, dst_nat_id_cons, !tbl_mem_get, tbl_get_set.
        destruct (py_eq uid k) eqn:Ek.
        -- split; [|auto]. intros _. right. left. split; [exact Hd|]. eauto.
        -- split.
           ++ intros [Hm | Hb]; auto.
           ++ intros [Hm | [(_ & u & Hu1 & Hu) | Hb]]; auto.
              rewrite Eid in Hu1. injection Hu1 as <-. congruence.
      * intros k Hk. rewrite Hother.
        -- rewrite tbl_get_set. destruct (py_eq uid k) eqn:Ek; [|reflexivity].
           exfalso. apply Hk. apply dst_nat_id_cons. left. split; [exact Hd|]. eauto.
        -- intros Hb. apply Hk. apply dst_nat_id_cons. now right.
    + rewrite (for_each_cons_ok _ _ _ _ _ (get_nat_entry_other entry c Hact Hd)).
      destruct (IH c Hrest) as (Hok & Hkeys & Hother).
      split; [exact Hok|]. split.
      * intros k. rewrite Hkeys, dst_nat_id_cons. split.
        -- intros [Hm | Hb]; auto.
        -- intros [Hm | [(Hf & _) | Hb]]; auto. congruence.
      * intros k Hk. apply Hother. intros Hb. apply Hk. apply dst_nat_id_cons. now right.
Qed.

Lemma get_nat_eq c :
  get_nat c =
    for_each (path (api c) "/ip/firewall/nat") get_nat_entry
      (with_call c (CallPath "/ip/firewall/nat")).
Proof.
  unfold get_nat. unfold bind at 1, api_path.
  destruct (path (api c) "/ip/firewall/nat"); reflexivity.
Qed.
End NatBatch.

(** X8: when every fetched NAT record has the fields [get_nat] subscripts,
    [get_nat] ends normally; the ids in the table afterwards are those that
    were there before together with the ids of the destination-NAT rules of
    the batch, so records with any other action add nothing and no rule is
    ever removed; and a rule whose id is not the id of a destination-NAT
    rule of the batch keeps its record as it was. *)
Theorem get_nat_merges_dst_nat `{Helper} (c : controller) :
  forallb nat_ready (path (api c) "/ip/firewall/nat") = true ->
  fst (get_nat c) = Ok tt /\
  (forall k, tbl_mem (nat (self_data (snd (get_nat c)))) k = true <->
             tbl_mem (nat (self_data c)) k = true \/
             dst_nat_id (path (api c) "/ip/firewall/nat") k) /\
  (forall k, ~ dst_nat_id (path (api c) "/ip/firewall/nat") k ->
             tbl_get (nat (self_data (snd (get_nat c)))) k =
             tbl_get (nat (self_data c)) k).
Proof.
  intros Hready. rewrite get_nat_eq.
  exact (get_nat_loop _ (with_call c (CallPath "/ip/firewall/nat")) Hready).
Qed.

Lemma get_nat_merges_dst_nat_witness :
  forallb nat_ready (path (api nat_listed) "/ip/firewall/nat") = true /\
  fst (@get_nat sample_helper nat_listed) = Ok tt /\
  dict_keys (nat (self_data (snd (@get_nat sample_helper nat_listed))))
    = [VStr "*7"; VStr "*2"] /\
  (tbl_mem (nat (self_data (snd (@get_nat sample_helper nat_listed)))) (VStr "*2") = true <->
   tbl_mem (nat (self_data nat_listed)) (VStr "*2") = true \/
   dst_nat_id (path (api nat_listed) "/ip/firewall/nat") (VStr "*2")).
Proof.
  split; [reflexivity|].
  destruct (@get_nat_merges_dst_nat sample_helper nat_listed eq_refl) as (Hok & Hkeys & _).
  split; [exact Hok|]. split; [reflexivity|]. exact (Hkeys (VStr "*2")).
Defined.

Lemma nat_record_fields `{Helper} entry r0 :
  rec_get (nat_record entry r0) "name" =
    Some (VStr (py_str (from_entry entry "protocol" None) ++ ":" ++
                py_str (from_entry entry "dst-port" None))) /\
  rec_get (nat_record entry r0) ".id" = Some (from_entry entry ".id" None) /\
  rec_get (nat_record entry r0) "protocol" = Some (from_entry entry "protocol" None) /\
  rec_get (nat_record entry r0) "dst-port" = Some (from_entry entry "dst-port" None) /\
  rec_get (nat_record entry r0) "in-interface" =
    Some (from_entry entry "in-interface" (Some (VStr "any"))) /\
  rec_get (nat_record entry r0) "to-addresses" = Some (from_entry entry "to-addresses" None) /\
  rec_get (nat_record entry r0) "to-ports" = Some (from_entry entry "to-ports" None) /\
  rec_get (nat_record entry r0) "comment" = Some (from_entry entry "comment" None) /\
  rec_get (nat_record entry r0) "enabled" =
    Some (from_entry_bool entry "disabled" (Some (VBool true)) true).
Proof. unfold nat_record. repeat split; rewrite !rec_get_set; reflexivity. Qed.

(** X9: when a destination-NAT rule with an id, a protocol and a port is
    the last record of a batch that [get_nat] can process, the rule's
    record afterwards has the name "protocol:port", the rule's id, protocol
    and port, the rule's ['in-interface'] or "any" when the rule has none,
    and the ['enabled'] flag the helper derives from ['disabled'] with
    default true. *)
Theorem get_nat_stores_rule `{Helper} (c : controller) (batch : list record)
    (entry : record) (uid protocol port : pyval) :
  path (api c) "/ip/firewall/nat" = (batch ++ [entry])%list ->
  forallb nat_ready batch = true ->
  is_dst_nat entry = true ->
  rec_get entry ".id" = Some uid ->
  rec_get entry "protocol" = Some protocol ->
  rec_get entry "dst-port" = Some port ->
  fst (get_nat c) = Ok tt /\
  exists r,
    tbl_get (nat (self_data (snd (get_nat c)))) uid = Some r /\
    rec_get r "name" = Some (VStr (py_str protocol ++ ":" ++ py_str port)) /\
    rec_get r ".id" = Some uid /\
    rec_get r "protocol" = Some protocol /\
    rec_get r "dst-port" = Some port /\
    rec_get r "in-interface" =
      Some match rec_get entry "in-interface" with
           | Some iface => iface
           | None => VStr "any"
           end /\
    rec_get r "enabled" = Some (from_entry_bool entry "disabled" (Some (VBool true)) true).
Proof.
  intros E Hready Hd Eid Ep Eq. rewrite get_nat_eq, E, for_each_app.
  destruct (get_nat_loop batch (with_call c (CallPath "/ip/firewall/nat")) Hready)
    as (Hok & _).
  destruct (for_each batch get_nat_entry (with_call c (CallPath "/ip/firewall/nat")))
    as [[[]|e] c1]; [|discriminate].
  rewrite for_each_single.
  rewrite (get_nat_entry_dst_nat entry c1 uid Hd Eid)
    by (rewrite rec_mem_get; first [now rewrite Ep | now rewrite Eq]).
  cbn [fst snd self_data set_data nat set_nat]. split; [reflexivity|].
  eexists. split; [now rewrite tbl_get_set, py_eq_refl|].
  destruct (nat_record_fields entry (record_at (nat (self_data c1)) uid))
    as (Hn & Hi & Hp & Hq & Hin & _ & _ & _ & Hen).
  rewrite (from_entry_present entry "protocol" protocol None Ep) in Hn, Hp.
  rewrite (from_entry_present entry "dst-port" port None Eq) in Hn, Hq.
  rewrite (from_entry_present entry ".id" uid None Eid) in Hi.
  split; [exact Hn|]. split; [exact Hi|]. split; [exact Hp|]. split; [exact Hq|].
  split; [|exact Hen]. rewrite Hin. unfold from_entry. reflexivity.
Qed.

Lemma get_nat_stores_rule_witness :
  fst (@get_nat sample_helper nat_listed) = Ok tt /\
  exists r,
    tbl_get (nat (self_data (snd (@get_nat sample_helper nat_listed)))) (VStr "*2") = Some r /\
    rec_get r "name" = Some (VStr "tcp:8080") /\
    rec_get r "in-interface" = Some (VStr "any") /\
    rec_get r "enabled" = Some (VBool true).
Proof.
  destruct (@get_nat_stores_rule sample_helper nat_listed
              [[(".id", VStr "*1"); ("action", VStr "masquerade"); ("chain", VStr "srcnat")]]
              nat_forward (VStr "*2") (VStr "tcp") (VInt 8080)
              eq_refl eq_refl eq_refl eq_refl eq_refl eq_refl)
    as (Hok & r & Hget & Hname & _ & _ & _ & Hin & Hen).
  split; [exact Hok|]. exists r. split; [exact Hget|].
  split; [exact Hname|]. split; [exact Hin | exact Hen].
Defined.

(** X10: [get_nat] stops at the first destination-NAT rule that lacks its
    protocol: it raises [KeyError] for ['protocol'], the records after it
    are not merged, and the only change to the NAT table is an empty record
    under the rule's id when the table did not know that id. *)
Theorem get_nat_stops_at_faulty_rule `{Helper} (c : controller) (entry : record)
    (rest : list record) (uid : pyval) :
  path (api c) "/ip/firewall/nat" = entry :: rest ->
  is_dst_nat entry = true ->
  rec_get entry ".id" = Some uid ->
  rec_get entry "protocol" = None ->
  fst (get_nat c) = Raise (KeyError (VStr "protocol")) /\
  nat (self_data (snd (get_nat c))) =
    (if tbl_mem (nat (self_data c)) uid then nat (self_data c)
     else tbl_set (nat (self_data c)) uid []).
Proof.
  intros E Hd Eid Ep. rewrite get_nat_eq, E.
  assert (Hrun : get_nat_entry entry (with_call c (CallPath "/ip/firewall/nat")) =
    (Raise (KeyError (VStr "protocol")),
     set_data (with_call c (CallPath "/ip/firewall/nat"))
       (if tbl_mem (nat (self_data c)) uid then self_data c
        else set_nat (self_data c) (tbl_set (nat (self_data c)) uid [])))).
  { unfold is_dst_nat in Hd.
    destruct (rec_get entry "action") as [a|] eqn:Ea; [|discriminate].
    unfold get_nat_entry. unfold bind at 1, lift, subscript. rewrite Ea, Hd. cbn [negb].
    unfold bind at 1. rewrite Eid. unfold bind at 1, ensure_key, modify.
    unfold bind at 1. rewrite Ep. reflexivity. }
  rewrite (for_each_cons_raise _ _ _ _ _ _ Hrun). cbn [fst snd self_data set_data].
  split; [reflexivity|]. now destruct (tbl_mem (nat (self_data c)) uid).
Qed.

Lemma get_nat_stops_at_faulty_rule_witness :
  fst (@get_nat sample_helper nat_faulty_first) = Raise (KeyError (VStr "protocol")) /\
  nat (self_data (snd (@get_nat sample_helper nat_faulty_first))) =
    [(VStr "*7", [("name", VStr "udp:53")]); (VStr "*3", [])].
Proof.
  exact (@get_nat_stops_at_faulty_rule sample_helper nat_faulty_first
           [(".id", VStr "*3"); ("action", VStr "dst-nat"); ("dst-port", VInt 22)]
           [nat_forward] (VStr "*3") eq_refl eq_refl eq_refl eq_refl).
Defined.

(** ** Scripts *)
Section ScriptBatch.
Context `{Helper}.

Lemma script_name_cons entry batch k :
  script_name (entry :: batch) k <->
  (exists n, rec_get entry "name" = Some n /\ truthy n = true /\ py_eq n k = true)
  \/ script_name batch k.
Proof.
  unfold script_name. split.
  - intros (e & n & [<- | Hin] & Hn & Ht & Hk); [left | right]; eauto 6.
  - intros [(n & Hn & Ht & Hk) | (e & n & Hin & Hn & Ht & Hk)].
    + exists entry, n. repeat split; auto. now left.
    + exists e, n. repeat split; auto. now right.
Qed.

Lemma get_script_loop_keys batch : forall c,
  (forall k, tbl_mem (script (self_data (snd (for_each batch get_script_entry c)))) k = true <->
             tbl_mem (script (self_data c)) k = true \/ script_name batch k) /\
  (forall k, ~ script_name batch k ->
             tbl_get (script (self_data (snd (for_each batch get_script_entry c)))) k =
             tbl_get (script (self_data c)) k).
Proof.
  induction batch as [|entry batch IH]; intros c.
  - cbn. split; [|reflexivity].
    intros k. split; [auto|]. intros [Hm | (e & n & [] & _)]. exact Hm.
  - pose proof (get_script_entry_run entry c) as Hrun.
    destruct (rec_get entry "name") as [n|] eqn:En.
    + destruct (truthy n) eqn:Hn;
        rewrite (for_each_cons_ok _ _ _ _ _ Hrun);
        match goal with |- context [for_each batch get_script_entry ?c1] =>
          destruct (IH c1) as (Hkeys & Hother) end;
        cbn [self_data set_data with_log script set_script] in Hkeys, Hother.
      * split.
        -- intros k. rewrite Hkeys, script_name_cons, !tbl_mem_get, tbl_get_set.
           destruct (py_eq n k) eqn:Ek.
           ++ split; [|auto]. intros _. right. left. eauto.
           ++ split.
              ** intros [Hm | Hb]; auto.
              ** intros [Hm | [(m & Em & _ & Hm) | Hb]]; auto.
                 rewrite En in Em. injection Em as <-. congruence.
        -- intros k Hk. rewrite Hother.
           ++ rewrite tbl_get_set. destruct (py_eq n k) eqn:Ek; [|reflexivity].
              exfalso. apply Hk. apply script_name_cons. left. eauto.
           ++ intros Hb. apply Hk. apply script_name_cons. now right.
      * split.
        -- intros k. rewrite Hkeys, script_name_cons. split.
           ++ intros [Hm | Hb]; auto.
           ++ intros [Hm | [(m & Em & Ht & _) | Hb]]; auto.
              rewrite En in Em. injection Em as <-. congruence.
        -- intros k Hk. apply Hother. intros Hb. apply Hk.
           apply script_name_cons. now right.
    + rewrite (for_each_cons_ok _ _ _ _ _ Hrun).
      destruct (IH c) as (Hkeys & Hother). split.
      * intros k. rewrite Hkeys, script_name_cons. split.
        -- intros [Hm | Hb]; auto.
        -- intros [Hm | [(m & Em & _) | Hb]]; auto.
           rewrite En in Em. discriminate.
      * intros k Hk. apply Hother. intros Hb. apply Hk.
        apply script_name_cons. now right.
Qed.
End ScriptBatch.

(** X11: after [get_script] the script table has exactly the keys it had
    before and the non-empty names of the batch: every named script of the
    batch is stored and none that was known is dropped; a script whose key
    equals no non-empty name of the batch keeps its record as it was. *)
Theorem get_script_merges_named `{Helper} (c : controller) :
  (forall k, tbl_mem (script (self_data (snd (get_script c)))) k = true <->
             tbl_mem (script (self_data c)) k = true \/
             script_name (path (api c) "/system/script") k) /\
  (forall k, ~ script_name (path (api c) "/system/script") k ->
             tbl_get (script (self_data (snd (get_script c)))) k =
             tbl_get (script (self_data c)) k).
Proof.
  rewrite get_script_eq.
  exact (get_script_loop_keys _ (with_call c (CallPath "/system/script"))).
Qed.

Lemma script_record_fields `{Helper} entry r0 :
  rec_get (script_record entry r0) "name" = Some (from_entry entry "name" None) /\
  rec_get (script_record entry r0) "last-started" =
    Some (from_entry entry "last-started" (Some (VStr "unknown"))) /\
  rec_get (script_record entry r0) "run-count" =
    Some (from_entry entry "run-count" (Some (VStr "unknown"))) /\
  (forall f, f <> "name" -> f <> "last-started" -> f <> "run-count" ->
     rec_get (script_record entry r0) f = rec_get r0 f).
Proof.
  unfold script_record. repeat split; try (rewrite !rec_get_set; reflexivity).
  intros f H1 H2 H3. rewrite !rec_get_set.
  apply String.eqb_neq in H1, H2, H3.
  rewrite (String.eqb_sym "name"), (String.eqb_sym "last-started"),
    (String.eqb_sym "run-count"), H1, H2, H3.
  reflexivity.
Qed.

Lemma cleanup_not_listed :
  ~ script_name (path (api script_relisted) "/system/script") (VStr "cleanup").
Proof.
  intros (e & n & [<- | [<- | []]] & Hn & _ & Hk);
    cbn in Hn; injection Hn as <-; discriminate.
Qed.

Lemma get_script_merges_named_witness :
  dict_keys (script (self_data (snd (@get_script sample_helper script_relisted)))) =
    [VStr "backup"; VStr "cleanup"; VStr "reboot"] /\
  tbl_get (script (self_data (snd (@get_script sample_helper script_relisted))))
    (VStr "cleanup") = Some [("name", VStr "cleanup"); ("run-count", VInt 0)].
Proof.
  split; [reflexivity|].
  exact (proj2 (@get_script_merges_named sample_helper script_relisted)
           (VStr "cleanup") cleanup_not_listed).
Defined.

(** X12: for the last record of a batch, when its name is not empty,
    [get_script] leaves under that name a record with the name, and with
    ['last-started'] and ['run-count'] taken from the record or "unknown"
    when the record lacks them; when no earlier record of the batch has
    that name, every other field the script's record had before the call
    is kept. *)
Theorem get_script_stores_record `{Helper} (c : controller) (batch : list record)
    (entry : record) (name : pyval) :
  path (api c) "/system/script" = (batch ++ [entry])%list ->
  rec_get entry "name" = Some name -> truthy name = true ->
  exists r,
    tbl_get (script (self_data (snd (get_script c)))) name = Some r /\
    rec_get r "name" = Some name /\
    rec_get r "last-started" =
      Some match rec_get entry "last-started" with Some v => v | None => VStr "unknown" end /\
    rec_get r "run-count" =
      Some match rec_get entry "run-count" with Some v => v | None => VStr "unknown" end /\
    (~ script_name batch name ->
     forall f, f <> "name" -> f <> "last-started" -> f <> "run-count" ->
       rec_get r f = rec_get (record_at (script (self_data c)) name) f).
Proof.
  intros E En Hn. rewrite get_script_eq, E, for_each_app.
  destruct (get_script_loop batch (with_call c (CallPath "/system/script"))) as (Hok & _).
  destruct (get_script_loop_keys batch (with_call c (CallPath "/system/script")))
    as (_ & Hother).
  destruct (for_each batch get_script_entry (with_call c (CallPath "/system/script")))
    as [[[]|e] c1]; [|discriminate].
  cbn [snd self_data with_call] in Hother.
  rewrite for_each_single, get_script_entry_run, En, Hn.
  cbn [fst snd self_data set_data script set_script].
  eexists. split; [now rewrite tbl_get_set, py_eq_refl|].
  fold (record_at (script (self_data c1)) name).
  destruct (script_record_fields entry (record_at (script (self_data c1)) name))
    as (H1 & H2 & H3 & H4).
  rewrite (from_entry_present entry "name" name None En) in H1.
  split; [exact H1|]. split; [exact H2|]. split; [exact H3|].
  intros Hfresh f Hf1 Hf2 Hf3. rewrite (H4 f Hf1 Hf2 Hf3).
  unfold record_at. now rewrite (Hother name Hfresh).
Qed.

Lemma backup_listed_once :
  ~ script_name [[("name", VStr "reboot"); ("run-count", VInt 1)]] (VStr "backup").
Proof.
  intros (e & n & [<- | []] & Hn & _ & Hk).
  cbn in Hn. injection Hn as <-. discriminate.
Qed.

Lemma get_script_stores_record_witness :
  exists r,
    tbl_get (script (self_data (snd (@get_script sample_helper script_relisted))))
      (VStr "backup") = Some r /\
    rec_get r "name" = Some (VStr "backup") /\
    rec_get r "run-count" = Some (VInt 3) /\
    rec_get r "last-started" = Some (VStr "unknown") /\
    rec_get r "pinned" = Some (VBool true).
Proof.
  destruct (@get_script_stores_record sample_helper script_relisted
              [[("name", VStr "reboot"); ("run-count", VInt 1)]]
              [("name", VStr "backup"); ("run-count", VInt 3)] (VStr "backup")
              eq_refl eq_refl eq_refl)
    as (r & Hget & Hname & Hstarted & Hcount & Hkeep).
  exists r. split; [exact Hget|]. split; [exact Hname|].
  split; [exact Hcount|]. split; [exact Hstarted|].
  rewrite (Hkeep backup_listed_once "pinned") by discriminate. reflexivity.
Defined.

(** ** The firmware record over a whole answer *)
Section FirmwareBatch.
Context `{Helper}.

Lemma get_firmware_update_loop batch : forall c,
  batch <> [] ->
  fst (for_each batch get_firmware_update_entry c) = Ok tt /\
  rec_get (fw_update (self_data (snd (for_each batch get_firmware_update_entry c))))
    "available" =
    Some match last_status batch with
         | Some status => VBool (py_eq status (VStr "New version is available"))
         | None =>
             match rec_get (fw_update (self_data c)) "available" with
             | Some v => v
             | None => VBool false
             end
         end.
Proof.
  induction batch as [|entry batch IH]; intros c Hne; [congruence|].
  destruct (get_firmware_update_entry_available entry c) as (Hok & Hav & _).
  destruct (get_firmware_update_entry entry c) as [[[]|e] c1] eqn:Hrun; [|discriminate].
  rewrite (for_each_cons_ok _ _ _ _ _ Hrun). cbn [snd] in Hav.
  destruct batch as [|entry' batch'].
  - cbn [for_each ret fst snd last_status]. split; [reflexivity|].
    rewrite Hav. destruct (rec_get entry "status"); [reflexivity|].
    now destruct (rec_get (fw_update (self_data c)) "available").
  - destruct (IH c1) as (Hok' & Hav'); [discriminate|].
    split; [exact Hok'|]. rewrite Hav', Hav.
    change (last_status (entry :: entry' :: batch'))
      with (match last_status (entry' :: batch') with
            | Some status => Some status
            | None => rec_get entry "status"
            end).
    destruct (last_status (entry' :: batch')); [reflexivity|].
    destruct (rec_get entry "status"); [reflexivity|].
    now destruct (rec_get (fw_update (self_data c)) "available").
Qed.
End FirmwareBatch.

(** X13: over an answer of one or more records, ['available'] ends as the
    comparison of the status of the last record that has a status with
    "New version is available"; when no record has a status it keeps the
    value it had, or becomes false when it had none. *)
Theorem firmware_last_status_decides `{Helper} (c : controller) :
  path (api c) "/system/package/update" <> [] ->
  fst (get_firmware_update c) = Ok tt /\
  rec_get (fw_update (self_data (snd (get_firmware_update c)))) "available" =
    Some match last_status (path (api c) "/system/package/update") with
         | Some status => VBool (py_eq status (VStr "New version is available"))
         | None =>
             match rec_get (fw_update (self_data c)) "available" with
             | Some v => v
             | None => VBool false
             end
         end.
Proof.
  intros Hne.
  assert (E : get_firmware_update c =
    for_each (path (api c) "/system/package/update") get_firmware_update_entry
      (with_call c (CallPath "/system/package/update"))).
  { unfold get_firmware_update. unfold bind at 1, api_path.
    destruct (path (api c) "/system/package/update"); reflexivity. }
  rewrite E.
  exact (get_firmware_update_loop _ (with_call c (CallPath "/system/package/update")) Hne).
Qed.

Lemma firmware_last_status_decides_witness :
  fst (@get_firmware_update sample_helper update_in_two_records) = Ok tt /\
  rec_get (fw_update (self_data (snd (@get_firmware_update sample_helper
                                        update_in_two_records)))) "available"
    = Some (VBool true).
Proof.
  refine (@firmware_last_status_decides sample_helper update_in_two_records _).
  discriminate.
Defined.

(** ** What [update_arp] hands back *)

Lemma returns_only_ret {A} (x : A) : returns_only x (ret x).
Proof. intros c r [= <-]. reflexivity. Qed.

Lemma returns_only_raise {A} (x : A) e : returns_only x (raise e).
Proof. intros c r [=]. Qed.

Lemma returns_only_bind {A B} (x : B) (m : M A) (k : A -> M B) :
  (forall a, returns_only x (k a)) -> returns_only x (bind m k).
Proof.
  intros Hk c r. unfold bind.
  destruct (m c) as [[a|e] c1]; [apply Hk | discriminate].
Qed.

Ltac returns_walk :=
  repeat first
    [ apply returns_only_ret
    | apply returns_only_raise
    | apply returns_only_bind; intro
    | match goal with
      | |- returns_only _ (match ?x with _ => _ end) => destruct x
      | |- returns_only _ (if ?b then _ else _) => destruct b
      end ].

Lemma subscript_ok r f v : subscript r f = Ok v -> rec_get r f = Some v.
Proof. unfold subscript. destruct (rec_get r f); [now intros [= ->] | discriminate]. Qed.

Lemma returns_only_subscript {A} (x : A) entry f (k : pyval -> M A) :
  (forall v, rec_get entry f = Some v -> returns_only x (k v)) ->
  returns_only x (bind (lift (subscript entry f)) k).
Proof.
  intros Hk c r. unfold bind, lift.
  destruct (subscript entry f) as [v|e] eqn:E; [|discriminate].
  apply Hk. now apply subscript_ok.
Qed.

Section ArpLocals.
Context `{Helper}.

(** The locals after one record, when the loop body ends normally. *)
Lemma update_arp_entry_locals entry mac2ip bridge_used :
  returns_only (learn_mac mac2ip entry, bridge_used || on_bridge entry)
    (update_arp_entry entry (mac2ip, bridge_used)).
Proof.
  unfold update_arp_entry.
  apply returns_only_subscript. intros inv Einv.
  destruct (truthy inv) eqn:Hinv.
  { replace (learn_mac mac2ip entry, bridge_used || on_bridge entry)
      with (mac2ip, bridge_used); [apply returns_only_ret|].
    unfold learn_mac, on_bridge. rewrite Einv, Hinv. cbn [negb andb].
    destruct (rec_get entry "interface"); now rewrite orb_false_r. }
  apply returns_only_subscript. intros iface Eif.
  assert (Hon : on_bridge entry = py_eq iface (VStr "bridge")).
  { unfold on_bridge. now rewrite Einv, Eif, Hinv. }
  unfold learn_mac. rewrite Hon.
  destruct (py_eq iface (VStr "bridge")).
  { rewrite orb_true_r, !rec_mem_get.
    destruct (rec_get entry "mac-address") as [mac|] eqn:Em;
      destruct (rec_get entry "address") as [address|] eqn:Ea; cbn [andb];
      try apply returns_only_ret.
    apply returns_only_subscript. intros a Ha. rewrite Ea in Ha. injection Ha as <-.
    apply returns_only_subscript. intros m Hm. rewrite Em in Hm. injection Hm as <-.
    apply returns_only_ret. }
  rewrite orb_false_r. returns_walk.
Qed.

Lemma update_arp_loop_locals batch : forall mac2ip bridge_used,
  returns_only (fold_left learn_mac batch mac2ip, bridge_used || existsb on_bridge batch)
    (for_fold batch (mac2ip, bridge_used) update_arp_entry).
Proof.
  induction batch as [|entry batch IH]; intros mac2ip bridge_used.
  - cbn [for_fold fold_left existsb]. rewrite orb_false_r. apply returns_only_ret.
  - cbn [for_fold fold_left existsb]. intros c r. unfold bind.
    pose proof (update_arp_entry_locals entry mac2ip bridge_used c) as Hstep.
    destruct (update_arp_entry entry (mac2ip, bridge_used) c) as [[s1|e] c1];
      [|discriminate].
    rewrite (Hstep s1 eq_refl). rewrite orb_assoc. apply IH.
Qed.

(** Records that belong to no interface leave the controller as it is. *)
Lemma update_arp_entry_off entry locals c :
  off_interfaces entry = true ->
  exists r, update_arp_entry entry locals c = (Ok r, c).
Proof.
  destruct locals as [mac2ip bridge_used].
  unfold off_interfaces, on_bridge, update_arp_entry. unfold bind at 1, lift, subscript.
  destruct (rec_get entry "invalid") as [inv|]; [|discriminate].
  destruct (truthy inv); cbn [negb andb orb];
    [intros _; eexists; reflexivity|].
  unfold bind.
  destruct (rec_get entry "interface") as [iface|]; cbn [negb andb orb];
    [|discriminate].
  intros ->. rewrite !rec_mem_get.
  destruct (rec_get entry "mac-address"), (rec_get entry "address"); cbn;
    eexists; reflexivity.
Qed.

Lemma update_arp_loop_off batch : forall locals c,
  forallb off_interfaces batch = true ->
  exists r, for_fold batch locals update_arp_entry c = (Ok r, c).
Proof.
  induction batch as [|entry batch IH]; intros locals c Hoff;
    [eexists; reflexivity|].
  cbn [forallb] in Hoff. apply andb_true_iff in Hoff as [He Hrest].
  destruct (update_arp_entry_off entry locals c He) as [r1 Hr1].
  cbn [for_fold]. unfold bind. rewrite Hr1. now apply IH.
Qed.
End ArpLocals.

Lemma update_arp_locals `{Helper} (c : controller)
    (mac2ip : mac2ip_t) (bridge_used : bool) (r : mac2ip_t * bool) :
  fst (update_arp mac2ip bridge_used c) = Ok r ->
  r = (fold_left learn_mac (path (api c) "/ip/arp") mac2ip,
       bridge_used || existsb on_bridge (path (api c) "/ip/arp")).
Proof.
  unfold update_arp. unfold bind at 1, api_path.
  destruct (path (api c) "/ip/arp") as [|entry batch] eqn:E.
  - cbn. rewrite orb_false_r. now intros [= <-].
  - cbn [no_data]. apply update_arp_loop_locals.
Qed.

(** X14: when [update_arp] ends normally, the flag it returns is the flag
    it was given or true when some record of the batch is valid and was
    seen on the bridge, and the MAC-to-IP table it returns is the one it
    was given with, in batch order, each such record's address stored
    under its MAC (records that lack one of the two fields add nothing). *)
Theorem update_arp_returns_bridge_view `{Helper} (c : controller)
    (mac2ip : mac2ip_t) (bridge_used : bool) (r : mac2ip_t * bool) :
  fst (update_arp mac2ip bridge_used c) = Ok r ->
  r = (fold_left learn_mac (path (api c) "/ip/arp") mac2ip,
       bridge_used || existsb on_bridge (path (api c) "/ip/arp")).
Proof. apply update_arp_locals. Qed.

Lemma update_arp_returns_bridge_view_witness :
  exists r,
    fst (@update_arp sample_helper [] false arp_bridge_only) = Ok r /\
    r = ([(VStr "AA:BB:CC:00:00:09", VStr "192.168.88.19")], true).
Proof.
  eexists. split; [reflexivity|].
  exact (@update_arp_returns_bridge_view sample_helper arp_bridge_only [] false _ eq_refl).
Defined.

(** X15: a batch of ARP records each of which is flagged invalid or was seen
    on the bridge never makes [update_arp] raise and leaves [self.data],
    the ARP table included, exactly as it was. *)
Theorem update_arp_ignores_invalid_and_bridge `{Helper} (c : controller)
    (mac2ip : mac2ip_t) (bridge_used : bool) :
  forallb off_interfaces (path (api c) "/ip/arp") = true ->
  leaves_data (update_arp mac2ip bridge_used)
    (fold_left learn_mac (path (api c) "/ip/arp") mac2ip,
     bridge_used || existsb on_bridge (path (api c) "/ip/arp")) c.
Proof.
  intros Hoff. unfold leaves_data.
  pose proof (update_arp_locals c mac2ip bridge_used) as Hret.
  assert (Hrun : exists r, update_arp mac2ip bridge_used c =
                           (Ok r, with_call c (CallPath "/ip/arp"))).
  { unfold update_arp. unfold bind at 1, api_path.
    destruct (path (api c) "/ip/arp") as [|entry batch]; [eexists; reflexivity|].
    cbn [no_data]. now apply update_arp_loop_off. }
  destruct Hrun as [r Hrun]. rewrite Hrun in Hret |- *. cbn [fst snd].
  rewrite (Hret r eq_refl). split; reflexivity.
Qed.

Lemma update_arp_ignores_invalid_and_bridge_witness :
  leaves_data (@update_arp sample_helper [] false)
    ([(VStr "AA:BB:CC:00:00:09", VStr "192.168.88.19")], true) arp_bridge_only.
Proof.
  exact (@update_arp_ignores_invalid_and_bridge sample_helper arp_bridge_only [] false
           eq_refl).
Defined.

(** ** Two bridge hosts behind one port *)

Lemma bridge_record_has_mac `{Helper} entry uid mac2ip r0 :
  rec_mem (bridge_record entry uid mac2ip r0) "mac-address" = true.
Proof.
  destruct (bridge_record_fields entry uid mac2ip r0) as (_ & Hold & Hnew).
  destruct (rec_mem r0 "mac-address") eqn:E.
  - destruct (Hold eq_refl) as [Hm _]. now rewrite rec_mem_get, Hm.
  - destruct (Hnew eq_refl) as [Hm _]. now rewrite rec_mem_get, Hm.
Qed.

(** X16: when the bridge host fetch yields two records that are not local
    and resolve to the same interface uid, [update_bridge_hosts] ends
    normally and the ARP entry of that uid holds "multiple" as its
    [mac-address] and as its [address], whatever the ARP table held. *)
Theorem bridge_hosts_conflict_collapses `{Helper} (c : controller) (mac2ip : mac2ip_t)
    (e1 e2 : record) (l1 l2 uid1 uid2 : pyval) :
  path (api c) "/interface/bridge/host" = [e1; e2] ->
  rec_get e1 "local" = Some l1 -> truthy l1 = false ->
  rec_get e2 "local" = Some l2 -> truthy l2 = false ->
  resolves_to c e1 uid1 -> resolves_to c e2 uid2 -> py_eq uid1 uid2 = true ->
  fst (update_bridge_hosts mac2ip c) = Ok tt /\
  arp_multiple uid1 (snd (update_bridge_hosts mac2ip c)).
Proof.
  intros E E1 H1 E2 H2 R1 R2 Hu.
  assert (Hrun : exists c',
    update_bridge_hosts mac2ip c = (Ok tt, c') /\
    tbl_get (arp (self_data c')) uid1 =
      Some (bridge_record e2 uid2 mac2ip
              (bridge_record e1 uid1 mac2ip (record_at (arp (self_data c)) uid1)))).
  { unfold update_bridge_hosts. unfold bind at 1, api_path. rewrite E.
    cbn [no_data for_each]. unfold bind at 1.
    rewrite (update_bridge_hosts_entry_resolved
               (with_call c (CallPath "/interface/bridge/host")) mac2ip e1 l1 uid1 E1 H1 R1).
    unfold bind at 1.
    rewrite (update_bridge_hosts_entry_resolved _ mac2ip e2 l2 uid2 E2 H2) by exact R2.
    eexists. split; [reflexivity|].
    cbn [self_data set_data arp set_arp with_log with_call].
    rewrite tbl_get_set, (py_eq_sym uid2 uid1), Hu.
    unfold record_at at 1. rewrite tbl_get_set, Hu. reflexivity. }
  destruct Hrun as (c' & -> & Hget). cbn [fst snd]. split; [reflexivity|].
  eexists. split; [exact Hget|].
  apply bridge_record_fields. apply bridge_record_has_mac.
Qed.

Lemma bridge_host_second_resolves :
  resolves_to two_bridge_hosts bridge_host_second (VStr "ether2").
Proof. split; reflexivity. Defined.

Lemma bridge_hosts_conflict_collapses_witness :
  fst (@update_bridge_hosts sample_helper bridge_mac2ip two_bridge_hosts) = Ok tt /\
  arp_multiple (VStr "ether2")
    (snd (@update_bridge_hosts sample_helper bridge_mac2ip two_bridge_hosts)).
Proof.
  exact (@bridge_hosts_conflict_collapses sample_helper two_bridge_hosts bridge_mac2ip
           bridge_host bridge_host_second (VBool false) (VBool false)
           (VStr "ether2") (VStr "ether2")
           eq_refl eq_refl eq_refl eq_refl eq_refl
           bridge_host_resolves bridge_host_second_resolves eq_refl).
Defined.

(** ** Client tracking switched on *)
Section Tracking.
Context `{Helper}.

(** The call when tracking is on: the reset, the two fetches, the mapping
    loop. *)
Lemma get_interface_client_on_eq c :
  truthy (option_track_arp c) = true ->
  get_interface_client c =
    match update_arp [] false (set_data c (set_arp (self_data c) [])) with
    | (Raise e, c1) => (Raise e, c1)
    | (Ok (mac2ip, bridge_used), c1) =>
        match (if bridge_used then update_bridge_hosts mac2ip else ret tt) c1 with
        | (Raise e, c2) => (Raise e, c2)
        | (Ok _, c2) =>
            match for_each (dict_keys (interface (self_data c2))) copy_client c2 with
            | (Raise e, c3) => (Raise e, c3)
            | (Ok _, c3) => (Ok true, c3)
            end
        end
    end.
Proof.
  intros Hon. unfold get_interface_client.
  unfold bind at 1 2, modify, get_option_track_arp. cbv beta iota.
  cbn [option_track_arp set_data]. rewrite Hon. cbn [negb].
  unfold bind at 1.
  destruct (update_arp [] false (set_data c (set_arp (self_data c) [])))
    as [[[mac2ip bridge_used]|e] c1]; [|reflexivity].
  unfold bind at 1.
  destruct ((if bridge_used then update_bridge_hosts mac2ip else ret tt) c1)
    as [[[]|e] c2]; [|reflexivity].
  unfold bind at 1 2, get_data. cbv beta iota. fold copy_client.
  unfold copy_client.
  destruct (for_each (dict_keys (interface (self_data c2))) _ c2) as [[[]|e] c3];
    reflexivity.
Qed.
End Tracking.

Section Mapping.
Context `{Helper}.

Lemma copy_client_absent c uid :
  tbl_get (arp (self_data c)) uid = None -> copy_client uid c = (Ok tt, c).
Proof.
  intros E. unfold copy_client. unfold bind at 1, get_data.
  now rewrite tbl_mem_get, E.
Qed.

Lemma copy_client_present c uid ra r :
  tbl_get (arp (self_data c)) uid = Some ra ->
  tbl_get (interface (self_data c)) uid = Some r ->
  exists t',
    copy_client uid c = (Ok tt, set_data c (set_interface (self_data c) t')) /\
    dict_keys t' = dict_keys (interface (self_data c)) /\
    (forall k, tbl_get t' k =
       if py_eq uid k
       then Some (rec_set (rec_set r "client-ip-address" (from_entry ra "address" None))
                    "client-mac-address" (from_entry ra "mac-address" None))
       else tbl_get (interface (self_data c)) k).
Proof.
  intros Ea Ei. unfold copy_client. unfold bind at 1, get_data.
  rewrite tbl_mem_get, Ea. cbn [negb]. unfold bind at 1. cbv beta iota.
  rewrite (assign_in_some interface set_interface c uid _ _ r Ei).
  unfold bind at 1. cbv beta iota. cbn [self_data set_data arp set_interface].
  rewrite Ea.
  set (r1 := rec_set r "client-ip-address" (from_entry ra "address" None)).
  set (t1 := tbl_set (interface (self_data c)) uid r1).
  assert (E1 : tbl_get t1 uid = Some r1).
  { unfold t1. now rewrite tbl_get_set, py_eq_refl. }
  rewrite (assign_in_some interface set_interface _ uid _ _ r1) by exact E1.
  eexists. split; [reflexivity|]. cbn [interface self_data set_data set_interface].
  split.
  - rewrite tbl_keys_set_present by (rewrite tbl_mem_get, E1; reflexivity).
    unfold t1. apply tbl_keys_set_present. now rewrite tbl_mem_get, Ei.
  - intros k. rewrite tbl_get_set. unfold t1. rewrite tbl_get_set.
    now destruct (py_eq uid k).
Qed.

Lemma client_copied_set ra r :
  client_copied ra
    (rec_set (rec_set r "client-ip-address" (from_entry ra "address" None))
       "client-mac-address" (from_entry ra "mac-address" None)).
Proof. split; now rewrite !rec_get_set. Qed.

(** The mapping loop over a list of keys of the interface table. *)
Lemma copy_loop uids : forall c,
  (forall u, In u uids -> tbl_mem (interface (self_data c)) u = true) ->
  fst (for_each uids copy_client c) = Ok tt /\
  arp (self_data (snd (for_each uids copy_client c))) = arp (self_data c) /\
  calls (snd (for_each uids copy_client c)) = calls c /\
  dict_keys (interface (self_data (snd (for_each uids copy_client c)))) =
    dict_keys (interface (self_data c)) /\
  (forall k, tbl_get (interface (self_data c)) k = None ->
     tbl_get (interface (self_data (snd (for_each uids copy_client c)))) k = None) /\
  (forall k r, tbl_get (interface (self_data c)) k = Some r ->
     exists r',
       tbl_get (interface (self_data (snd (for_each uids copy_client c)))) k = Some r' /\
       (tbl_get (arp (self_data c)) k = None -> r' = r) /\
       (forall ra, tbl_get (arp (self_data c)) k = Some ra ->
          existsb (fun u => py_eq u k) uids = true \/ client_copied ra r ->
          client_copied ra r')).
Proof.
  induction uids as [|uid uids IH]; intros c Hmem.
  - cbn [for_each ret fst snd]. split; [reflexivity|]. split; [reflexivity|].
    split; [reflexivity|]. split; [reflexivity|]. split; [auto|].
    intros k r E. exists r. split; [exact E|]. split; [reflexivity|].
    intros ra _ [Hex | Hc]; [discriminate | exact Hc].
  - assert (Hu : tbl_mem (interface (self_data c)) uid = true) by (apply Hmem; now left).
    rewrite tbl_mem_get in Hu.
    destruct (tbl_get (interface (self_data c)) uid) as [r0|] eqn:E0; [|discriminate].
    destruct (tbl_get (arp (self_data c)) uid) as [ra0|] eqn:Ea0.
    + destruct (copy_client_present c uid ra0 r0 Ea0 E0) as (t' & Hrun & Hkeys & Hget).
      rewrite (for_each_cons_ok _ _ _ _ _ Hrun).
      set (c1 := set_data c (set_interface (self_data c) t')).
      destruct (IH c1) as (Hok & Harp & Hcalls & Hk & Hnone & Hsome).
      { intros u Hin. unfold c1. cbn [self_data set_data interface set_interface].
        rewrite tbl_mem_get, Hget. destruct (py_eq uid u); [reflexivity|].
        rewrite <- tbl_mem_get. apply Hmem. now right. }
      subst c1.
      cbn [self_data set_data interface set_interface arp calls] in Harp, Hcalls, Hk,
        Hnone, Hsome.
      split; [exact Hok|]. split; [exact Harp|]. split; [exact Hcalls|].
      split; [now rewrite Hk|]. split.
      * intros k Ek. apply Hnone. rewrite Hget.
        destruct (py_eq uid k) eqn:Huk; [|exact Ek].
        rewrite (tbl_get_congr _ _ _ Huk) in E0. congruence.
      * intros k r Ek.
        destruct (py_eq uid k) eqn:Huk.
        -- assert (Ek1 : tbl_get t' k = Some (rec_set (rec_set r0 "client-ip-address"
                     (from_entry ra0 "address" None)) "client-mac-address"
                     (from_entry ra0 "mac-address" None))) by now rewrite Hget, Huk.
           destruct (Hsome k _ Ek1) as (r' & Er' & Hnoarp & Hcopied).
           exists r'. split; [exact Er'|].
           rewrite <- (tbl_get_congr _ _ _ Huk), Ea0. split; [discriminate|].
           intros ra [= <-] _. apply (Hcopied ra0).
           ++ now rewrite <- (tbl_get_congr _ _ _ Huk).
           ++ right. apply client_copied_set.
        -- assert (Ek1 : tbl_get t' k = Some r) by now rewrite Hget, Huk.
           destruct (Hsome k _ Ek1) as (r' & Er' & Hnoarp & Hcopied).
           exists r'. split; [exact Er'|]. split; [exact Hnoarp|].
           intros ra Era Hor. apply (Hcopied ra Era).
           cbn [existsb] in Hor. rewrite Huk in Hor. exact Hor.
    + rewrite (for_each_cons_ok _ _ _ _ _ (copy_client_absent c uid Ea0)).
      destruct (IH c) as (Hok & Harp & Hcalls & Hk & Hnone & Hsome).
      { intros u Hin. apply Hmem. now right. }
      split; [exact Hok|]. split; [exact Harp|]. split; [exact Hcalls|].
      split; [exact Hk|]. split; [exact Hnone|].
      intros k r Ek. destruct (Hsome k r Ek) as (r' & Er' & Hnoarp & Hcopied).
      exists r'. split; [exact Er'|]. split; [exact Hnoarp|].
      intros ra Era Hor. apply (Hcopied ra Era).
      cbn [existsb] in Hor. destruct (py_eq uid k) eqn:Huk; [|exact Hor].
      rewrite (tbl_get_congr _ _ _ Huk) in Ea0. congruence.
Qed.

(** The mapping loop over all the keys of the interface table. *)
Lemma copy_all c :
  fst (for_each (dict_keys (interface (self_data c))) copy_client c) = Ok tt /\
  arp (self_data (snd (for_each (dict_keys (interface (self_data c))) copy_client c)))
    = arp (self_data c) /\
  calls (snd (for_each (dict_keys (interface (self_data c))) copy_client c)) = calls c /\
  dict_keys (interface (self_data
      (snd (for_each (dict_keys (interface (self_data c))) copy_client c)))) =
    dict_keys (interface (self_data c)) /\
  (forall k, tbl_get (arp (self_data c)) k = None ->
     tbl_get (interface (self_data
       (snd (for_each (dict_keys (interface (self_data c))) copy_client c)))) k =
     tbl_get (interface (self_data c)) k) /\
  (forall k r ra,
     tbl_get (interface (self_data
       (snd (for_each (dict_keys (interface (self_data c))) copy_client c)))) k = Some r ->
     tbl_get (arp (self_data c)) k = Some ra -> client_copied ra r).
Proof.
  destruct (copy_loop (dict_keys (interface (self_data c))) c)
    as (Hok & Harp & Hcalls & Hk & Hnone & Hsome).
  { intros u Hin. destruct (tbl_get_key _ _ Hin) as [r E]. now rewrite tbl_mem_get, E. }
  split; [exact Hok|]. split; [exact Harp|]. split; [exact Hcalls|].
  split; [exact Hk|]. split.
  - intros k Ek. destruct (tbl_get (interface (self_data c)) k) as [r|] eqn:Ei.
    + destruct (Hsome k r Ei) as (r' & Er' & Hnoarp & _). now rewrite Er', (Hnoarp Ek).
    + now apply Hnone.
  - intros k r ra Er Era.
    destruct (tbl_get (interface (self_data c)) k) as [r0|] eqn:Ei.
    + destruct (Hsome k r0 Ei) as (r' & Er' & _ & Hcopied).
      rewrite Er in Er'. injection Er' as <-. apply (Hcopied ra Era). left.
      destruct (tbl_get_some_key _ _ _ Ei) as (k0 & Hin & Hk0).
      apply existsb_exists. exists k0. split; assumption.
    + rewrite (Hnone k Ei) in Er. discriminate.
Qed.
End Mapping.

Section TrackingOn.
Context `{Helper}.
Let Ir := same_interface_refl.
Let It := same_interface_trans.

Lemma get_iface_from_entry_same_interface entry :
  keeps same_interface (get_iface_from_entry entry).
Proof. unfold get_iface_from_entry. keeps_walk. Qed.

Lemma update_arp_same_interface mac2ip bridge_used :
  keeps same_interface (update_arp mac2ip bridge_used).
Proof.
  unfold update_arp, update_arp_entry.
  repeat first [apply get_iface_from_entry_same_interface | keeps_step | solve [keeps_prim]].
Qed.

Lemma update_bridge_hosts_same_interface mac2ip :
  keeps same_interface (update_bridge_hosts mac2ip).
Proof.
  unfold update_bridge_hosts, update_bridge_hosts_entry.
  repeat first [apply get_iface_from_entry_same_interface | keeps_step | solve [keeps_prim]].
Qed.

Lemma bridge_step_same_interface mac2ip (bridge_used : bool) :
  keeps same_interface (if bridge_used then update_bridge_hosts mac2ip else ret tt).
Proof.
  destruct bridge_used; [apply update_bridge_hosts_same_interface | apply keeps_ret, Ir].
Qed.

Lemma copy_nothing uids : forall c,
  arp (self_data c) = [] -> for_each uids copy_client c = (Ok tt, c).
Proof.
  induction uids as [|uid uids IH]; intros c Hempty; [reflexivity|].
  rewrite (for_each_cons_ok _ _ _ _ c (copy_client_absent c uid ltac:(now rewrite Hempty))).
  now apply IH.
Qed.
End TrackingOn.

(** X17: with client tracking switched on, however the call ends, the
    interface table keeps its keys, and an interface that has no entry in
    the ARP table the call built keeps its whole record, client fields
    included, as it was before the call. *)
Theorem tracking_keeps_unseen_interfaces `{Helper} (c : controller) :
  truthy (option_track_arp c) = true ->
  dict_keys (interface (self_data (snd (get_interface_client c)))) =
    dict_keys (interface (self_data c)) /\
  (forall k, tbl_get (arp (self_data (snd (get_interface_client c)))) k = None ->
             tbl_get (interface (self_data (snd (get_interface_client c)))) k =
             tbl_get (interface (self_data c)) k).
Proof.
  intros Hon. rewrite (get_interface_client_on_eq c Hon).
  pose proof (update_arp_same_interface [] false
                (set_data c (set_arp (self_data c) []))) as H1.
  destruct (update_arp [] false (set_data c (set_arp (self_data c) [])))
    as [[[mac2ip bridge_used]|e] c1]; unfold same_interface in H1; cbn [snd] in H1;
    cbn [self_data set_data interface set_arp] in H1.
  2:{ cbn [snd]. rewrite H1. split; reflexivity. }
  pose proof (bridge_step_same_interface mac2ip bridge_used c1) as H2.
  destruct ((if bridge_used then update_bridge_hosts mac2ip else ret tt) c1)
    as [[[]|e] c2]; unfold same_interface in H2; cbn [snd] in H2.
  2:{ cbn [snd]. rewrite H2, H1. split; reflexivity. }
  destruct (copy_all c2) as (Hok & Harp & _ & Hkeys & Hnone & _).
  destruct (for_each (dict_keys (interface (self_data c2))) copy_client c2)
    as [[[]|e] c3]; [|discriminate].
  cbn [snd] in *. rewrite Hkeys, H2, H1. split; [reflexivity|].
  intros k Ek. rewrite Harp in Ek. rewrite (Hnone k Ek), H2, H1. reflexivity.
Qed.

Lemma tracking_keeps_unseen_interfaces_witness :
  tbl_get (arp (self_data (snd (@get_interface_client sample_helper one_host_on_lan))))
    (VStr "ether1") = None /\
  tbl_get (interface (self_data (snd (@get_interface_client sample_helper one_host_on_lan))))
    (VStr "ether1") =
  Some [("default-name", VStr "ether1"); ("name", VStr "ether1");
        ("client-ip-address", VStr "192.168.88.11");
        ("client-mac-address", VStr "AA:BB:CC:00:00:01")].
Proof.
  split; [reflexivity|].
  exact (proj2 (@tracking_keeps_unseen_interfaces sample_helper one_host_on_lan eq_refl)
           (VStr "ether1") eq_refl).
Defined.

(** X18: with client tracking switched on, when the call ends normally
    every interface that has an entry in the ARP table the call built
    carries that entry's address as [client-ip-address] and its MAC as
    [client-mac-address]. *)
Theorem tracking_copies_arp_to_interfaces `{Helper} (c : controller) :
  truthy (option_track_arp c) = true ->
  fst (get_interface_client c) = Ok true ->
  forall k r ra,
    tbl_get (interface (self_data (snd (get_interface_client c)))) k = Some r ->
    tbl_get (arp (self_data (snd (get_interface_client c)))) k = Some ra ->
    rec_get r "client-ip-address" = Some (from_entry ra "address" None) /\
    rec_get r "client-mac-address" = Some (from_entry ra "mac-address" None).
Proof.
  intros Hon. rewrite (get_interface_client_on_eq c Hon).
  destruct (update_arp [] false (set_data c (set_arp (self_data c) [])))
    as [[[mac2ip bridge_used]|e] c1]; [|discriminate].
  destruct ((if bridge_used then update_bridge_hosts mac2ip else ret tt) c1)
    as [[[]|e] c2]; [|discriminate].
  destruct (copy_all c2) as (Hok & Harp & _ & _ & _ & Hsome).
  destruct (for_each (dict_keys (interface (self_data c2))) copy_client c2)
    as [[[]|e] c3]; [|discriminate].
  cbn [fst snd] in *. intros _ k r ra Er Era. rewrite Harp in Era.
  exact (Hsome k r ra Er Era).
Qed.

Lemma tracking_copies_arp_to_interfaces_witness :
  exists r,
    tbl_get (interface (self_data (snd (@get_interface_client sample_helper
                                          one_host_on_lan)))) (VStr "ether2") = Some r /\
    rec_get r "client-ip-address" = Some (VStr "192.168.88.30") /\
    rec_get r "client-mac-address" = Some (VStr "AA:BB:CC:00:00:0C").
Proof.
  eexists. split; [reflexivity|].
  exact (@tracking_copies_arp_to_interfaces sample_helper one_host_on_lan
           eq_refl eq_refl (VStr "ether2") _ _ eq_refl eq_refl).
Defined.

(** X19: with client tracking switched on and no ARP data on the router,
    [get_interface_client] returns [True] after the one fetch of [/ip/arp]:
    the ARP table is empty and the interface table is exactly as it was, so
    client fields set in earlier cycles stay. *)
Theorem tracking_without_arp_data `{Helper} (c : controller) :
  truthy (option_track_arp c) = true ->
  path (api c) "/ip/arp" = [] ->
  get_interface_client c =
    (Ok true, with_call (set_data c (set_arp (self_data c) [])) (CallPath "/ip/arp")).
Proof.
  intros Hon Hempty. rewrite (get_interface_client_on_eq c Hon).
  unfold update_arp. unfold bind at 1, api_path.
  cbn [api set_data]. rewrite Hempty. cbn [no_data ret].
  now rewrite copy_nothing.
Qed.

Lemma tracking_without_arp_data_witness :
  fst (@get_interface_client sample_helper no_arp_data) = Ok true /\
  interface (self_data (snd (@get_interface_client sample_helper no_arp_data))) =
    interface (self_data no_arp_data) /\
  arp (self_data (snd (@get_interface_client sample_helper no_arp_data))) = [] /\
  calls (snd (@get_interface_client sample_helper no_arp_data)) = [CallPath "/ip/arp"].
Proof.
  rewrite (@tracking_without_arp_data sample_helper no_arp_data eq_refl eq_refl).
  repeat split.
Defined.

(** X20: with client tracking switched on, a call that ends normally has
    fetched [/ip/arp] and then, exactly when some ARP record was valid and
    seen on the bridge, [/interface/bridge/host]; it made no other call. *)
Theorem tracking_fetches_bridge_hosts_on_demand `{Helper} (c : controller) :
  truthy (option_track_arp c) = true ->
  fst (get_interface_client c) = Ok true ->
  calls (snd (get_interface_client c)) =
    (calls c ++
     CallPath "/ip/arp" ::
     (if existsb on_bridge (path (api c) "/ip/arp")
      then [CallPath "/interface/bridge/host"] else []))%list.
Proof.
  intros Hon. rewrite (get_interface_client_on_eq c Hon).
  pose proof (update_arp_locals (set_data c (set_arp (self_data c) [])) [] false) as Hret.
  pose proof (update_arp_calls [] false (set_data c (set_arp (self_data c) []))) as Hc1.
  destruct (update_arp [] false (set_data c (set_arp (self_data c) [])))
    as [[[mac2ip bridge_used]|e] c1]; [|discriminate].
  specialize (Hret _ eq_refl). injection Hret as -> ->.
  cbn [api set_data orb snd calls] in *.
  destruct (existsb on_bridge (path (api c) "/ip/arp")).
  - pose proof (update_bridge_hosts_calls
                  (fold_left learn_mac (path (api c) "/ip/arp") []) c1) as Hc2.
    destruct (update_bridge_hosts _ c1) as [[[]|e] c2]; [|discriminate].
    destruct (copy_all c2) as (_ & _ & Hc3 & _).
    destruct (for_each (dict_keys (interface (self_data c2))) copy_client c2)
      as [[[]|e] c3]; [|discriminate].
    cbn [fst snd] in *. intros _. rewrite Hc3, Hc2, Hc1, <- app_assoc. reflexivity.
  - cbn [ret].
    destruct (copy_all c1) as (_ & _ & Hc3 & _).
    destruct (for_each (dict_keys (interface (self_data c1))) copy_client c1)
      as [[[]|e] c3]; [|discriminate].
    cbn [fst snd] in *. intros _. rewrite Hc3, Hc1. reflexivity.
Qed.

Lemma tracking_fetches_bridge_hosts_on_demand_witness :
  calls (snd (@get_interface_client sample_helper host_behind_bridge)) =
    [CallPath "/ip/arp"; CallPath "/interface/bridge/host"] /\
  calls (snd (@get_interface_client sample_helper one_host_on_lan)) = [CallPath "/ip/arp"].
Proof.
  split.
  - exact (@tracking_fetches_bridge_hosts_on_demand sample_helper host_behind_bridge
             eq_refl eq_refl).
  - exact (@tracking_fetches_bridge_hosts_on_demand sample_helper one_host_on_lan
             eq_refl eq_refl).
Defined.

(** ** The traffic query *)

Lemma append_nil_r (s : string) : (s ++ "")%string = s.
Proof. induction s as [|a s IH]; cbn; [reflexivity | now rewrite IH]. Qed.

Lemma append_assoc (a b c : string) : ((a ++ b) ++ c)%string = (a ++ b ++ c)%string.
Proof. induction a as [|x a IH]; cbn; [reflexivity | now rewrite IH]. Qed.

Lemma append_not_empty (a : string) (n : string) : n <> "" -> (a ++ n)%string <> "".
Proof. destruct a; cbn; [auto | discriminate]. Qed.

(** Appending the names one by one, each after a comma. *)
Lemma concat_comma_cons n names :
  String.concat "," (n :: names) =
  (n ++ fold_right (fun m s => "," ++ m ++ s) "" names)%string.
Proof.
  revert n. induction names as [|m names IH]; intros n.
  - cbn. now rewrite append_nil_r.
  - change (String.concat "," (n :: m :: names))
      with (n ++ "," ++ String.concat "," (m :: names))%string.
    now rewrite IH.
Qed.

Lemma join_names_from t : forall uids names acc,
  acc <> "" -> Forall2 (named t) uids names ->
  join_names t uids acc =
    Ok (acc ++ fold_right (fun m s => "," ++ m ++ s) "" names)%string.
Proof.
  induction uids as [|uid uids IH]; intros names acc Hacc Hall.
  - inversion Hall; subst. cbn. now rewrite append_nil_r.
  - inversion Hall as [|? n ? names' (r & Er & En & Hn) Hrest]; subst.
    cbn [join_names fold_right]. unfold subscript. rewrite Er, En.
    apply String.eqb_neq in Hacc. rewrite Hacc. cbn [negb].
    rewrite (IH names' ((acc ++ ",") ++ n)%string).
    + now rewrite !append_assoc.
    + now apply append_not_empty.
    + exact Hrest.
Qed.

Lemma join_names_all t uids names :
  Forall2 (named t) uids names ->
  join_names t uids "" = Ok (String.concat "," names).
Proof.
  intros Hall. destruct Hall as [|uid n uids names (r & Er & En & Hn) Hrest].
  - reflexivity.
  - cbn [join_names]. unfold subscript. rewrite Er, En. cbn [String.eqb negb].
    rewrite (join_names_from t uids names ("" ++ n)%string); [|exact Hn | exact Hrest].
    now rewrite concat_comma_cons.
Qed.

(** X21: when every interface of the table has a non-empty string as its
    name, [get_interface_traffic] asks the router once for the traffic of
    those names joined by commas, in table order, whatever argument it was
    called with, and stores what the merger makes of the answer, matched by
    ['name']; when it raises instead, it has made no call and changed
    nothing. *)
Theorem get_interface_traffic_joins_names `{Merger} (c : controller) (arg : pyobj)
    (names : list string) :
  (Forall2 (named (interface (self_data c))) (dict_keys (interface (self_data c))) names ->
   get_interface_traffic arg c =
     (Ok tt,
      set_data (with_call c (CallTraffic (String.concat "," names)))
        (set_interface (self_data c)
           (from_list (interface (self_data c))
              (get_traffic (api c) (String.concat "," names))
              None (Some "name") traffic_vals [])))) /\
  (forall e, fst (get_interface_traffic arg c) = Raise e ->
             snd (get_interface_traffic arg c) = c).
Proof.
  split.
  - intros Hall. unfold get_interface_traffic, bind, get_data, lift.
    now rewrite (join_names_all _ _ _ Hall).
  - intros e. unfold get_interface_traffic, bind, get_data, lift.
    destruct (join_names (interface (self_data c)) (dict_keys (interface (self_data c))) "");
      [discriminate | reflexivity].
Qed.

Lemma two_interfaces_named :
  Forall2 (named (interface (self_data host_behind_bridge)))
    (dict_keys (interface (self_data host_behind_bridge))) ["ether1"; "lan"].
Proof.
  repeat constructor.
  - exists ether1. split; [reflexivity|]. split; [reflexivity | discriminate].
  - exists ether2. split; [reflexivity|]. split; [reflexivity | discriminate].
Qed.

Lemma get_interface_traffic_joins_names_witness :
  calls (snd (@get_interface_traffic traffic_merger (ObjVal VNone) host_behind_bridge)) =
    [CallTraffic "ether1,lan"].
Proof.
  rewrite (proj1 (@get_interface_traffic_joins_names traffic_merger host_behind_bridge
                    (ObjVal VNone) ["ether1"; "lan"]) two_interfaces_named).
  reflexivity.
Defined.

(** ** Resource usage at the edges *)

Lemma float_of_int_100 :
  float_of_int 100 = S754_finite false 7036874417766400 (-46).
Proof. vm_compute. reflexivity. Qed.

(** Nothing used: equal counters that are not zero give 0. *)
Lemma usage_percent_all_free entry total free tv fv t :
  rec_get entry total = Some tv -> rec_get entry free = Some fv ->
  num_of tv = Some t -> num_of fv = Some t -> t <> 0 ->
  usage_percent entry total free = Ok (VInt 0).
Proof.
  intros Et Ef Ht Hf Hne. unfold usage_percent, subscript. rewrite Et, Ef.
  unfold py_sub. rewrite Ht, Hf, Z.sub_diag. unfold py_truediv. cbn [num_of]. rewrite Ht.
  apply Z.eqb_neq in Hne. rewrite Hne.
  unfold py_float_mul_int. rewrite float_of_int_100.
  destruct t as [|p|p]; [discriminate | reflexivity | reflexivity].
Qed.

(** X22: on a [/system/resource] answer of one record, in which each pair
    of counters is either incomplete or holds twice the same number other
    than zero, [get_system_resource] ends normally; [memory-usage] and
    [hdd-usage] each hold "unknown" for an incomplete pair and 0 for a pair
    with nothing used; and [platform] holds the record's platform, or
    "unknown" when the record has none. *)
Theorem get_system_resource_unknown_or_idle `{Helper} (c : controller) (entry : record) :
  path (api c) "/system/resource" = [entry] ->
  absent_or_all_free entry "total-memory" "free-memory" ->
  absent_or_all_free entry "total-hdd-space" "free-hdd-space" ->
  fst (get_system_resource c) = Ok tt /\
  rec_get (resource (self_data (snd (get_system_resource c)))) "memory-usage" =
    Some (if rec_mem entry "free-memory" && rec_mem entry "total-memory"
          then VInt 0 else VStr "unknown") /\
  rec_get (resource (self_data (snd (get_system_resource c)))) "hdd-usage" =
    Some (if rec_mem entry "free-hdd-space" && rec_mem entry "total-hdd-space"
          then VInt 0 else VStr "unknown") /\
  rec_get (resource (self_data (snd (get_system_resource c)))) "platform" =
    Some match rec_get entry "platform" with
         | Some v => v
         | None => VStr "unknown"
         end.
Proof.
  intros E Hmem Hhdd.
  assert (Hm : (if rec_mem entry "free-memory" && rec_mem entry "total-memory"
                then lift (usage_percent entry "total-memory" "free-memory")
                else lift (Ok (VStr "unknown"))) =
               lift (Ok (if rec_mem entry "free-memory" && rec_mem entry "total-memory"
                         then VInt 0 else VStr "unknown"))).
  { destruct Hmem as [-> | (tv & fv & t & Et & Ef & Ht & Hf & Hne)]; [reflexivity|].
    rewrite !rec_mem_get, Et, Ef. cbn [andb].
    now rewrite (usage_percent_all_free _ _ _ _ _ _ Et Ef Ht Hf Hne). }
  assert (Hh : (if rec_mem entry "free-hdd-space" && rec_mem entry "total-hdd-space"
                then lift (usage_percent entry "total-hdd-space" "free-hdd-space")
                else lift (Ok (VStr "unknown"))) =
               lift (Ok (if rec_mem entry "free-hdd-space" && rec_mem entry "total-hdd-space"
                         then VInt 0 else VStr "unknown"))).
  { destruct Hhdd as [-> | (tv & fv & t & Et & Ef & Ht & Hf & Hne)]; [reflexivity|].
    rewrite !rec_mem_get, Et, Ef. cbn [andb].
    now rewrite (usage_percent_all_free _ _ _ _ _ _ Et Ef Ht Hf Hne). }
  assert (Hrun : exists c',
    get_system_resource c = (Ok tt, c') /\
    resource (self_data c') =
      rec_set (rec_set (rec_set (rec_set (rec_set (rec_set (rec_set (resource (self_data c))
        "platform" (from_entry entry "platform" (Some (VStr "unknown"))))
        "board-name" (from_entry entry "board-name" (Some (VStr "unknown"))))
        "version" (from_entry entry "version" (Some (VStr "unknown"))))
        "uptime" (from_entry entry "uptime" (Some (VStr "unknown"))))
        "cpu-load" (from_entry entry "cpu-load" (Some (VStr "unknown"))))
        "memory-usage" (if rec_mem entry "free-memory" && rec_mem entry "total-memory"
                        then VInt 0 else VStr "unknown"))
        "hdd-usage" (if rec_mem entry "free-hdd-space" && rec_mem entry "total-hdd-space"
                     then VInt 0 else VStr "unknown")).
  { unfold get_system_resource. unfold bind at 1, api_path. rewrite E.
    cbn [no_data]. rewrite for_each_single. unfold get_system_resource_entry.
    replace (if rec_mem entry "free-memory" && rec_mem entry "total-memory"
             then usage <- lift (usage_percent entry "total-memory" "free-memory") ;;
                  assign_resource "memory-usage" usage
             else assign_resource "memory-usage" (VStr "unknown"))
      with (usage <- lift (Ok (if rec_mem entry "free-memory" && rec_mem entry "total-memory"
                               then VInt 0 else VStr "unknown")) ;;
            assign_resource "memory-usage" usage).
    2:{ destruct (rec_mem entry "free-memory" && rec_mem entry "total-memory") eqn:B.
        - now rewrite Hm.
        - reflexivity. }
    replace (if rec_mem entry "free-hdd-space" && rec_mem entry "total-hdd-space"
             then usage <- lift (usage_percent entry "total-hdd-space" "free-hdd-space") ;;
                  assign_resource "hdd-usage" usage
             else assign_resource "hdd-usage" (VStr "unknown"))
      with (usage <- lift (Ok (if rec_mem entry "free-hdd-space" && rec_mem entry "total-hdd-space"
                               then VInt 0 else VStr "unknown")) ;;
            assign_resource "hdd-usage" usage).
    2:{ destruct (rec_mem entry "free-hdd-space" && rec_mem entry "total-hdd-space") eqn:B.
        - now rewrite Hh.
        - reflexivity. }
    eexists. split; reflexivity. }
  destruct Hrun as (c' & -> & Hres). cbn [fst snd]. rewrite Hres.
  split; [reflexivity|]. rewrite !rec_get_set. cbn.
  split; [reflexivity|]. split; reflexivity.
Qed.

Lemma get_system_resource_unknown_or_idle_witness :
  fst (@get_system_resource sample_helper resource_all_free) = Ok tt /\
  rec_get (resource (self_data (snd (@get_system_resource sample_helper resource_all_free))))
    "memory-usage" = Some (VInt 0) /\
  rec_get (resource (self_data (snd (@get_system_resource sample_helper resource_all_free))))
    "hdd-usage" = Some (VStr "unknown").
Proof.
  destruct (@get_system_resource_unknown_or_idle sample_helper resource_all_free
              [("platform", VStr "MikroTik"); ("total-memory", VInt 134217728);
               ("free-memory", VInt 134217728); ("total-hdd-space", VInt 16777216)]
              eq_refl) as (Hok & Hmem & Hhdd & _).
  - right. exists (VInt 134217728), (VInt 134217728), 134217728.
    repeat split; try reflexivity. discriminate.
  - left. reflexivity.
  - split; [exact Hok|]. split; [exact Hmem | exact Hhdd].
Defined.

(** ** The singleton records *)

(** X23: after [get_system_routerboard] on an answer that ends with
    [entry], the routerboard record holds the entry's ['model'] and
    ['serial-number'], the entry's ['current-firmware'] under ['firmware'],
    each "unknown" when the entry lacks it, and the helper's boolean of
    ['routerboard']; any other field the record had is kept. *)
Theorem get_system_routerboard_stores_last `{Helper} (c : controller)
    (batch : list record) (entry : record) :
  path (api c) "/system/routerboard" = (batch ++ [entry])%list ->
  rec_get (routerboard (self_data (snd (get_system_routerboard c)))) "model"
    = Some (or_unknown entry "model") /\
  rec_get (routerboard (self_data (snd (get_system_routerboard c)))) "serial-number"
    = Some (or_unknown entry "serial-number") /\
  rec_get (routerboard (self_data (snd (get_system_routerboard c)))) "firmware"
    = Some (or_unknown entry "current-firmware") /\
  rec_get (routerboard (self_data (snd (get_system_routerboard c)))) "routerboard"
    = Some (from_entry_bool entry "routerboard" None false) /\
  (forall f, f <> "routerboard" -> f <> "model" -> f <> "serial-number" ->
             f <> "firmware" ->
     rec_get (routerboard (self_data (snd (get_system_routerboard c)))) f =
     rec_get (routerboard (self_data c)) f).
Proof.
  intros E.
  assert (Hs : forall f (r : record) a b, f <> a ->
            rec_get (rec_set r a b) f = rec_get r f).
  { intros f r a b Hf. rewrite rec_get_set.
    apply String.eqb_neq in Hf. now rewrite String.eqb_sym, Hf. }
  assert (Hloop : forall l c0,
    fst (for_each l get_system_routerboard_entry c0) = Ok tt /\
    forall f, f <> "routerboard" -> f <> "model" -> f <> "serial-number" ->
              f <> "firmware" ->
      rec_get (routerboard (self_data (snd (for_each l get_system_routerboard_entry c0)))) f
      = rec_get (routerboard (self_data c0)) f).
  { induction l as [|x l IH]; intros c0; [split; reflexivity|].
    assert (Hx : get_system_routerboard_entry x c0 =
                 (Ok tt, snd (get_system_routerboard_entry x c0))) by reflexivity.
    rewrite (for_each_cons_ok _ _ _ _ _ Hx).
    destruct (IH (snd (get_system_routerboard_entry x c0))) as [Hok Hkeep].
    split; [exact Hok|]. intros f H1 H2 H3 H4. rewrite (Hkeep f H1 H2 H3 H4).
    cbn [get_system_routerboard_entry]. unfold get_system_routerboard_entry, bind,
      assign_routerboard, modify.
    cbn [snd self_data set_data routerboard set_routerboard].
    now rewrite !Hs. }
  unfold get_system_routerboard. unfold bind at 1 2 3 4 5, api_path. rewrite E.
  replace (no_data (batch ++ [entry])%list) with false by (now destruct batch).
  rewrite for_each_app.
  destruct (Hloop batch (with_call c (CallPath "/system/routerboard"))) as [Hok Hkeep].
  destruct (for_each batch get_system_routerboard_entry
              (with_call c (CallPath "/system/routerboard"))) as [[[]|e] c1];
    [|discriminate].
  cbn [snd self_data with_call] in Hkeep.
  rewrite for_each_single.
  unfold get_system_routerboard_entry, bind, assign_routerboard, modify.
  cbn [snd self_data set_data routerboard set_routerboard].
  rewrite !rec_get_set. cbn.
  repeat (split; [reflexivity|]).
  intros f H1 H2 H3 H4. rewrite !Hs by assumption. now apply Hkeep.
Qed.

Lemma get_system_routerboard_stores_last_witness :
  routerboard (self_data (snd (@get_system_routerboard sample_helper routerboard_listed))) =
    [("site", VStr "attic"); ("routerboard", VBool true); ("model", VStr "RB750Gr3");
     ("serial-number", VStr "unknown"); ("firmware", VStr "6.45.1")] /\
  rec_get (routerboard (self_data (snd (@get_system_routerboard sample_helper
                                          routerboard_listed)))) "serial-number"
    = Some (VStr "unknown").
Proof.
  split; [reflexivity|].
  exact (proj1 (proj2 (@get_system_routerboard_stores_last sample_helper routerboard_listed
           [] [("routerboard", VBool true); ("model", VStr "RB750Gr3");
               ("current-firmware", VStr "6.45.1")] eq_refl))).
Defined.

(** ** Bridge ports and first sightings *)

(** X24: a bridge host answer in which every record is flagged ['local']
    never makes [update_bridge_hosts] raise and leaves [self.data] exactly
    as it was, whatever else the records hold or lack. *)
Theorem update_bridge_hosts_skips_local `{Helper} (c : controller) (mac2ip : mac2ip_t) :
  forallb is_local (path (api c) "/interface/bridge/host") = true ->
  leaves_data (update_bridge_hosts mac2ip) tt c.
Proof.
  intros Hlocal.
  assert (Hloop : forall l c0, forallb is_local l = true ->
            for_each l (update_bridge_hosts_entry mac2ip) c0 = (Ok tt, c0)).
  { induction l as [|x l IH]; intros c0 Hl; [reflexivity|].
    cbn [forallb] in Hl. apply andb_true_iff in Hl as [Hx Hl].
    unfold is_local in Hx. destruct (rec_get x "local") as [v|] eqn:Ev; [|discriminate].
    rewrite (for_each_cons_ok _ _ _ _ _
               (update_bridge_hosts_entry_local c0 mac2ip x v Ev Hx)).
    now apply IH. }
  unfold leaves_data, update_bridge_hosts. unfold bind at 1 2, api_path.
  destruct (path (api c) "/interface/bridge/host") as [|x l] eqn:E;
    [split; reflexivity|].
  cbn [no_data]. rewrite Hloop by exact Hlocal. split; reflexivity.
Qed.

Lemma update_bridge_hosts_skips_local_witness :
  leaves_data (@update_bridge_hosts sample_helper bridge_mac2ip) tt local_hosts_only.
Proof.
  exact (@update_bridge_hosts_skips_local sample_helper local_hosts_only bridge_mac2ip
           eq_refl).
Defined.

(** X25: the first ARP record seen for an interface decides its entry: when
    the fetch yields one record that is valid, was not seen on the bridge
    and resolves to a uid the ARP table does not hold, [update_arp] ends
    normally and leaves under that uid exactly the uid as ['interface'],
    the record's MAC as ['mac-address'] and its address as ['address']
    (each the helper's default when the record lacks it). *)
Theorem update_arp_first_sighting `{Helper} (c : controller) (entry : record)
    (uid : pyval) (mac2ip : mac2ip_t) (bridge_used : bool) :
  path (api c) "/ip/arp" = [entry] ->
  arp_candidate c entry uid ->
  tbl_get (arp (self_data c)) uid = None ->
  fst (update_arp mac2ip bridge_used c) = Ok (mac2ip, bridge_used) /\
  tbl_get (arp (self_data (snd (update_arp mac2ip bridge_used c)))) uid =
    Some [("interface", uid);
          ("mac-address", from_entry entry "mac-address" None);
          ("address", from_entry entry "address" None)].
Proof.
  intros E Hc Hnew.
  assert (Hrun : update_arp mac2ip bridge_used c =
    (Ok (mac2ip, bridge_used),
     set_data (with_log (with_call c (CallPath "/ip/arp"))
                 (LogDebug "/interface/bridge/host" entry))
       (set_arp (self_data c)
          (tbl_set (arp (self_data c)) uid
             (arp_record entry uid (record_at (arp (self_data c)) uid)))))).
  { unfold update_arp. unfold bind at 1, api_path. rewrite E.
    cbn [no_data for_fold]. unfold bind at 1.
    now rewrite (update_arp_entry_resolved (with_call c (CallPath "/ip/arp"))
                   entry uid (mac2ip, bridge_used) Hc). }
  rewrite Hrun. cbn [fst snd self_data set_data arp set_arp].
  split; [reflexivity|].
  rewrite tbl_get_set, py_eq_refl. unfold record_at. rewrite Hnew. reflexivity.
Qed.

Lemma arp_lan_host_candidate :
  arp_candidate one_host_on_lan arp_lan_host (VStr "ether2").
Proof.
  split; [exists (VBool false); split; reflexivity|].
  split; [exists (VStr "lan"); split; reflexivity|].
  split; reflexivity.
Defined.

Lemma update_arp_first_sighting_witness :
  fst (@update_arp sample_helper [] false one_host_on_lan) = Ok ([], false) /\
  tbl_get (arp (self_data (snd (@update_arp sample_helper [] false one_host_on_lan))))
    (VStr "ether2") =
    Some [("interface", VStr "ether2"); ("mac-address", VStr "AA:BB:CC:00:00:0C");
          ("address", VStr "192.168.88.30")].
Proof.
  exact (@update_arp_first_sighting sample_helper one_host_on_lan arp_lan_host
           (VStr "ether2") [] false eq_refl arp_lan_host_candidate eq_refl).
Defined.
